(** * pkgj: the streaming PKG pipeline and the install dispatcher

    A shallow embedding of [src/pkgi_download.cpp] (class [Download]) and of
    the version and patch functions of [src/install.cpp], with the
    properties of the specification stated over it.

    Conventions.
    - Fixed-width integers are [Z] with the wrap-around written out
      ([u32], [u64]).
    - Byte buffers are [list byte].
    - The [Download] object, the HTTP stream it owns and the device file
      system are threaded explicitly through a state-and-exception monad
      [M].  A C++ [throw DownloadError] is the outcome [Throw]; undefined
      behaviour of the C++ code (null dereference, write past the end of a
      buffer) is the outcome [Stuck].  A read past the end of a buffer is
      not tracked: it yields zeros, see [byte_at].
    - Everything the two source files use but do not define (buffer sizes
      from the class declaration, the AES and SHA-256 primitives, success of
      the I/O facade) is a field of the class [Platform]. *)

From stdpp Require Import gmap strings list.
From Stdlib Require Import ZArith Lia.
From Stdlib.Strings Require Import Byte Ascii.

Local Open Scope Z_scope.

(* ===================================================================== *)
(** * Machine integers and bytes *)
(* ===================================================================== *)

Definition u32 (z : Z) : Z := z mod 2^32.
Definition u64 (z : Z) : Z := z mod 2^64.

Definition byte_val (b : byte) : Z := Z.of_N (Byte.to_N b).

#[global] Instance byte_eq_dec : EqDecision byte.
Proof.
  intros x y. destruct (Byte.eqb x y) eqn:E.
  - left. by apply Byte.byte_dec_bl.
  - right. by apply Byte.eqb_false.
Defined.

(** [a ^ b] on [uint8_t]. *)
Definition byte_xor (a b : byte) : byte :=
  let '(a0, (a1, (a2, (a3, (a4, (a5, (a6, a7))))))) := Byte.to_bits a in
  let '(b0, (b1, (b2, (b3, (b4, (b5, (b6, b7))))))) := Byte.to_bits b in
  Byte.of_bits (xorb a0 b0, (xorb a1 b1, (xorb a2 b2, (xorb a3 b3,
               (xorb a4 b4, (xorb a5 b5, (xorb a6 b6, xorb a7 b7))))))).

(** [buf[i]]; a read outside of the bytes the buffer holds yields zero.
    In the C++ code a buffer is an array of fixed size: the bytes beyond
    those written are whatever was there, and a read past the end of the
    array is undefined behaviour.  Neither is tracked here.  The reads of
    [head] that the code does not keep below [head_size] are those of the
    metadata (line 265), of the first index record (line 310), of the
    index records (line 362) and of the names (line 378): where such a
    read leaves [head], the model goes on with zeros. *)
Definition byte_at (buf : list byte) (i : Z) : byte :=
  if i <? 0 then x00 else nth (Z.to_nat i) buf x00.

(** [len] bytes of [buf] from offset [off] ([pkgi_memcpy(dst, buf + off, len)]). *)
Definition slice (buf : list byte) (off len : Z) : list byte :=
  map (fun k => byte_at buf (off + Z.of_nat k)) (seq 0 (Z.to_nat len)).

(** Big-endian value of a byte string. *)
Definition be_value (l : list byte) : Z :=
  fold_left (fun acc b => acc * 256 + byte_val b) l 0.

Definition get32be (buf : list byte) (off : Z) : Z := be_value (slice buf off 4).
Definition get64be (buf : list byte) (off : Z) : Z := be_value (slice buf off 8).

(** [n] as [len] big-endian bytes (the low [8 * len] bits of [n]). *)
Fixpoint be_bytes (len : nat) (n : Z) : list byte :=
  match len with
  | O => []
  | S k => be_bytes k (n / 256) ++
           [default x00 (Byte.of_N (Z.to_N (n mod 256)))]
  end.

(** [pkgi_memequ(a, b, n)]: the first [n] bytes agree. *)
Definition pkgi_memequ (a b : list byte) (n : Z) : bool :=
  bool_decide (slice a 0 n = slice b 0 n).

Definition min64 (a b : Z) : Z := if a <? b then a else b.

(* ===================================================================== *)
(** * C strings *)
(* ===================================================================== *)

(** The string a [char] buffer denotes: its bytes up to the first NUL. *)
Fixpoint c_str (l : list byte) : string :=
  match l with
  | [] => EmptyString
  | b :: r => if bool_decide (b = x00) then EmptyString
              else String (Ascii.ascii_of_byte b) (c_str r)
  end.

Definition str_bytes (s : string) : list byte :=
  String.list_byte_of_string s.

(** [pkgi_snprintf(dst, cap, ...)] and [pkgi_strncpy(dst, cap, src)] keep
    at most [cap - 1] characters of the formatted text. *)
Definition pkgi_snprintf (cap : nat) (text : string) : string :=
  String.substring 0 (cap - 1) text.

(** [pkgi_strrchr(s, '/')]: index of the last slash. *)
Fixpoint pkgi_strrchr (s : string) : option nat :=
  match s with
  | EmptyString => None
  | String c r =>
      match pkgi_strrchr r with
      | Some i => Some (S i)
      | None => if bool_decide (c = "/"%char) then Some O else None
      end
  end.

(* ===================================================================== *)
(** * The device file system *)
(* ===================================================================== *)

Inductive node : Type :=
  | File (data : list byte)
  | Dir.

Abbreviation filesystem := (gmap string node).

(** The directories [pkgi_mkdirs] walks through: every prefix of the path
    that ends before a slash, then the path itself. *)
Fixpoint dir_prefixes (pre rest : string) : list string :=
  match rest with
  | EmptyString => [pre]
  | String c r =>
      if bool_decide (c = "/"%char)
      then pre :: dir_prefixes (pre +:+ "/") r
      else dir_prefixes (pre +:+ String c EmptyString) r
  end.

Definition fs_mkdir (p : string) (fs : filesystem) : filesystem :=
  match fs !! p with
  | Some _ => fs
  | None => <[p := Dir]> fs
  end.

Definition fs_mkdirs (path : string) (fs : filesystem) : filesystem :=
  foldl (fun acc p => fs_mkdir p acc) fs (dir_prefixes EmptyString path).

(** A walk that gave up: only the first [k] of the directories are made. *)
Definition fs_mkdirs_upto (k : nat) (path : string) (fs : filesystem)
  : filesystem :=
  foldl (fun acc p => fs_mkdir p acc) fs
    (take k (dir_prefixes EmptyString path)).

Definition fs_append (path : string) (data : list byte) (fs : filesystem)
  : filesystem :=
  match fs !! path with
  | Some (File old) => <[path := File (old ++ data)]> fs
  | _ => <[path := File data]> fs
  end.

(* ===================================================================== *)
(** * What the two source files take from elsewhere *)
(* ===================================================================== *)

Class Platform := {
  (** [sizeof(head)], [sizeof(down)], [sizeof(item_name)],
      [sizeof(item_path)], [sizeof(root)]: array members of [Download],
      declared in [pkgi_download.hpp]. *)
  HEAD_CAP : Z;
  DOWN_CAP : Z;
  NAME_CAP : Z;
  PATH_CAP : nat;
  ROOT_CAP : nat;
  (** [PKGI_RIF_SIZE] of [pkgi.h]. *)
  PKGI_RIF_SIZE : Z;
  pkgi_get_temp_folder : string;
  (** [aes128_init(&ctx, key); aes128_encrypt(&ctx, in, out)]: one block
      of AES-128 under [key]. *)
  aes128_encrypt : list byte -> list byte -> list byte;
  (** The SHA-256 digest of a byte string. *)
  sha256 : list byte -> list byte;
  (** Whether the I/O facade reports success for a request, given the
      state of the file system.  A failed create, write or save changes
      nothing. *)
  mkdirs_ok : string -> filesystem -> bool;
  (** How many of the directories on the way a [pkgi_mkdirs] that reports
      failure has made before it gave up. *)
  mkdirs_made : string -> filesystem -> nat;
  create_ok : string -> filesystem -> bool;
  write_ok : string -> list byte -> filesystem -> bool;
  save_ok : string -> list byte -> filesystem -> bool;
}.

(** Modelled from the spec: the sizes of the two fixed parts of the
    header, "PKG_HEADER_SIZE + PKG_HEADER_EXT_SIZE (=192+64=256)"; the
    macros are defined in [pkgi_download.hpp]. *)
Definition PKG_HEADER_SIZE : Z := 192.
Definition PKG_HEADER_EXT_SIZE : Z := 64.

Definition AES_BLOCK_SIZE : Z := 16.
Definition SHA256_DIGEST_SIZE : Z := 32.

Definition pkg_psp_key : list byte :=
  [x07; xf2; xc6; x82; x90; xb5; x0d; x2c; x33; x81; x8d; x70; x9b; x60; xe6; x2b].
Definition pkg_vita_2 : list byte :=
  [xe3; x1a; x70; xc9; xce; x1d; xd7; x2b; xf3; xc0; x62; x29; x63; xf2; xec; xcb].
Definition pkg_vita_3 : list byte :=
  [x42; x3a; xca; x3a; x2b; xd5; x64; x9f; x96; x86; xab; xad; x6f; xd8; x80; x1f].
Definition pkg_vita_4 : list byte :=
  [xaf; x07; xfd; x59; x65; x25; x27; xba; xf1; x33; x89; x66; x8b; x17; xd9; xea].

(* ===================================================================== *)
(** * AES-128 in counter mode *)
(* ===================================================================== *)

Section Ctr.
Context `{Platform}.

(** Modelled from the spec: [aes128_ctr(ctx, iv, offset, buf, size)] of
    the AES library, "XOR buf with the keystream
    E_k(iv + floor(stream_offset/16)) starting at byte stream_offset mod
    16 within that block"; the IV is a 128-bit big-endian counter. *)
Definition ctr_block (key iv : list byte) (blk : Z) : list byte :=
  aes128_encrypt key (be_bytes 16 (be_value (slice iv 0 16) + blk)).

Definition keystream_byte (key iv : list byte) (pos : Z) : byte :=
  byte_at (ctr_block key iv (pos / 16)) (pos mod 16).

Fixpoint aes128_ctr (key iv : list byte) (pos : Z) (buf : list byte)
  : list byte :=
  match buf with
  | [] => []
  | b :: r => byte_xor b (keystream_byte key iv pos)
              :: aes128_ctr key iv (pos + 1) r
  end.
End Ctr.

(* ===================================================================== *)
(** * SHA-256 context *)
(* ===================================================================== *)

(** Modelled from the spec: the incremental SHA-256 of the hash library
    ("SHA-256 incremental hash"): a context stands for the bytes it has
    absorbed, and finishing it yields their digest. *)
Record sha256_ctx := {
  sha_absorbed : list byte;
  sha_finished : bool;
}.

Definition sha256_init : sha256_ctx :=
  {| sha_absorbed := []; sha_finished := false |}.

Definition sha256_update (c : sha256_ctx) (data : list byte) : sha256_ctx :=
  {| sha_absorbed := sha_absorbed c ++ data; sha_finished := sha_finished c |}.

Definition sha256_finish `{Platform} (c : sha256_ctx) : list byte * sha256_ctx :=
  (sha256 (sha_absorbed c),
   {| sha_absorbed := sha_absorbed c; sha_finished := true |}).

(* ===================================================================== *)
(** * The HTTP reader *)
(* ===================================================================== *)

(** What the transport does at one [read]: hand over at most [n] bytes, or
    fail with the negative status [- code]. *)
Inductive http_event : Type :=
  | Deliver (n : nat)
  | Fail (code : positive).

(** Modelled from the spec: the [Http] interface ("range-resumable byte
    stream: start(url, offset), length() -> int64, read(buf) ->
    bytes_read").  The server holds [http_resource]; [start] positions the
    stream at the requested offset; [http_length] is what [get_length]
    reports; an exhausted script is a closed connection.  [http_served]
    records every byte [read] has returned. *)
Record Http := {
  http_started : option (string * Z);
  http_length : Z;
  http_resource : list byte;
  http_unread : list byte;
  http_script : list http_event;
  http_served : list byte;
}.

Definition http_start (url : string) (offset : Z) (h : Http) : Http :=
  {| http_started := Some (url, offset);
     http_length := http_length h;
     http_resource := http_resource h;
     http_unread := drop (Z.to_nat offset) (http_resource h);
     http_script := http_script h;
     http_served := http_served h |}.

Definition http_read (size : Z) (h : Http) : Z * list byte * Http :=
  match http_script h with
  | [] => (0, [], h)
  | Fail code :: rest =>
      (Z.neg code, [],
       {| http_started := http_started h; http_length := http_length h;
          http_resource := http_resource h; http_unread := http_unread h;
          http_script := rest; http_served := http_served h |})
  | Deliver n :: rest =>
      let data := take (Nat.min n (Z.to_nat size)) (http_unread h) in
      (Z.of_nat (length data), data,
       {| http_started := http_started h; http_length := http_length h;
          http_resource := http_resource h;
          http_unread := drop (length data) (http_unread h);
          http_script := rest;
          http_served := http_served h ++ data |})
  end.

(* ===================================================================== *)
(** * The Download object *)
(* ===================================================================== *)

(** The members of class [Download], together with the two things the
    object acts on: the file system of the device ([fs]) and the
    cancellation flag the user interface raises.  [cancel_in = Some k]
    says that [is_canceled()] answers false [k] more times and true from
    then on; [None] that the download is never cancelled.  An open file
    handle is the path the file was created at. *)
Record Download := {
  http : Http;
  fs : filesystem;
  cancel_in : option nat;
  download_size : Z;
  download_offset : Z;
  download_content : string;
  download_url : string;
  total_size : Z;
  enc_offset : Z;
  enc_size : Z;
  meta_offset : Z;
  meta_count : Z;
  content_type : Z;
  index_count : Z;
  index_size : Z;
  aes : list byte;
  iv : list byte;
  sha : sha256_ctx;
  item_file : option string;
  item_name : string;
  item_path : string;
  item_index : Z;
  head : list byte;
  head_size : Z;
  down : list byte;
  root : string;
  encrypted_base : Z;
  encrypted_offset : Z;
  decrypted_size : Z;
}.

(** Assignments to members. *)
Definition set_http (v : Http) (d : Download) : Download :=
  {| http := v; fs := fs d; cancel_in := cancel_in d;
     download_size := download_size d; download_offset := download_offset d;
     download_content := download_content d; download_url := download_url d;
     total_size := total_size d; enc_offset := enc_offset d;
     enc_size := enc_size d; meta_offset := meta_offset d;
     meta_count := meta_count d; content_type := content_type d;
     index_count := index_count d; index_size := index_size d; aes := aes d;
     iv := iv d; sha := sha d; item_file := item_file d;
     item_name := item_name d; item_path := item_path d;
     item_index := item_index d; head := head d; head_size := head_size d;
     down := down d; root := root d; encrypted_base := encrypted_base d;
     encrypted_offset := encrypted_offset d;
     decrypted_size := decrypted_size d |}.

Definition set_fs (v : filesystem) (d : Download) : Download :=
  {| http := http d; fs := v; cancel_in := cancel_in d;
     download_size := download_size d; download_offset := download_offset d;
     download_content := download_content d; download_url := download_url d;
     total_size := total_size d; enc_offset := enc_offset d;
     enc_size := enc_size d; meta_offset := meta_offset d;
     meta_count := meta_count d; content_type := content_type d;
     index_count := index_count d; index_size := index_size d; aes := aes d;
     iv := iv d; sha := sha d; item_file := item_file d;
     item_name := item_name d; item_path := item_path d;
     item_index := item_index d; head := head d; head_size := head_size d;
     down := down d; root := root d; encrypted_base := encrypted_base d;
     encrypted_offset := encrypted_offset d;
     decrypted_size := decrypted_size d |}.

Definition set_cancel_in (v : option nat) (d : Download) : Download :=
  {| http := http d; fs := fs d; cancel_in := v;
     download_size := download_size d; download_offset := download_offset d;
     download_content := download_content d; download_url := download_url d;
     total_size := total_size d; enc_offset := enc_offset d;
     enc_size := enc_size d; meta_offset := meta_offset d;
     meta_count := meta_count d; content_type := content_type d;
     index_count := index_count d; index_size := index_size d; aes := aes d;
     iv := iv d; sha := sha d; item_file := item_file d;
     item_name := item_name d; item_path := item_path d;
     item_index := item_index d; head := head d; head_size := head_size d;
     down := down d; root := root d; encrypted_base := encrypted_base d;
     encrypted_offset := encrypted_offset d;
     decrypted_size := decrypted_size d |}.

Definition set_download_size (v : Z) (d : Download) : Download :=
  {| http := http d; fs := fs d; cancel_in := cancel_in d;
     download_size := v; download_offset := download_offset d;
     download_content := download_content d; download_url := download_url d;
     total_size := total_size d; enc_offset := enc_offset d;
     enc_size := enc_size d; meta_offset := meta_offset d;
     meta_count := meta_count d; content_type := content_type d;
     index_count := index_count d; index_size := index_size d; aes := aes d;
     iv := iv d; sha := sha d; item_file := item_file d;
     item_name := item_name d; item_path := item_path d;
     item_index := item_index d; head := head d; head_size := head_size d;
     down := down d; root := root d; encrypted_base := encrypted_base d;
     encrypted_offset := encrypted_offset d;
     decrypted_size := decrypted_size d |}.

Definition set_download_offset (v : Z) (d : Download) : Download :=
  {| http := http d; fs := fs d; cancel_in := cancel_in d;
     download_size := download_size d; download_offset := v;
     download_content := download_content d; download_url := download_url d;
     total_size := total_size d; enc_offset := enc_offset d;
     enc_size := enc_size d; meta_offset := meta_offset d;
     meta_count := meta_count d; content_type := content_type d;
     index_count := index_count d; index_size := index_size d; aes := aes d;
     iv := iv d; sha := sha d; item_file := item_file d;
     item_name := item_name d; item_path := item_path d;
     item_index := item_index d; head := head d; head_size := head_size d;
     down := down d; root := root d; encrypted_base := encrypted_base d;
     encrypted_offset := encrypted_offset d;
     decrypted_size := decrypted_size d |}.

Definition set_content_type (v : Z) (d : Download) : Download :=
  {| http := http d; fs := fs d; cancel_in := cancel_in d;
     download_size := download_size d; download_offset := download_offset d;
     download_content := download_content d; download_url := download_url d;
     total_size := total_size d; enc_offset := enc_offset d;
     enc_size := enc_size d; meta_offset := meta_offset d;
     meta_count := meta_count d; content_type := v;
     index_count := index_count d; index_size := index_size d; aes := aes d;
     iv := iv d; sha := sha d; item_file := item_file d;
     item_name := item_name d; item_path := item_path d;
     item_index := item_index d; head := head d; head_size := head_size d;
     down := down d; root := root d; encrypted_base := encrypted_base d;
     encrypted_offset := encrypted_offset d;
     decrypted_size := decrypted_size d |}.

Definition set_index_size (v : Z) (d : Download) : Download :=
  {| http := http d; fs := fs d; cancel_in := cancel_in d;
     download_size := download_size d; download_offset := download_offset d;
     download_content := download_content d; download_url := download_url d;
     total_size := total_size d; enc_offset := enc_offset d;
     enc_size := enc_size d; meta_offset := meta_offset d;
     meta_count := meta_count d; content_type := content_type d;
     index_count := index_count d; index_size := v; aes := aes d;
     iv := iv d; sha := sha d; item_file := item_file d;
     item_name := item_name d; item_path := item_path d;
     item_index := item_index d; head := head d; head_size := head_size d;
     down := down d; root := root d; encrypted_base := encrypted_base d;
     encrypted_offset := encrypted_offset d;
     decrypted_size := decrypted_size d |}.

Definition set_aes (v : list byte) (d : Download) : Download :=
  {| http := http d; fs := fs d; cancel_in := cancel_in d;
     download_size := download_size d; download_offset := download_offset d;
     download_content := download_content d; download_url := download_url d;
     total_size := total_size d; enc_offset := enc_offset d;
     enc_size := enc_size d; meta_offset := meta_offset d;
     meta_count := meta_count d; content_type := content_type d;
     index_count := index_count d; index_size := index_size d; aes := v;
     iv := iv d; sha := sha d; item_file := item_file d;
     item_name := item_name d; item_path := item_path d;
     item_index := item_index d; head := head d; head_size := head_size d;
     down := down d; root := root d; encrypted_base := encrypted_base d;
     encrypted_offset := encrypted_offset d;
     decrypted_size := decrypted_size d |}.

Definition set_iv (v : list byte) (d : Download) : Download :=
  {| http := http d; fs := fs d; cancel_in := cancel_in d;
     download_size := download_size d; download_offset := download_offset d;
     download_content := download_content d; download_url := download_url d;
     total_size := total_size d; enc_offset := enc_offset d;
     enc_size := enc_size d; meta_offset := meta_offset d;
     meta_count := meta_count d; content_type := content_type d;
     index_count := index_count d; index_size := index_size d; aes := aes d;
     iv := v; sha := sha d; item_file := item_file d;
     item_name := item_name d; item_path := item_path d;
     item_index := item_index d; head := head d; head_size := head_size d;
     down := down d; root := root d; encrypted_base := encrypted_base d;
     encrypted_offset := encrypted_offset d;
     decrypted_size := decrypted_size d |}.

Definition set_sha (v : sha256_ctx) (d : Download) : Download :=
  {| http := http d; fs := fs d; cancel_in := cancel_in d;
     download_size := download_size d; download_offset := download_offset d;
     download_content := download_content d; download_url := download_url d;
     total_size := total_size d; enc_offset := enc_offset d;
     enc_size := enc_size d; meta_offset := meta_offset d;
     meta_count := meta_count d; content_type := content_type d;
     index_count := index_count d; index_size := index_size d; aes := aes d;
     iv := iv d; sha := v; item_file := item_file d;
     item_name := item_name d; item_path := item_path d;
     item_index := item_index d; head := head d; head_size := head_size d;
     down := down d; root := root d; encrypted_base := encrypted_base d;
     encrypted_offset := encrypted_offset d;
     decrypted_size := decrypted_size d |}.

Definition set_item_file (v : option string) (d : Download) : Download :=
  {| http := http d; fs := fs d; cancel_in := cancel_in d;
     download_size := download_size d; download_offset := download_offset d;
     download_content := download_content d; download_url := download_url d;
     total_size := total_size d; enc_offset := enc_offset d;
     enc_size := enc_size d; meta_offset := meta_offset d;
     meta_count := meta_count d; content_type := content_type d;
     index_count := index_count d; index_size := index_size d; aes := aes d;
     iv := iv d; sha := sha d; item_file := v; item_name := item_name d;
     item_path := item_path d; item_index := item_index d; head := head d;
     head_size := head_size d; down := down d; root := root d;
     encrypted_base := encrypted_base d;
     encrypted_offset := encrypted_offset d;
     decrypted_size := decrypted_size d |}.

Definition set_item_name (v : string) (d : Download) : Download :=
  {| http := http d; fs := fs d; cancel_in := cancel_in d;
     download_size := download_size d; download_offset := download_offset d;
     download_content := download_content d; download_url := download_url d;
     total_size := total_size d; enc_offset := enc_offset d;
     enc_size := enc_size d; meta_offset := meta_offset d;
     meta_count := meta_count d; content_type := content_type d;
     index_count := index_count d; index_size := index_size d; aes := aes d;
     iv := iv d; sha := sha d; item_file := item_file d; item_name := v;
     item_path := item_path d; item_index := item_index d; head := head d;
     head_size := head_size d; down := down d; root := root d;
     encrypted_base := encrypted_base d;
     encrypted_offset := encrypted_offset d;
     decrypted_size := decrypted_size d |}.

Definition set_item_path (v : string) (d : Download) : Download :=
  {| http := http d; fs := fs d; cancel_in := cancel_in d;
     download_size := download_size d; download_offset := download_offset d;
     download_content := download_content d; download_url := download_url d;
     total_size := total_size d; enc_offset := enc_offset d;
     enc_size := enc_size d; meta_offset := meta_offset d;
     meta_count := meta_count d; content_type := content_type d;
     index_count := index_count d; index_size := index_size d; aes := aes d;
     iv := iv d; sha := sha d; item_file := item_file d;
     item_name := item_name d; item_path := v; item_index := item_index d;
     head := head d; head_size := head_size d; down := down d;
     root := root d; encrypted_base := encrypted_base d;
     encrypted_offset := encrypted_offset d;
     decrypted_size := decrypted_size d |}.

Definition set_item_index (v : Z) (d : Download) : Download :=
  {| http := http d; fs := fs d; cancel_in := cancel_in d;
     download_size := download_size d; download_offset := download_offset d;
     download_content := download_content d; download_url := download_url d;
     total_size := total_size d; enc_offset := enc_offset d;
     enc_size := enc_size d; meta_offset := meta_offset d;
     meta_count := meta_count d; content_type := content_type d;
     index_count := index_count d; index_size := index_size d; aes := aes d;
     iv := iv d; sha := sha d; item_file := item_file d;
     item_name := item_name d; item_path := item_path d; item_index := v;
     head := head d; head_size := head_size d; down := down d;
     root := root d; encrypted_base := encrypted_base d;
     encrypted_offset := encrypted_offset d;
     decrypted_size := decrypted_size d |}.

Definition set_head (v : list byte) (d : Download) : Download :=
  {| http := http d; fs := fs d; cancel_in := cancel_in d;
     download_size := download_size d; download_offset := download_offset d;
     download_content := download_content d; download_url := download_url d;
     total_size := total_size d; enc_offset := enc_offset d;
     enc_size := enc_size d; meta_offset := meta_offset d;
     meta_count := meta_count d; content_type := content_type d;
     index_count := index_count d; index_size := index_size d; aes := aes d;
     iv := iv d; sha := sha d; item_file := item_file d;
     item_name := item_name d; item_path := item_path d;
     item_index := item_index d; head := v; head_size := head_size d;
     down := down d; root := root d; encrypted_base := encrypted_base d;
     encrypted_offset := encrypted_offset d;
     decrypted_size := decrypted_size d |}.

Definition set_head_size (v : Z) (d : Download) : Download :=
  {| http := http d; fs := fs d; cancel_in := cancel_in d;
     download_size := download_size d; download_offset := download_offset d;
     download_content := download_content d; download_url := download_url d;
     total_size := total_size d; enc_offset := enc_offset d;
     enc_size := enc_size d; meta_offset := meta_offset d;
     meta_count := meta_count d; content_type := content_type d;
     index_count := index_count d; index_size := index_size d; aes := aes d;
     iv := iv d; sha := sha d; item_file := item_file d;
     item_name := item_name d; item_path := item_path d;
     item_index := item_index d; head := head d; head_size := v;
     down := down d; root := root d; encrypted_base := encrypted_base d;
     encrypted_offset := encrypted_offset d;
     decrypted_size := decrypted_size d |}.

Definition set_down (v : list byte) (d : Download) : Download :=
  {| http := http d; fs := fs d; cancel_in := cancel_in d;
     download_size := download_size d; download_offset := download_offset d;
     download_content := download_content d; download_url := download_url d;
     total_size := total_size d; enc_offset := enc_offset d;
     enc_size := enc_size d; meta_offset := meta_offset d;
     meta_count := meta_count d; content_type := content_type d;
     index_count := index_count d; index_size := index_size d; aes := aes d;
     iv := iv d; sha := sha d; item_file := item_file d;
     item_name := item_name d; item_path := item_path d;
     item_index := item_index d; head := head d; head_size := head_size d;
     down := v; root := root d; encrypted_base := encrypted_base d;
     encrypted_offset := encrypted_offset d;
     decrypted_size := decrypted_size d |}.

Definition set_root (v : string) (d : Download) : Download :=
  {| http := http d; fs := fs d; cancel_in := cancel_in d;
     download_size := download_size d; download_offset := download_offset d;
     download_content := download_content d; download_url := download_url d;
     total_size := total_size d; enc_offset := enc_offset d;
     enc_size := enc_size d; meta_offset := meta_offset d;
     meta_count := meta_count d; content_type := content_type d;
     index_count := index_count d; index_size := index_size d; aes := aes d;
     iv := iv d; sha := sha d; item_file := item_file d;
     item_name := item_name d; item_path := item_path d;
     item_index := item_index d; head := head d; head_size := head_size d;
     down := down d; root := v; encrypted_base := encrypted_base d;
     encrypted_offset := encrypted_offset d;
     decrypted_size := decrypted_size d |}.

Definition set_encrypted_offset (v : Z) (d : Download) : Download :=
  {| http := http d; fs := fs d; cancel_in := cancel_in d;
     download_size := download_size d; download_offset := download_offset d;
     download_content := download_content d; download_url := download_url d;
     total_size := total_size d; enc_offset := enc_offset d;
     enc_size := enc_size d; meta_offset := meta_offset d;
     meta_count := meta_count d; content_type := content_type d;
     index_count := index_count d; index_size := index_size d; aes := aes d;
     iv := iv d; sha := sha d; item_file := item_file d;
     item_name := item_name d; item_path := item_path d;
     item_index := item_index d; head := head d; head_size := head_size d;
     down := down d; root := root d; encrypted_base := encrypted_base d;
     encrypted_offset := v; decrypted_size := decrypted_size d |}.

Definition set_decrypted_size (v : Z) (d : Download) : Download :=
  {| http := http d; fs := fs d; cancel_in := cancel_in d;
     download_size := download_size d; download_offset := download_offset d;
     download_content := download_content d; download_url := download_url d;
     total_size := total_size d; enc_offset := enc_offset d;
     enc_size := enc_size d; meta_offset := meta_offset d;
     meta_count := meta_count d; content_type := content_type d;
     index_count := index_count d; index_size := index_size d; aes := aes d;
     iv := iv d; sha := sha d; item_file := item_file d;
     item_name := item_name d; item_path := item_path d;
     item_index := item_index d; head := head d; head_size := head_size d;
     down := down d; root := root d; encrypted_base := encrypted_base d;
     encrypted_offset := encrypted_offset d; decrypted_size := v |}.

Definition set_header (mo mc ic ts eo es : Z) (d : Download) : Download :=
  {| http := http d; fs := fs d; cancel_in := cancel_in d;
     download_size := download_size d; download_offset := download_offset d;
     download_content := download_content d; download_url := download_url d;
     total_size := ts; enc_offset := eo; enc_size := es; meta_offset := mo;
     meta_count := mc; content_type := content_type d; index_count := ic;
     index_size := index_size d; aes := aes d; iv := iv d; sha := sha d;
     item_file := item_file d; item_name := item_name d;
     item_path := item_path d; item_index := item_index d; head := head d;
     head_size := head_size d; down := down d; root := root d;
     encrypted_base := encrypted_base d;
     encrypted_offset := encrypted_offset d;
     decrypted_size := decrypted_size d |}.

Definition set_item (size base index : Z) (d : Download) : Download :=
  {| http := http d; fs := fs d; cancel_in := cancel_in d;
     download_size := download_size d; download_offset := download_offset d;
     download_content := download_content d; download_url := download_url d;
     total_size := total_size d; enc_offset := enc_offset d;
     enc_size := enc_size d; meta_offset := meta_offset d;
     meta_count := meta_count d; content_type := content_type d;
     index_count := index_count d; index_size := index_size d; aes := aes d;
     iv := iv d; sha := sha d; item_file := item_file d;
     item_name := item_name d; item_path := item_path d;
     item_index := index; head := head d; head_size := head_size d;
     down := down d; root := root d; encrypted_base := base;
     encrypted_offset := 0; decrypted_size := size |}.

Definition set_session (content url : string) (d : Download) : Download :=
  {| http := http d; fs := fs d; cancel_in := cancel_in d;
     download_size := 0; download_offset := 0; download_content := content;
     download_url := url; total_size := total_size d;
     enc_offset := enc_offset d; enc_size := enc_size d;
     meta_offset := meta_offset d; meta_count := meta_count d;
     content_type := content_type d; index_count := index_count d;
     index_size := index_size d; aes := aes d; iv := iv d; sha := sha d;
     item_file := None; item_name := item_name d; item_path := item_path d;
     item_index := (-1); head := head d; head_size := head_size d;
     down := down d; root := root d; encrypted_base := encrypted_base d;
     encrypted_offset := encrypted_offset d;
     decrypted_size := decrypted_size d |}.

(* ===================================================================== *)
(** * Errors and the pipeline monad *)
(* ===================================================================== *)

(** The messages [DownloadError] is thrown with, one constructor per
    [throw] of [pkgi_download.cpp], in source order. *)
Inductive DownloadError : Type :=
  | HttpLengthUnknown
  | HttpDownloadError (status : Z)
  | HttpConnectionClosed
  | CannotWriteTo (path : string)
  | CannotCreateFolder (folder : string)
  | CannotCreateFile (name : string)
  | CannotCreate (path : string)
  | WrongPkgHeader
  | RifContentIdMismatch
  | HeadTooLarge
  | InvalidKeyType (key_type : Z)
  | PkgTooSmallOrCorrupted
  | UnsupportedPackageType (content_type : Z)
  | IndexSizeMismatch (expected got : Z)
  | FileOrdering (expected actual : Z)
  | CannotSave (path : string)
  | IntegrityFailed.

Inductive outcome (A : Type) : Type :=
  | Ret (a : A)
  | Throw (e : DownloadError)
  | Stuck
  | OutOfFuel.
Arguments Ret {A} a.
Arguments Throw {A} e.
Arguments Stuck {A}.
Arguments OutOfFuel {A}.

Definition M (A : Type) : Type := Download -> outcome A * Download.

Definition ret {A} (a : A) : M A := fun d => (Ret a, d).
Definition throw {A} (e : DownloadError) : M A := fun d => (Throw e, d).
Definition stuck {A} : M A := fun d => (Stuck, d).
Definition out_of_fuel {A} : M A := fun d => (OutOfFuel, d).
Definition get : M Download := fun d => (Ret d, d).
Definition modify (f : Download -> Download) : M unit := fun d => (Ret tt, f d).

Definition bind {A B} (m : M A) (k : A -> M B) : M B :=
  fun d =>
    match m d with
    | (Ret a, d') => k a d'
    | (Throw e, d') => (Throw e, d')
    | (Stuck, d') => (Stuck, d')
    | (OutOfFuel, d') => (OutOfFuel, d')
    end.

Notation "'let*' x ':=' m 'in' k" := (bind m (fun x => k))
  (at level 10, x name, m at level 100, k at level 200).
Notation "m1 ';;' m2" := (bind m1 (fun _ => m2))
  (at level 100, m2 at level 200, right associativity, only parsing).

(** [BOOST_SCOPE_EXIT_ALL(&) { if (item_file) { pkgi_close(item_file);
    item_file = NULL; } }]: runs however the body is left. *)
Definition scope_exit_close {A} (body : M A) : M A :=
  fun d => let (r, d') := body d in (r, set_item_file None d').

(* ===================================================================== *)
(** * The I/O facade *)
(* ===================================================================== *)

Section Pipeline.
Context `{Platform}.

(** Modelled from the spec: [pkgi_mkdirs], declared in [pkgi.h] and
    [file.hpp], the "create directories" of the I/O facade.  It makes the
    directories on the way to [path] one after the other, leaving those
    that exist.  The spec does not say what a failed call leaves behind:
    here it may have made any number of the leading directories,
    [mkdirs_made] of them, none included. *)
Definition pkgi_mkdirs (path : string) : M bool := fun d =>
  if mkdirs_ok path (fs d)
  then (Ret true, set_fs (fs_mkdirs path (fs d)) d)
  else (Ret false,
        set_fs (fs_mkdirs_upto (mkdirs_made path (fs d)) path (fs d)) d).

Definition pkgi_create (path : string) : M (option string) := fun d =>
  if create_ok path (fs d)
  then (Ret (Some path), set_fs (<[path := File []]> (fs d)) d)
  else (Ret None, d).

Definition pkgi_write (f : option string) (data : list byte) : M bool :=
  fun d =>
    match f with
    | Some path =>
        if write_ok path data (fs d)
        then (Ret true, set_fs (fs_append path data (fs d)) d)
        else (Ret false, d)
    | None => (Ret false, d)
    end.

Definition pkgi_save (path : string) (data : list byte) : M bool := fun d =>
  if save_ok path data (fs d)
  then (Ret true, set_fs (<[path := File data]> (fs d)) d)
  else (Ret false, d).

Definition pkgi_rm (path : string) : M unit :=
  modify (fun d => set_fs (delete path (fs d)) d).

Definition is_canceled : M bool := fun d =>
  match cancel_in d with
  | Some O => (Ret true, d)
  | Some (S k) => (Ret false, set_cancel_in (Some k) d)
  | None => (Ret false, d)
  end.

(* =================================================================== *)
(** * download_data *)
(* =================================================================== *)

(** The two buffers [download_data] is called on: [head + off] and
    [down]. *)
Inductive buffer : Type :=
  | InHead (off : Z)
  | InDown.

(** [buf] with [data] copied in at offset [off]. *)
Definition store (buf : list byte) (off : Z) (data : list byte) : list byte :=
  slice buf 0 off ++ data ++ drop (Z.to_nat off + length data) buf.

(** Bytes arriving in the buffer; running past the end of the array is
    undefined. *)
Definition fill (b : buffer) (data : list byte) : M unit :=
  match b with
  | InHead off =>
      if HEAD_CAP <? off + Z.of_nat (length data) then stuck
      else modify (fun d => set_head (store (head d) off data) d)
  | InDown =>
      if DOWN_CAP <? Z.of_nat (length data) then stuck
      else modify (fun d => set_down (store (down d) 0 data) d)
  end.

(** [if (!*_http) { ... }] *)
Definition open_stream : M unit :=
  let* d := get in
  match http_started (http d) with
  | Some _ => ret tt
  | None =>
      modify (fun d => set_http
                (http_start (download_url d) (download_offset d) (http d)) d);;
      let http_length := http_length (http d) in
      if http_length <? 0 then throw HttpLengthUnknown
      else
        modify (fun d => set_download_size
                  (u64 (http_length + download_offset d)) d)
  end.

(** [_http->read(buffer, size)] *)
Definition read_stream (size : Z) : M (Z * list byte) := fun d =>
  let '(n, data, h) := http_read size (http d) in
  (Ret (n, data), set_http h d).

(** Progress reporting ([update_progress], [info_start], [info_update])
    only feeds the user interface and is left out. *)
Definition download_data (buf : buffer) (size : Z) (encrypted save : bool)
  : M Z :=
  let* canceled := is_canceled in
  if canceled then ret 0
  else
    open_stream;;
    let* r := read_stream size in
    let read := fst r in
    let data := snd r in
    if read <? 0 then throw (HttpDownloadError read)
    else if read =? 0 then throw HttpConnectionClosed
    else
      fill buf data;;
      modify (fun d => set_download_offset (u64 (download_offset d + read)) d);;
      modify (fun d => set_sha (sha256_update (sha d) data) d);;
      let* data :=
        (if encrypted then
           let* d := get in
           let plain := aes128_ctr (aes d) (iv d)
                          (u64 (encrypted_base d + encrypted_offset d)) data in
           fill buf plain;;
           modify (fun d => set_encrypted_offset
                     (u64 (encrypted_offset d + read)) d);;
           ret plain
         else ret data) in
      (if save then
         let* write :=
           (if encrypted then
              let* d := get in
              let write := u32 (min64 (decrypted_size d) read) in
              modify (fun d => set_decrypted_size
                        (u64 (decrypted_size d - write)) d);;
              ret write
            else ret (u32 read)) in
         let* d := get in
         let* ok := pkgi_write (item_file d) (take (Z.to_nat write) data) in
         if ok then ret tt else throw (CannotWriteTo (item_path d))
       else ret tt);;
      ret read.

(* =================================================================== *)
(** * create_file *)
(* =================================================================== *)

Definition create_file : M Z :=
  let* d := get in
  let folder := pkgi_snprintf 256 (item_path d) in
  match pkgi_strrchr folder with
  | None => stuck
  | Some last =>
      let folder := String.substring 0 last folder in
      let* ok := pkgi_mkdirs folder in
      if negb ok then throw (CannotCreateFolder folder)
      else
        let* f := pkgi_create (item_path d) in
        modify (set_item_file f);;
        match f with
        | None => throw (CannotCreateFile (item_name d))
        | Some _ => ret 1
        end
  end.

(** Every pass through one of the read loops that does not leave the
    function takes one event off the script of the transport, so a loop
    entered with the script's length (plus one) as fuel never runs
    out of it. *)
Definition with_fuel {A} (loop : nat -> M A) : M A :=
  fun d => loop (S (length (http_script (http d)))) d.

(* =================================================================== *)
(** * download_head *)
(* =================================================================== *)

(** [while (head_offset != head_size) { ... }]; the answer is false when
    the loop leaves the function with [return 0]. *)
Fixpoint read_header (fuel : nat) (head_offset : Z) : M bool :=
  let* d := get in
  if head_offset =? head_size d then ret true
  else
    match fuel with
    | O => out_of_fuel
    | S fuel' =>
        let* size := download_data (InHead head_offset)
                       (u32 (head_size d - head_offset)) false true in
        if size <=? 0 then ret false
        else read_header fuel' (u32 (head_offset + size))
    end.

(** [while (head_size != target_size) { ... }] *)
Fixpoint grow_head (fuel : nat) (target_size : Z) : M bool :=
  let* d := get in
  if head_size d =? target_size then ret true
  else
    match fuel with
    | O => out_of_fuel
    | S fuel' =>
        let* size := download_data (InHead (head_size d))
                       (u32 (target_size - head_size d)) false true in
        if size <=? 0 then ret false
        else
          modify (fun d => set_head_size (u32 (head_size d + size)) d);;
          grow_head fuel' target_size
    end.

(** Lines 214-239: the package key, from the key type in the header and
    the IV. *)
Definition key_type_of (head : list byte) : Z :=
  Z.land (byte_val (byte_at head 0xe7)) 7.

Definition derive_key (head iv : list byte) : DownloadError + list byte :=
  let key_type := key_type_of head in
  if key_type =? 1 then inr (slice pkg_psp_key 0 AES_BLOCK_SIZE)
  else if key_type =? 2 then inr (aes128_encrypt pkg_vita_2 iv)
  else if key_type =? 3 then inr (aes128_encrypt pkg_vita_3 iv)
  else if key_type =? 4 then inr (aes128_encrypt pkg_vita_4 iv)
  else inl (InvalidKeyType key_type).

(** The body of [for (uint32_t i = 0; i < meta_count; i++)], run for
    the [n] entries that are left. *)
Fixpoint walk_meta (n : nat) (offset : Z) : M unit :=
  match n with
  | O => ret tt
  | S n' =>
      let* d := get in
      if enc_offset d <=? u32 (offset + 16)
      then throw PkgTooSmallOrCorrupted
      else
        let type := get32be (head d) (offset + 0) in
        let size := get32be (head d) (offset + 4) in
        (if type =? 2 then
           let ct := get32be (head d) (offset + 8) in
           modify (set_content_type ct);;
           if negb (ct =? 21) && negb (ct =? 22) && negb (ct =? 6)
           then throw (UnsupportedPackageType ct)
           else ret tt
         else if type =? 13 then
           modify (set_index_size (get32be (head d) (offset + 12)))
         else ret tt);;
        walk_meta n' (u32 (offset + u32 (8 + size)))
  end.

Definition head_bin_path (root : string) : string :=
  pkgi_snprintf PATH_CAP (root +:+ "/sce_sys/package/head.bin").

Definition download_head (rif : option (list byte)) : M Z :=
  modify (set_item_name (pkgi_snprintf (Z.to_nat NAME_CAP) "Preparing..."));;
  modify (fun d => set_item_path (head_bin_path (root d)) d);;
  scope_exit_close (
    let* created := create_file in
    let* d := get in
    if created =? 0 then throw (CannotCreate (item_path d))
    else
    modify (set_head_size (u32 (PKG_HEADER_SIZE + PKG_HEADER_EXT_SIZE)));;
    let* ok := with_fuel (fun fuel => read_header fuel 0) in
    if negb ok then ret 0
    else
    let* d := get in
    if negb (get32be (head d) 0 =? 0x7f504b47)
       || negb (get32be (head d) PKG_HEADER_SIZE =? 0x7F657874)
    then throw WrongPkgHeader
    else
    if match rif with
       | Some rif => negb (pkgi_memequ (drop 0x10 rif) (drop 0x30 (head d)) 0x30)
       | None => false
       end
    then throw RifContentIdMismatch
    else
    modify (set_header (get32be (head d) 8) (get32be (head d) 12)
              (get32be (head d) 20) (get64be (head d) 24)
              (get64be (head d) 32) (get64be (head d) 40));;
    let* d := get in
    if HEAD_CAP <? enc_offset d then throw HeadTooLarge
    else
    modify (set_iv (slice (head d) 0x70 AES_BLOCK_SIZE));;
    let* d := get in
    match derive_key (head d) (iv d) with
    | inl e => throw e
    | inr key =>
    modify (set_aes key);;
    let* ok := with_fuel (fun fuel => grow_head fuel (u32 (enc_offset d))) in
    if negb ok then ret 0
    else
    modify (set_index_size 0);;
    walk_meta (Z.to_nat (meta_count d)) (meta_offset d);;
    let* d := get in
    let target_size := u32 (enc_offset d + u32 (index_count d * 32)) in
    if HEAD_CAP <? target_size then throw HeadTooLarge
    else
    let* ok := with_fuel (fun fuel => grow_head fuel target_size) in
    if negb ok then ret 0
    else
    let* d := get in
    let item := aes128_ctr (aes d) (iv d) 0 (slice (head d) (enc_offset d) 32) in
    let item_offset := get64be item 8 in
    if negb (index_size d =? 0) && negb (item_offset =? index_size d)
    then throw (IndexSizeMismatch (index_size d) item_offset)
    else
    let target_size := u32 (enc_offset d + item_offset) in
    if HEAD_CAP <? target_size then throw HeadTooLarge
    else
    let* ok := with_fuel (fun fuel => grow_head fuel target_size) in
    if negb ok then ret 0
    else ret 1
    end).

(* =================================================================== *)
(** * download_files *)
(* =================================================================== *)

(** [while (encrypted_offset != encrypted_size) { ... }] with
    [download_data(down, read, 1, save)]. *)
Fixpoint drain_item (fuel : nat) (encrypted_size : Z) (save : bool) : M bool :=
  let* d := get in
  if encrypted_offset d =? encrypted_size then ret true
  else
    match fuel with
    | O => out_of_fuel
    | S fuel' =>
        let read := u32 (min64 DOWN_CAP
                           (u64 (encrypted_size - encrypted_offset d))) in
        let* size := download_data InDown read true save in
        if size <=? 0 then ret false
        else drain_item fuel' encrypted_size save
    end.

(** A decoded record of the file index. *)
Record index_entry := {
  name_offset : Z;
  name_size : Z;
  item_offset : Z;
  item_size : Z;
  item_type : Z;
}.

Definition read_index_entry (d : Download) (index : Z) : index_entry :=
  let item := aes128_ctr (aes d) (iv d) (u32 (32 * index))
                (slice (head d) (enc_offset d + u32 (32 * index)) 32) in
  {| name_offset := get32be item 0;
     name_size := get32be item 4;
     item_offset := get64be item 8;
     item_size := get64be item 16;
     item_type := byte_val (byte_at item 27) |}.

Definition read_item_name (d : Download) (e : index_entry) : string :=
  c_str (aes128_ctr (aes d) (iv d) (name_offset e)
           (slice (head d) (enc_offset d + name_offset e) (name_size e))).

Definition encrypted_size_of (item_size : Z) : Z :=
  Z.land (u64 (item_size + AES_BLOCK_SIZE - 1))
         (u64 (Z.lnot (AES_BLOCK_SIZE - 1))).

Definition document_dat_path (root : string) : string :=
  pkgi_snprintf PATH_CAP (root +:+ "/DOCUMENT.DAT").
Definition eboot_pbp_path (root : string) : string :=
  pkgi_snprintf PATH_CAP (root +:+ "/EBOOT.PBP").
Definition content_path (root name : string) : string :=
  pkgi_snprintf PATH_CAP (root +:+ "/" +:+ name).

(** Lines 424-468: what is done with an entry once [item_path] is set.
    The answer is false when the function is left with [return 0]. *)
Definition materialise (e : index_entry) (encrypted_size : Z) : M bool :=
  let* d := get in
  if item_type e =? 4 then
    let* _ := pkgi_mkdirs (item_path d) in ret true
  else if item_type e =? 18 then ret true
  else
    let* created := create_file in
    if created =? 0 then throw (CannotCreate (item_name d))
    else
    let* d := get in
    let expected := u64 (enc_offset d + item_offset e + encrypted_offset d) in
    if negb (expected =? download_offset d)
    then throw (FileOrdering expected (download_offset d))
    else
    if total_size d <? u64 (enc_offset d + item_offset e + item_size e)
    then throw PkgTooSmallOrCorrupted
    else
    let* ok := with_fuel (fun fuel => drain_item fuel encrypted_size true) in
    if negb ok then ret false
    else
      modify (set_item_file None);;
      ret true.

(** The body of [for (uint32_t index = 0; index < index_count; index++)]. *)
Definition download_file (index : Z) : M bool :=
  let* d := get in
  let e := read_index_entry d index in
  if (u32 (NAME_CAP - 1) <? name_size e)
     || (total_size d <? u64 (enc_offset d + name_offset e + name_size e))
  then throw PkgTooSmallOrCorrupted
  else
  let name := read_item_name d e in
  modify (set_item_name name);;
  let encrypted_size := encrypted_size_of (item_size e) in
  modify (set_item (item_size e) (item_offset e) index);;
  if content_type d =? 6 then
    if bool_decide (name = "USRDIR/CONTENT/DOCUMENT.DAT") then
      modify (set_item_path (document_dat_path (root d)));;
      materialise e encrypted_size
    else if bool_decide (name = "USRDIR/CONTENT/EBOOT.PBP") then
      modify (set_item_path (eboot_pbp_path (root d)));;
      materialise e encrypted_size
    else
      with_fuel (fun fuel => drain_item fuel encrypted_size false)
  else
    modify (set_item_path (content_path (root d) name));;
    materialise e encrypted_size.

Fixpoint download_entries (n : nat) (index : Z) : M bool :=
  match n with
  | O => ret true
  | S n' =>
      let* ok := download_file index in
      if negb ok then ret false
      else download_entries n' (index + 1)
  end.

Definition download_files : M Z :=
  scope_exit_close (
    let* d := get in
    let* ok := download_entries (Z.to_nat (index_count d)) 0 in
    if negb ok then ret 0
    else
      modify (set_item_index (-1));;
      ret 1).

(* =================================================================== *)
(** * download_tail *)
(* =================================================================== *)

(** [while (download_offset < tail_offset) { ... }] *)
Fixpoint skip_to_tail (fuel : nat) (tail_offset : Z) : M bool :=
  let* d := get in
  if negb (download_offset d <? tail_offset) then ret true
  else
    match fuel with
    | O => out_of_fuel
    | S fuel' =>
        let read := u32 (min64 DOWN_CAP
                           (u64 (tail_offset - download_offset d))) in
        let* size := download_data InDown read false false in
        if size <=? 0 then ret false
        else skip_to_tail fuel' tail_offset
    end.

(** [while (download_offset != total_size) { ... }] *)
Fixpoint drain_tail (fuel : nat) : M bool :=
  let* d := get in
  if download_offset d =? total_size d then ret true
  else
    match fuel with
    | O => out_of_fuel
    | S fuel' =>
        let read := u32 (min64 DOWN_CAP
                           (u64 (total_size d - download_offset d))) in
        let* size := download_data InDown read false
                       (negb (content_type d =? 6)) in
        if size <=? 0 then ret false
        else drain_tail fuel'
    end.

Definition tail_bin_path (root : string) : string :=
  pkgi_snprintf PATH_CAP (root +:+ "/sce_sys/package/tail.bin").

Definition download_tail : M Z :=
  scope_exit_close (
    modify (set_item_name (pkgi_snprintf (Z.to_nat NAME_CAP) "Finishing..."));;
    modify (fun d => set_item_path (tail_bin_path (root d)) d);;
    let* created := create_file in
    let* d := get in
    if created =? 0 then throw (CannotCreate (item_path d))
    else
    let tail_offset := u64 (enc_offset d + enc_size d) in
    let* ok := with_fuel (fun fuel => skip_to_tail fuel tail_offset) in
    if negb ok then ret 0
    else
    let* ok := with_fuel drain_tail in
    if negb ok then ret 0
    else ret 1).

(* =================================================================== *)
(** * check_integrity, create_stat, create_rif *)
(* =================================================================== *)

Definition check_integrity (digest : option (list byte)) : M Z :=
  match digest with
  | None => ret 1
  | Some digest =>
      let* d := get in
      let check := fst (sha256_finish (sha d)) in
      modify (fun d => set_sha (snd (sha256_finish (sha d))) d);;
      if negb (pkgi_memequ digest check SHA256_DIGEST_SIZE) then
        let path := pkgi_snprintf 256 (root d +:+ "/sce_sys/package/head.bin") in
        pkgi_rm path;;
        throw IntegrityFailed
      else ret 1
  end.

Definition create_stat : M Z :=
  let* d := get in
  let path := pkgi_snprintf 256 (root d +:+ "/sce_sys/package/stat.bin") in
  let* ok := pkgi_save path (replicate 768 x00) in
  if negb ok then throw (CannotSave path) else ret 1.

Definition create_rif (rif : list byte) : M Z :=
  let* d := get in
  let path := pkgi_snprintf 256 (root d +:+ "/sce_sys/package/work.bin") in
  let* ok := pkgi_save path (slice rif 0 PKGI_RIF_SIZE) in
  if negb ok then throw (CannotSave path) else ret 1.

(* =================================================================== *)
(** * pkgi_download *)
(* =================================================================== *)

Definition pkgi_download (content url : string)
    (rif digest : option (list byte)) : M Z :=
  modify (set_root (pkgi_snprintf ROOT_CAP
                      (pkgi_get_temp_folder +:+ "/" +:+ content)));;
  modify (fun d => set_sha sha256_init d);;
  modify (set_session content url);;
  let* r := download_head rif in
  if r =? 0 then ret 0 else
  let* r := download_files in
  if r =? 0 then ret 0 else
  let* r := download_tail in
  if r =? 0 then ret 0 else
  let* d := get in
  let* r := (if negb (content_type d =? 6) then create_stat else ret 1) in
  if r =? 0 then ret 0 else
  let* r := check_integrity digest in
  if r =? 0 then ret 0 else
  let* r := match rif with Some rif => create_rif rif | None => ret 1 end in
  if r =? 0 then ret 0 else
  ret 1.

End Pipeline.

(** In conversion problems the functions of the pipeline are unfolded
    before the plumbing of the monad. *)
Strategy 10 [bind modify ret throw stuck out_of_fuel get scope_exit_close
             with_fuel].

(* ===================================================================== *)
(** * Test packages *)
(* ===================================================================== *)

(** A small platform to run the pipeline on: a block cipher that XORs the
    block with the key, a 32-byte checksum in place of SHA-256, and an I/O
    facade that never fails. *)
Definition xor_cipher (key block : list byte) : list byte :=
  zip_with byte_xor (slice key 0 16) (slice block 0 16).

Definition checksum (l : list byte) : list byte :=
  be_bytes 32 (fold_left (fun acc b => (acc * 257 + byte_val b + 1) mod 2^256) l 0).

Definition test_platform : Platform :=
  {| HEAD_CAP := 4096; DOWN_CAP := 64; NAME_CAP := 256;
     PATH_CAP := 256; ROOT_CAP := 256; PKGI_RIF_SIZE := 64;
     pkgi_get_temp_folder := "ux0:pkgj";
     aes128_encrypt := xor_cipher;
     sha256 := checksum;
     mkdirs_ok := fun _ _ => true;
     mkdirs_made := fun _ _ => O;
     create_ok := fun _ _ => true;
     write_ok := fun _ _ _ => true;
     save_ok := fun _ _ _ => true |}.

Section TestPackages.
Existing Instance test_platform.

(** A file of a test package: name, item type, contents, and an amount
    by which the index misstates its offset. *)
Record test_file := {
  tf_name : string;
  tf_type : Z;
  tf_data : list byte;
  tf_skew : Z;
}.

Definition pad16 (l : list byte) : list byte :=
  l ++ replicate (Z.to_nat ((- Z.of_nat (length l)) mod 16)) x00.

Definition zeros (n : nat) : list byte := replicate n x00.

Definition test_iv : list byte :=
  [x10; x32; x54; x76; x98; xba; xdc; xfe; x01; x23; x45; x67; x89; xab; xcd; xef].

Definition test_content_id : string := "EP0000-PCSB00000_00-0000000000000000".

(** Index records, then the names, then the padded contents. *)
Fixpoint index_records (files : list test_file) (name_off item_off : Z)
  : list byte :=
  match files with
  | [] => []
  | f :: rest =>
      be_bytes 4 name_off
      ++ be_bytes 4 (Z.of_nat (String.length (tf_name f)))
      ++ be_bytes 8 (item_off + tf_skew f)
      ++ be_bytes 8 (Z.of_nat (length (tf_data f)))
      ++ be_bytes 4 (tf_type f) ++ zeros 4
      ++ index_records rest
           (name_off + Z.of_nat (String.length (tf_name f)))
           (item_off + Z.of_nat (length (pad16 (tf_data f))))
  end.

Definition names_of (files : list test_file) : list byte :=
  concat (map (fun f => str_bytes (tf_name f)) files).

Definition bodies_of (files : list test_file) : list byte :=
  concat (map (fun f => pad16 (tf_data f)) files).

Definition plain_region (files : list test_file) : list byte :=
  let index_len := 32 * Z.of_nat (length files) in
  let names := names_of files in
  index_records files index_len (index_len + Z.of_nat (length names))
  ++ names ++ bodies_of files.

Definition test_enc_offset : Z := 288.

Definition test_header (content_type key_type : Z) (files : list test_file)
    (tail : list byte) : list byte :=
  let enc_size := Z.of_nat (length (plain_region files)) in
  [x7f; x50; x4b; x47] ++ zeros 4
  ++ be_bytes 4 256 ++ be_bytes 4 1 ++ zeros 4
  ++ be_bytes 4 (Z.of_nat (length files))
  ++ be_bytes 8 (test_enc_offset + enc_size + Z.of_nat (length tail))
  ++ be_bytes 8 test_enc_offset
  ++ be_bytes 8 enc_size
  ++ pad16 (str_bytes test_content_id) ++ zeros 16
  ++ test_iv ++ zeros 64
  ++ [x7f; x65; x78; x74] ++ zeros 35 ++ be_bytes 1 key_type ++ zeros 24
  ++ be_bytes 4 2 ++ be_bytes 4 4 ++ be_bytes 4 content_type ++ zeros 20.

Definition test_key (key_type : Z) : list byte :=
  match derive_key (zeros 231 ++ be_bytes 1 key_type) test_iv with
  | inr key => key
  | inl _ => []
  end.

Definition test_pkg (content_type key_type : Z) (files : list test_file)
    (tail : list byte) : list byte :=
  test_header content_type key_type files tail
  ++ aes128_ctr (test_key key_type) test_iv 0 (plain_region files)
  ++ tail.

(** A fresh [Download] object on a server holding [resource], whose
    transport hands over at most [chunk] bytes per read. *)
Definition fresh_http (resource : list byte) (chunk : nat) : Http :=
  {| http_started := None;
     http_length := Z.of_nat (length resource);
     http_resource := resource;
     http_unread := [];
     http_script := replicate (S (length resource)) (Deliver chunk);
     http_served := [] |}.

Definition fresh_download (h : Http) (fs0 : filesystem) : Download :=
  {| http := h; fs := fs0; cancel_in := None;
     download_size := 0; download_offset := 0;
     download_content := ""; download_url := "";
     total_size := 0; enc_offset := 0; enc_size := 0;
     meta_offset := 0; meta_count := 0; content_type := 0;
     index_count := 0; index_size := 0;
     aes := []; iv := []; sha := sha256_init;
     item_file := None; item_name := ""; item_path := ""; item_index := 0;
     head := []; head_size := 0; down := []; root := "";
     encrypted_base := 0; encrypted_offset := 0; decrypted_size := 0 |}.

Definition test_url : string := "http://example.com/game.pkg".

Definition run_pipeline (resource : list byte) (chunk : nat)
    (rif digest : option (list byte)) : outcome Z * Download :=
  pkgi_download test_content_id test_url rif digest
    (fresh_download (fresh_http resource chunk) ∅).

(** The files of a run, by path. *)
Definition listing (d : Download) : list (string * node) :=
  map_to_list (fs d).

(** S1 of the specification: one 17-byte file [x.bin]. *)
Definition x_bin : list byte :=
  [x01; x02; x03; x04; x05; x06; x07; x08; x09; x0a; x0b; x0c; x0d; x0e;
   x0f; x10; x11].
Definition s1_files : list test_file :=
  [ {| tf_name := "x.bin"; tf_type := 0; tf_data := x_bin; tf_skew := 0 |} ].
Definition s1_tail : list byte := [xaa; xbb; xcc].
Definition s1_pkg : list byte := test_pkg 21 2 s1_files s1_tail.

End TestPackages.

(* ===================================================================== *)
(** * Facts about the file system *)
(* ===================================================================== *)

Lemma fs_append_file path old data (m : filesystem) :
  m !! path = Some (File old) ->
  fs_append path data m = <[path := File (old ++ data)]> m.
Proof. intros Hm. unfold fs_append. by rewrite Hm. Qed.

Lemma fs_append_lookup path data (m : filesystem) :
  exists content, fs_append path data m !! path = Some (File content).
Proof.
  unfold fs_append. destruct (m !! path) as [[old|]|];
    eexists; apply lookup_insert_eq.
Qed.

Lemma fs_append_other path data (m : filesystem) p :
  p <> path -> fs_append path data m !! p = m !! p.
Proof.
  intros Hp. unfold fs_append.
  destruct (m !! path) as [[old|]|]; by rewrite lookup_insert_ne.
Qed.

(** [pkgi_mkdirs] adds directories where there was nothing and changes
    nothing else. *)
Lemma fs_mkdir_each_lookup (l : list string) (m : filesystem) p :
  foldl (fun acc q => fs_mkdir q acc) m l !! p = m !! p
  \/ m !! p = None
     /\ foldl (fun acc q => fs_mkdir q acc) m l !! p = Some Dir.
Proof.
  revert m. induction l as [|q l IH]; intros m; simpl; [by left|].
  destruct (IH (fs_mkdir q m)) as [IH'|[IH1 IH2]].
  - rewrite IH'. unfold fs_mkdir. destruct (m !! q) eqn:Hq; [by left|].
    destruct (decide (q = p)) as [->|Hne].
    + right. by rewrite lookup_insert_eq.
    + left. by rewrite lookup_insert_ne.
  - unfold fs_mkdir in IH1. destruct (m !! q) eqn:Hq; [by right|].
    destruct (decide (q = p)) as [->|Hne].
    + by rewrite lookup_insert_eq in IH1.
    + rewrite lookup_insert_ne in IH1 by done. by right.
Qed.

Lemma fs_mkdirs_lookup path (m : filesystem) p :
  fs_mkdirs path m !! p = m !! p
  \/ m !! p = None /\ fs_mkdirs path m !! p = Some Dir.
Proof. apply fs_mkdir_each_lookup. Qed.

Lemma fs_mkdirs_upto_lookup k path (m : filesystem) p :
  fs_mkdirs_upto k path m !! p = m !! p
  \/ m !! p = None /\ fs_mkdirs_upto k path m !! p = Some Dir.
Proof. apply fs_mkdir_each_lookup. Qed.

Lemma fs_mkdirs_upto_file k path (m : filesystem) p data :
  fs_mkdirs_upto k path m !! p = Some (File data) <-> m !! p = Some (File data).
Proof.
  destruct (fs_mkdirs_upto_lookup k path m p) as [->|[Hn Hd]]; [done|].
  rewrite Hn, Hd. split; intros; discriminate.
Qed.

Lemma fs_mkdirs_file path (m : filesystem) p data :
  fs_mkdirs path m !! p = Some (File data) <-> m !! p = Some (File data).
Proof.
  destruct (fs_mkdirs_lookup path m p) as [->|[Hn Hd]]; [done|].
  rewrite Hn, Hd. split; intros; discriminate.
Qed.

(* ===================================================================== *)
(** * One call of download_data *)
(* ===================================================================== *)

Section DataStep.
Context `{Platform}.

(** The members [download_data] leaves alone. *)
Record same_package (d d' : Download) : Prop := {
  sp_root : root d' = root d;
  sp_url : download_url d' = download_url d;
  sp_content : download_content d' = download_content d;
  sp_total_size : total_size d' = total_size d;
  sp_enc_offset : enc_offset d' = enc_offset d;
  sp_enc_size : enc_size d' = enc_size d;
  sp_meta_offset : meta_offset d' = meta_offset d;
  sp_meta_count : meta_count d' = meta_count d;
  sp_content_type : content_type d' = content_type d;
  sp_index_count : index_count d' = index_count d;
  sp_index_size : index_size d' = index_size d;
  sp_aes : aes d' = aes d;
  sp_iv : iv d' = iv d;
  sp_item_file : item_file d' = item_file d;
  sp_item_name : item_name d' = item_name d;
  sp_item_path : item_path d' = item_path d;
  sp_item_index : item_index d' = item_index d;
  sp_head_size : head_size d' = head_size d;
  sp_encrypted_base : encrypted_base d' = encrypted_base d;
}.

Lemma same_package_refl d : same_package d d.
Proof. by split. Qed.

Lemma same_package_trans d1 d2 d3 :
  same_package d1 d2 -> same_package d2 d3 -> same_package d1 d3.
Proof. intros [] []. split; congruence. Qed.

(** The contents of the buffer after the call, and the number of its
    bytes that go to the file. *)
Definition payload (encrypted : bool) (d : Download) (data : list byte)
  : list byte :=
  if encrypted
  then aes128_ctr (aes d) (iv d)
         (u64 (encrypted_base d + encrypted_offset d)) data
  else data.

Definition written (encrypted : bool) (d : Download) (n : Z) : Z :=
  if encrypted then u32 (min64 (decrypted_size d) n) else u32 n.

(** A call that returned [n > 0], having read [data]. *)
Record data_step (buf : buffer) (size : Z) (encrypted save : bool)
    (d d' : Download) (n : Z) (data : list byte) : Prop := {
  ds_length : Z.of_nat (length data) = n;
  ds_bound : (length data <= Z.to_nat size)%nat;
  ds_served : http_served (http d') = http_served (http d) ++ data;
  ds_script :
    length (http_script (http d)) = S (length (http_script (http d')));
  ds_started : http_started (http d') =
    Some (default (download_url d, download_offset d)
                  (http_started (http d)));
  ds_sha : sha d' = sha256_update (sha d) data;
  ds_offset : download_offset d' = u64 (download_offset d + n);
  ds_encrypted_offset : encrypted_offset d' =
    if encrypted then u64 (encrypted_offset d + n) else encrypted_offset d;
  ds_decrypted_size : decrypted_size d' =
    if encrypted && save then u64 (decrypted_size d - written true d n)
    else decrypted_size d;
  ds_fs : fs d' =
    if save then
      match item_file d with
      | Some path =>
          fs_append path (take (Z.to_nat (written encrypted d n))
                               (payload encrypted d data)) (fs d)
      | None => fs d
      end
    else fs d;
  ds_open : save = true -> is_Some (item_file d);
  ds_head : head d' =
    match buf with
    | InHead off =>
        store (if encrypted then store (head d) off data else head d)
              off (payload encrypted d data)
    | InDown => head d
    end;
  ds_same : same_package d d';
}.

(** What any call does, however it ends (short of undefined
    behaviour). *)
Record data_effect (save : bool) (d d' : Download) (data : list byte)
  : Prop := {
  de_served : http_served (http d') = http_served (http d) ++ data;
  de_absorbed : sha_absorbed (sha d') = sha_absorbed (sha d) ++ data;
  de_finished : sha_finished (sha d') = sha_finished (sha d);
  de_started :
    http_started (http d') = http_started (http d)
    \/ http_started (http d) = None
       /\ http_started (http d') = Some (download_url d, download_offset d);
  de_offset :
    download_offset d' = download_offset d
    \/ is_Some (http_started (http d'));
  de_script :
    (length (http_script (http d')) <= length (http_script (http d)))%nat;
  de_fs :
    fs d' = fs d
    \/ save = true
       /\ exists path bytes,
            item_file d = Some path /\ fs d' = fs_append path bytes (fs d);
  de_same : same_package d d';
}.

Ltac run_data H :=
  unfold download_data in H;
  repeat unfold bind, is_canceled, open_stream, read_stream, http_read,
    fill, get, modify, ret, throw, stuck, pkgi_write in H;
  repeat (cbv beta in *; case_match; simplify_eq/=; try done).

Ltac use_path_facts :=
  try (rewrite length_take; lia);
  try (match goal with H : http_script _ = _ |- _ => rewrite H end; done);
  try (match goal with H : http_started _ = _ |- _ => rewrite H end; done);
  try (match goal with H : item_file _ = _ |- _ => rewrite H end; done).

Lemma download_data_ret buf size encrypted save d n d' :
  download_data buf size encrypted save d = (Ret n, d') -> n <> 0 ->
  exists data, data_step buf size encrypted save d d' n data.
Proof.
  intros Hrun Hn. run_data Hrun.
  all: eexists; split; simpl; try done; use_path_facts; by eauto.
Qed.

(** A call returns zero only when the download was cancelled, and then
    it has done nothing. *)
Lemma download_data_ret_0 buf size encrypted save d n d' :
  download_data buf size encrypted save d = (Ret n, d') -> n <= 0 ->
  n = 0 /\ d' = d /\ cancel_in d = Some O.
Proof.
  intros Hrun Hn. run_data Hrun.
  all: exfalso;
    repeat match goal with
           | H : (_ <? 0) = false |- _ => apply Z.ltb_ge in H
           | H : (_ =? 0) = false |- _ => apply Z.eqb_neq in H
           end; lia.
Qed.

Ltac effect_goal :=
  simpl;
  first
    [ reflexivity
    | done
    | left; done
    | right; done
    | right; by eauto
    | right; split; [done|]; do 2 eexists; split; [eassumption|reflexivity]
    | match goal with H : http_script _ = _ |- _ => rewrite H end;
      simpl; lia ].

Lemma download_data_effect buf size encrypted save d r d' :
  download_data buf size encrypted save d = (r, d') -> r <> Stuck ->
  exists data, data_effect save d d' data.
Proof.
  intros Hrun Hr. run_data Hrun.
  all: try (match goal with H : (Z.of_nat _ <? 0) = true |- _ =>
              apply Z.ltb_lt in H; lia end).
  all: try (match goal with H : (Z.of_nat (length ?l) =? 0) = true |- _ =>
              apply Z.eqb_eq in H;
              assert (l = []) as -> by (apply nil_length_inv; lia) end).
  all: first
    [ solve [ exists []; split; rewrite ?app_nil_r; effect_goal ]
    | solve [ eexists; split; effect_goal ] ].
Qed.

(** A call that finds the stream closed opens it at [download_offset]. *)
Lemma download_data_opens buf size encrypted save d r d' :
  download_data buf size encrypted save d = (r, d') ->
  http_started (http d) = None -> cancel_in d <> Some O ->
  http_started (http d') = Some (download_url d, download_offset d).
Proof. intros Hrun Hclosed Hcancel. run_data Hrun; congruence. Qed.

(** The errors of a call are those of the transport and of the write. *)
Lemma download_data_throws buf size encrypted save d e d' :
  download_data buf size encrypted save d = (Throw e, d') ->
  e = HttpLengthUnknown
  \/ (exists status, e = HttpDownloadError status)
  \/ e = HttpConnectionClosed
  \/ exists path, e = CannotWriteTo path.
Proof. intros Hrun. run_data Hrun; eauto 6. Qed.

(** However a call ends, it leaves every file but the open one alone. *)
Lemma download_data_confined buf size encrypted save d r d' :
  download_data buf size encrypted save d = (r, d') ->
  item_file d' = item_file d /\ root d' = root d
  /\ content_type d' = content_type d
  /\ forall p, item_file d <> Some p -> fs d' !! p = fs d !! p.
Proof.
  intros Hrun. run_data Hrun; repeat split; try done.
  all: intros q Hq; apply fs_append_other; congruence.
Qed.

(** Without [save] no call touches the file system. *)
Lemma download_data_unsaved buf size encrypted d r d' :
  download_data buf size encrypted false d = (r, d') -> fs d' = fs d.
Proof. intros Hrun. by run_data Hrun. Qed.

End DataStep.

(* ===================================================================== *)
(** * The session and its phases *)
(* ===================================================================== *)

Section Session.
Context `{Platform}.

(** [pkgi_download] resets the members of the session and then runs the
    phases. *)
Definition session_start (content url : string) (d : Download) : Download :=
  set_session content url
    (set_sha sha256_init
       (set_root (pkgi_snprintf ROOT_CAP
                    (pkgi_get_temp_folder +:+ "/" +:+ content)) d)).

Definition phases (rif digest : option (list byte)) : M Z :=
  let* r := download_head rif in
  if r =? 0 then ret 0 else
  let* r := download_files in
  if r =? 0 then ret 0 else
  let* r := download_tail in
  if r =? 0 then ret 0 else
  let* d := get in
  let* r := (if negb (content_type d =? 6) then create_stat else ret 1) in
  if r =? 0 then ret 0 else
  let* r := check_integrity digest in
  if r =? 0 then ret 0 else
  let* r := match rif with Some rif => create_rif rif | None => ret 1 end in
  if r =? 0 then ret 0 else
  ret 1.

Lemma pkgi_download_phases content url rif digest d :
  pkgi_download content url rif digest d =
  phases rif digest (session_start content url d).
Proof. reflexivity. Qed.
End Session.

(* ===================================================================== *)
(** * Invariants of the pipeline *)
(* ===================================================================== *)

(** [preserves P m]: however [m] ends, short of undefined behaviour, it
    takes states satisfying [P] to states satisfying [P]. *)
Create HintDb preserves.

Definition preserves {A} (P : Download -> Prop) (m : M A) : Prop :=
  forall d r d', m d = (r, d') -> r <> Stuck -> P d -> P d'.

Section Preserves.
Context {A B : Type} (P : Download -> Prop).

Lemma preserves_ret (a : A) : preserves P (ret a).
Proof. intros d r d' [= <- <-] _. done. Qed.

Lemma preserves_throw e : preserves P (throw (A:=A) e).
Proof. intros d r d' [= <- <-] _. done. Qed.

Lemma preserves_stuck : preserves P (stuck (A:=A)).
Proof. intros d r d' [= <- <-] ?. done. Qed.

Lemma preserves_out_of_fuel : preserves P (out_of_fuel (A:=A)).
Proof. intros d r d' [= <- <-] _. done. Qed.

Lemma preserves_get : preserves P get.
Proof. intros d r d' [= <- <-] _. done. Qed.

Lemma preserves_modify f :
  (forall d, P d -> P (f d)) -> preserves P (modify f).
Proof. intros Hf d r d' [= <- <-] _. apply Hf. Qed.

Lemma preserves_bind (m : M A) (k : A -> M B) :
  preserves P m -> (forall a, preserves P (k a)) -> preserves P (bind m k).
Proof.
  intros Hm Hk d r d' Hrun Hr HP. unfold bind in Hrun.
  destruct (m d) as [[a|e| |] d1] eqn:Hmd.
  - eapply Hk; [exact Hrun|done|]. eapply Hm; [exact Hmd|done|done].
  - simplify_eq. eapply Hm; [exact Hmd|done|done].
  - by simplify_eq.
  - simplify_eq. eapply Hm; [exact Hmd|done|done].
Qed.

Lemma preserves_scope_exit (body : M A) :
  preserves P body -> (forall d, P d -> P (set_item_file None d)) ->
  preserves P (scope_exit_close body).
Proof.
  intros Hbody Hclose d r d' Hrun Hr HP. unfold scope_exit_close in Hrun.
  destruct (body d) as [r1 d1] eqn:Hbd. simplify_eq.
  apply Hclose. by eapply Hbody.
Qed.

Lemma preserves_with_fuel (loop : nat -> M A) :
  (forall fuel, preserves P (loop fuel)) -> preserves P (with_fuel loop).
Proof. intros Hloop d r d' Hrun. by eapply Hloop. Qed.
End Preserves.

(** Invariants over the stream, the hash, the offset and the URL are
    untouched by everything but [download_data] and the start of a
    session. *)
Definition core_stable (P : Download -> Prop) : Prop :=
  forall d d',
    http d' = http d -> sha_absorbed (sha d') = sha_absorbed (sha d) ->
    download_offset d' = download_offset d ->
    download_url d' = download_url d ->
    P d -> P d'.

Section PipelinePreserves.
Context `{Platform} (P : Download -> Prop).
Hypothesis Hstable : core_stable P.
Hypothesis Hdata :
  forall buf size encrypted save,
    preserves P (download_data buf size encrypted save).

Ltac stable := intros; eapply Hstable; [| | | |eassumption]; done.

Ltac pres :=
  repeat
    match goal with
    | |- preserves _ (ret _) => apply preserves_ret
    | |- preserves _ (throw _) => apply preserves_throw
    | |- preserves _ stuck => apply preserves_stuck
    | |- preserves _ out_of_fuel => apply preserves_out_of_fuel
    | |- preserves _ get => apply preserves_get
    | |- preserves _ (download_data _ _ _ _) => apply Hdata
    | |- preserves _ (modify _) => apply preserves_modify; stable
    | |- preserves _ (with_fuel _) => apply preserves_with_fuel; intro
    | |- preserves _ (scope_exit_close _) =>
        apply preserves_scope_exit; [|stable]
    | |- preserves _ (bind _ _) => apply preserves_bind; [|intro]
    | |- preserves _ (if ?b then _ else _) => destruct b
    | |- preserves _ (match ?x with _ => _ end) => destruct x
    | |- preserves _ (let _ := _ in _) => cbv zeta
    | |- preserves _ _ => solve [auto with preserves]
    end.

Lemma preserves_io_mkdirs path : preserves P (pkgi_mkdirs path).
Proof.
  intros d r d' Hrun _ HP. unfold pkgi_mkdirs in Hrun.
  case_match; simplify_eq; stable.
Qed.

Lemma preserves_io_create path : preserves P (pkgi_create path).
Proof.
  intros d r d' Hrun _ HP. unfold pkgi_create in Hrun.
  case_match; simplify_eq; [stable|done].
Qed.

Lemma preserves_io_save path data : preserves P (pkgi_save path data).
Proof.
  intros d r d' Hrun _ HP. unfold pkgi_save in Hrun.
  case_match; simplify_eq; [stable|done].
Qed.

Lemma preserves_io_rm path : preserves P (pkgi_rm path).
Proof. apply preserves_modify. stable. Qed.

#[local] Hint Resolve preserves_io_mkdirs preserves_io_create preserves_io_save
  preserves_io_rm : preserves.

Lemma preserves_create_file : preserves P create_file.
Proof. unfold create_file. pres. Qed.
#[local] Hint Resolve preserves_create_file : preserves.

Lemma preserves_read_header fuel head_offset :
  preserves P (read_header fuel head_offset).
Proof.
  revert head_offset. induction fuel as [|fuel IH]; intros; simpl; pres.
Qed.

Lemma preserves_grow_head fuel target_size :
  preserves P (grow_head fuel target_size).
Proof. induction fuel as [|fuel IH]; simpl; pres. Qed.

Lemma preserves_walk_meta n offset : preserves P (walk_meta n offset).
Proof. revert offset. induction n as [|n IH]; intros; simpl; pres. Qed.

#[local] Hint Resolve preserves_read_header preserves_grow_head preserves_walk_meta
  : preserves.

Lemma preserves_download_head rif : preserves P (download_head rif).
Proof. unfold download_head. pres. Qed.

Lemma preserves_drain_item fuel encrypted_size save :
  preserves P (drain_item fuel encrypted_size save).
Proof. induction fuel as [|fuel IH]; simpl; pres. Qed.
#[local] Hint Resolve preserves_drain_item : preserves.

Lemma preserves_materialise e encrypted_size :
  preserves P (materialise e encrypted_size).
Proof. unfold materialise. pres. Qed.
#[local] Hint Resolve preserves_materialise : preserves.

Lemma preserves_download_file index : preserves P (download_file index).
Proof. unfold download_file. pres. Qed.
#[local] Hint Resolve preserves_download_file : preserves.

Lemma preserves_download_entries n index :
  preserves P (download_entries n index).
Proof. revert index. induction n as [|n IH]; intros; simpl; pres. Qed.
#[local] Hint Resolve preserves_download_entries : preserves.

Lemma preserves_download_files : preserves P download_files.
Proof. unfold download_files. pres. Qed.

Lemma preserves_skip_to_tail fuel tail_offset :
  preserves P (skip_to_tail fuel tail_offset).
Proof. induction fuel as [|fuel IH]; simpl; pres. Qed.

Lemma preserves_drain_tail fuel : preserves P (drain_tail fuel).
Proof. induction fuel as [|fuel IH]; simpl; pres. Qed.
#[local] Hint Resolve preserves_skip_to_tail preserves_drain_tail : preserves.

Lemma preserves_download_tail : preserves P download_tail.
Proof. unfold download_tail. pres. Qed.

Lemma preserves_check_integrity digest :
  preserves P (check_integrity digest).
Proof. unfold check_integrity. pres. Qed.

Lemma preserves_create_stat : preserves P create_stat.
Proof. unfold create_stat. pres. Qed.

Lemma preserves_create_rif rif : preserves P (create_rif rif).
Proof. unfold create_rif. pres. Qed.

#[local] Hint Resolve preserves_download_head preserves_download_files
  preserves_download_tail preserves_check_integrity preserves_create_stat
  preserves_create_rif : preserves.

Lemma preserves_phases rif digest : preserves P (phases rif digest).
Proof. unfold phases. pres. Qed.

End PipelinePreserves.

(* ===================================================================== *)
(** * The read loops never run out of fuel *)
(* ===================================================================== *)

(** [total m]: [m] never ends with [OutOfFuel]. *)
Definition total {A} (m : M A) : Prop :=
  forall d d', m d <> (OutOfFuel, d').

Section Total.
Context {A B : Type}.

Lemma total_ret (a : A) : total (ret a).
Proof. by intros d d'. Qed.

Lemma total_throw e : total (throw (A:=A) e).
Proof. by intros d d'. Qed.

Lemma total_stuck : total (stuck (A:=A)).
Proof. by intros d d'. Qed.

Lemma total_get : total get.
Proof. by intros d d'. Qed.

Lemma total_modify f : total (modify f).
Proof. by intros d d'. Qed.

Lemma total_bind (m : M A) (k : A -> M B) :
  total m -> (forall a, total (k a)) -> total (bind m k).
Proof.
  intros Hm Hk d d' Hrun. unfold bind in Hrun.
  destruct (m d) as [[a|e| |] d1] eqn:Hmd; try done.
  - by eapply Hk.
  - by eapply Hm.
Qed.

Lemma total_scope_exit (body : M A) :
  total body -> total (scope_exit_close body).
Proof.
  intros Hbody d d' Hrun. unfold scope_exit_close in Hrun.
  destruct (body d) as [r1 d1] eqn:Hbd. simplify_eq. by eapply Hbody.
Qed.
End Total.

Create HintDb total.

Section PipelineTotal.
Context `{Platform}.

Ltac tot :=
  repeat
    match goal with
    | |- total (ret _) => apply total_ret
    | |- total (throw _) => apply total_throw
    | |- total stuck => apply total_stuck
    | |- total get => apply total_get
    | |- total (modify _) => apply total_modify
    | |- total (scope_exit_close _) => apply total_scope_exit
    | |- total (bind _ _) => apply total_bind; [|intro]
    | |- total (if ?b then _ else _) => destruct b
    | |- total (match ?x with _ => _ end) => destruct x
    | |- total (let _ := _ in _) => cbv zeta
    | |- total _ => solve [auto with total]
    end.

Lemma total_download_data buf size encrypted save :
  total (download_data buf size encrypted save).
Proof.
  intros d d' Hrun. unfold download_data in Hrun.
  repeat unfold bind, is_canceled, open_stream, read_stream, http_read,
    fill, get, modify, ret, throw, stuck, pkgi_write in Hrun.
  repeat (cbv beta in *; case_match; simplify_eq/=; try done).
Qed.

Lemma total_io_mkdirs path : total (pkgi_mkdirs path).
Proof. intros d d'. unfold pkgi_mkdirs. by case_match. Qed.

Lemma total_io_create path : total (pkgi_create path).
Proof. intros d d'. unfold pkgi_create. by case_match. Qed.

Lemma total_io_save path data : total (pkgi_save path data).
Proof. intros d d'. unfold pkgi_save. by case_match. Qed.

Lemma total_io_rm path : total (pkgi_rm path).
Proof. apply total_modify. Qed.

#[local] Hint Resolve total_download_data total_io_mkdirs total_io_create
  total_io_save total_io_rm : total.

Lemma total_create_file : total create_file.
Proof. unfold create_file. tot. Qed.

Lemma total_walk_meta n offset : total (walk_meta n offset).
Proof. revert offset. induction n as [|n IH]; intros; simpl; tot. Qed.

#[local] Hint Resolve total_create_file total_walk_meta : total.

(** A loop's pass either leaves the loop or shortens the script. *)
Lemma loop_step buf size encrypted save d size' d1 :
  download_data buf size encrypted save d = (Ret size', d1) ->
  (size' <=? 0) = false ->
  S (length (http_script (http d1))) = length (http_script (http d)).
Proof.
  intros Hrun Hs. apply Z.leb_gt in Hs.
  destruct (download_data_ret _ _ _ _ _ _ _ Hrun) as [data Hstep]; [lia|].
  by destruct Hstep.
Qed.

Ltac loop_total IH :=
  match goal with
  | Hrun : bind (download_data ?b ?s ?e ?v) _ ?d = (OutOfFuel, _) |- _ =>
      unfold bind at 1 in Hrun;
      destruct (download_data b s e v d) as [[size'|?| |] d1] eqn:Hdata;
      try done;
      [ destruct (size' <=? 0) eqn:Hs; [done|];
        pose proof (loop_step _ _ _ _ _ _ _ Hdata Hs)
      | by eapply total_download_data ]
  end.

Lemma read_header_total fuel head_offset d d' :
  (length (http_script (http d)) < fuel)%nat ->
  read_header fuel head_offset d <> (OutOfFuel, d').
Proof.
  revert head_offset d. induction fuel as [|fuel IH]; intros ho d Hfuel Hrun;
    [lia|].
  simpl in Hrun. unfold bind at 1, get at 1 in Hrun.
  case_match; [done|]. loop_total IH.
  eapply IH; [|exact Hrun]. lia.
Qed.

Lemma grow_head_total fuel target_size d d' :
  (length (http_script (http d)) < fuel)%nat ->
  grow_head fuel target_size d <> (OutOfFuel, d').
Proof.
  revert d. induction fuel as [|fuel IH]; intros d Hfuel Hrun; [lia|].
  simpl in Hrun. unfold bind at 1, get at 1 in Hrun.
  case_match; [done|]. loop_total IH.
  unfold bind, modify in Hrun. eapply IH; [|exact Hrun]. simpl. lia.
Qed.

Lemma drain_item_total fuel encrypted_size save d d' :
  (length (http_script (http d)) < fuel)%nat ->
  drain_item fuel encrypted_size save d <> (OutOfFuel, d').
Proof.
  revert d. induction fuel as [|fuel IH]; intros d Hfuel Hrun; [lia|].
  simpl in Hrun. unfold bind at 1, get at 1 in Hrun.
  case_match; [done|]. loop_total IH.
  eapply IH; [|exact Hrun]. lia.
Qed.

Lemma skip_to_tail_total fuel tail_offset d d' :
  (length (http_script (http d)) < fuel)%nat ->
  skip_to_tail fuel tail_offset d <> (OutOfFuel, d').
Proof.
  revert d. induction fuel as [|fuel IH]; intros d Hfuel Hrun; [lia|].
  simpl in Hrun. unfold bind at 1, get at 1 in Hrun.
  case_match; [done|]. loop_total IH.
  eapply IH; [|exact Hrun]. lia.
Qed.

Lemma drain_tail_total fuel d d' :
  (length (http_script (http d)) < fuel)%nat ->
  drain_tail fuel d <> (OutOfFuel, d').
Proof.
  revert d. induction fuel as [|fuel IH]; intros d Hfuel Hrun; [lia|].
  simpl in Hrun. unfold bind at 1, get at 1 in Hrun.
  case_match; [done|]. loop_total IH.
  eapply IH; [|exact Hrun]. lia.
Qed.

Lemma total_with_fuel {A} (loop : nat -> M A) :
  (forall fuel d d',
      (length (http_script (http d)) < fuel)%nat ->
      loop fuel d <> (OutOfFuel, d')) ->
  total (with_fuel loop).
Proof. intros Hloop d d'. unfold with_fuel. apply Hloop. lia. Qed.

Lemma total_read_header head_offset :
  total (with_fuel (fun fuel => read_header fuel head_offset)).
Proof. apply total_with_fuel. intros. by apply read_header_total. Qed.

Lemma total_grow_head target_size :
  total (with_fuel (fun fuel => grow_head fuel target_size)).
Proof. apply total_with_fuel. intros. by apply grow_head_total. Qed.

Lemma total_drain_item encrypted_size save :
  total (with_fuel (fun fuel => drain_item fuel encrypted_size save)).
Proof. apply total_with_fuel. intros. by apply drain_item_total. Qed.

Lemma total_skip_to_tail tail_offset :
  total (with_fuel (fun fuel => skip_to_tail fuel tail_offset)).
Proof. apply total_with_fuel. intros. by apply skip_to_tail_total. Qed.

Lemma total_drain_tail : total (with_fuel drain_tail).
Proof. apply total_with_fuel. intros. by apply drain_tail_total. Qed.

#[local] Hint Resolve total_read_header total_grow_head total_drain_item
  total_skip_to_tail total_drain_tail : total.

Lemma total_download_head rif : total (download_head rif).
Proof. unfold download_head. tot. Qed.

Lemma total_materialise e encrypted_size :
  total (materialise e encrypted_size).
Proof. unfold materialise. tot. Qed.
#[local] Hint Resolve total_materialise : total.

Lemma total_download_file index : total (download_file index).
Proof. unfold download_file. tot. Qed.
#[local] Hint Resolve total_download_file : total.

Lemma total_download_entries n index : total (download_entries n index).
Proof. revert index. induction n as [|n IH]; intros; simpl; tot. Qed.
#[local] Hint Resolve total_download_entries : total.

Lemma total_download_files : total download_files.
Proof. unfold download_files. tot. Qed.

Lemma total_download_tail : total download_tail.
Proof. unfold download_tail. tot. Qed.

Lemma total_check_integrity digest : total (check_integrity digest).
Proof. unfold check_integrity. tot. Qed.

Lemma total_create_stat : total create_stat.
Proof. unfold create_stat. tot. Qed.

Lemma total_create_rif rif : total (create_rif rif).
Proof. unfold create_rif. tot. Qed.

#[local] Hint Resolve total_download_head total_download_files
  total_download_tail total_check_integrity total_create_stat
  total_create_rif : total.

(** The whole pipeline always ends: with a result, an error, or
    undefined behaviour. *)
Lemma total_pkgi_download content url rif digest :
  total (pkgi_download content url rif digest).
Proof. unfold pkgi_download. tot. Qed.

End PipelineTotal.

(* ===================================================================== *)
(** * Counter mode *)
(* ===================================================================== *)

Section CtrFacts.
Context `{Platform}.

Lemma length_aes128_ctr key iv pos buf :
  length (aes128_ctr key iv pos buf) = length buf.
Proof. revert pos. induction buf as [|b r IH]; intros; simpl; auto. Qed.

(** Decrypting a stream in pieces, each at its own offset, is decrypting
    it whole. *)
Lemma aes128_ctr_app key iv pos a b :
  aes128_ctr key iv pos (a ++ b) =
  aes128_ctr key iv pos a ++ aes128_ctr key iv (pos + Z.of_nat (length a)) b.
Proof.
  revert pos. induction a as [|x a IH]; intros pos; simpl.
  - by rewrite Z.add_0_r.
  - rewrite IH. do 3 f_equal. lia.
Qed.
End CtrFacts.

(* ===================================================================== *)
(** * create_file *)
(* ===================================================================== *)

Section CreateFile.
Context `{Platform}.

(** The folder [create_file] makes for [item_path]. *)
Definition folder_of (path : string) : option string :=
  let folder := pkgi_snprintf 256 path in
  match pkgi_strrchr folder with
  | Some last => Some (String.substring 0 last folder)
  | None => None
  end.

(** When [create_file] returns, the file exists, is empty and is open. *)
Lemma create_file_ret d v d' :
  create_file d = (Ret v, d') ->
  v = 1 /\
  exists folder,
    folder_of (item_path d) = Some folder /\
    d' = set_item_file (Some (item_path d))
           (set_fs (<[item_path d := File []]> (fs_mkdirs folder (fs d))) d).
Proof.
  unfold create_file, folder_of, bind, get, pkgi_mkdirs, pkgi_create,
    modify, ret, throw, stuck.
  intros Hrun.
  repeat (cbv beta zeta in *; case_match; simplify_eq/=; try done).
  split; [done|]. by eexists.
Qed.

(** However it ends, [create_file] adds directories, and at most the
    file at [item_path]. *)
Lemma create_file_fs d r d' p :
  create_file d = (r, d') -> p <> item_path d ->
  fs d' !! p = fs d !! p \/ fs d !! p = None /\ fs d' !! p = Some Dir.
Proof.
  unfold create_file, bind, get, pkgi_mkdirs, pkgi_create,
    modify, ret, throw, stuck.
  intros Hrun Hp.
  repeat (cbv beta zeta in *; case_match; simplify_eq/=; auto);
    rewrite ?lookup_insert_ne by done;
    first [apply fs_mkdirs_lookup | apply fs_mkdirs_upto_lookup].
Qed.

End CreateFile.

(* ===================================================================== *)
(** * The read loops *)
(* ===================================================================== *)

Section Loops.
Context `{Platform}.
Hypothesis HDOWN : 0 <= DOWN_CAP.

Lemma u32_small z : 0 <= z < 2^32 -> u32 z = z.
Proof. intros. unfold u32. by apply Z.mod_small. Qed.

Lemma u64_small z : 0 <= z < 2^64 -> u64 z = z.
Proof. intros. unfold u64. by apply Z.mod_small. Qed.

Lemma u32_range z : 0 <= u32 z < 2^32.
Proof. unfold u32. apply Z.mod_pos_bound. lia. Qed.

Lemma u64_range z : 0 <= u64 z < 2^64.
Proof. unfold u64. apply Z.mod_pos_bound. lia. Qed.

Lemma u32_le z : 0 <= z -> u32 z <= z.
Proof. intros. unfold u32. apply Z.mod_le; lia. Qed.

(** The size asked of a read on [down]. *)
Lemma chunk_bound left_ :
  0 <= left_ ->
  0 <= u32 (min64 DOWN_CAP (u64 left_)) <= left_.
Proof.
  intros Hl. split; [apply u32_range|].
  assert (0 <= min64 DOWN_CAP (u64 left_) <= left_).
  { unfold min64. pose proof (u64_range left_).
    assert (u64 left_ <= left_) by (unfold u64; apply Z.mod_le; lia).
    case_match; [apply Z.ltb_lt in H2|apply Z.ltb_ge in H2]; lia. }
  pose proof (u32_le (min64 DOWN_CAP (u64 left_))). lia.
Qed.

Lemma u64_add_l a b : u64 (u64 a + b) = u64 (a + b).
Proof. unfold u64. by rewrite Z.add_mod_idemp_l. Qed.

Lemma written_encrypted d n :
  0 <= decrypted_size d -> 0 <= n < 2^32 ->
  written true d n = Z.min (decrypted_size d) n.
Proof.
  intros Hd Hn. unfold written, min64.
  case_match; [apply Z.ltb_lt in H0|apply Z.ltb_ge in H0];
    rewrite u32_small by lia; lia.
Qed.

(** [drain_item] run to its end. *)
Record drained (encrypted_size : Z) (save : bool) (d d' : Download)
    (stream : list byte) : Prop := {
  dr_served : http_served (http d') = http_served (http d) ++ stream;
  dr_absorbed : sha_absorbed (sha d') = sha_absorbed (sha d) ++ stream;
  dr_length : Z.of_nat (length stream) = encrypted_size - encrypted_offset d;
  dr_offset :
    u64 (download_offset d') =
    u64 (download_offset d + Z.of_nat (length stream));
  dr_encrypted_offset : encrypted_offset d' = encrypted_size;
  dr_same : same_package d d';
  dr_unsaved : save = false ->
    fs d' = fs d /\ decrypted_size d' = decrypted_size d;
  dr_saved : save = true ->
    forall path old,
      item_file d = Some path -> fs d !! path = Some (File old) ->
      0 <= decrypted_size d < 2^64 ->
      0 <= encrypted_base d -> encrypted_base d + encrypted_size < 2^64 ->
      fs d' =
        <[path := File (old ++
            take (Z.to_nat (decrypted_size d))
              (aes128_ctr (aes d) (iv d)
                 (encrypted_base d + encrypted_offset d) stream))]> (fs d)
      /\ decrypted_size d' =
         Z.max 0 (decrypted_size d - Z.of_nat (length stream));
}.

Lemma drained_nil encrypted_size save d :
  encrypted_offset d = encrypted_size ->
  drained encrypted_size save d d [].
Proof.
  intros Hend. split; rewrite ?app_nil_r; simpl.
  - done.
  - done.
  - lia.
  - by rewrite Z.add_0_r.
  - done.
  - apply same_package_refl.
  - done.
  - intros _ path old Hf Hold ? ? ?.
    simpl. rewrite take_nil, app_nil_r, insert_id by done.
    split; [done|lia].
Qed.

Lemma drain_item_ret fuel encrypted_size save d d' :
  drain_item fuel encrypted_size save d = (Ret true, d') ->
  0 <= encrypted_offset d <= encrypted_size -> encrypted_size < 2^64 ->
  exists stream, drained encrypted_size save d d' stream.
Proof.
  revert d. induction fuel as [|fuel IH]; intros d Hrun Hoff Hes;
    simpl in Hrun; unfold bind at 1, get at 1 in Hrun.
  all: destruct (encrypted_offset d =? encrypted_size) eqn:Hend.
  all: try discriminate.
  1,2: apply Z.eqb_eq in Hend; injection Hrun as <-; exists [];
    by apply drained_nil.
  apply Z.eqb_neq in Hend.
  unfold bind at 1 in Hrun.
  destruct (download_data _ _ _ _ d) as [[n| | |] d1] eqn:Hdata;
    try discriminate.
  destruct (n <=? 0) eqn:Hn; [discriminate|]. apply Z.leb_gt in Hn.
  destruct (download_data_ret _ _ _ _ _ _ _ Hdata) as [data Hstep]; [lia|].
  pose proof (chunk_bound (encrypted_size - encrypted_offset d)
                ltac:(lia)) as Hchunk.
  destruct Hstep as [Hlen Hbound Hserved _ _ Hsha Hdoff Heoff Hdec Hfs Hopen
                       _ Hsame].
  simpl in Heoff.
  assert (n <= encrypted_size - encrypted_offset d) as Hle by lia.
  assert (n < 2^32) as Hn32.
  { pose proof (u32_range (min64 DOWN_CAP
      (u64 (encrypted_size - encrypted_offset d)))). lia. }
  rewrite u64_small in Heoff by lia.
  destruct (IH d1 Hrun) as [rest Hrest]; [lia|lia|].
  destruct Hrest as [Rserved Rabs Rlen Roff Reoff Rsame Runsaved Rsaved].
  exists (data ++ rest). split.
  - by rewrite Rserved, Hserved, app_assoc.
  - by rewrite Rabs, Hsha, app_assoc.
  - rewrite length_app, Nat2Z.inj_add. lia.
  - rewrite Roff, Hdoff, u64_add_l, length_app, Nat2Z.inj_add, <- Hlen.
    f_equal. lia.
  - done.
  - by eapply same_package_trans.
  - intros ->. destruct (Runsaved eq_refl) as [-> ->]. by rewrite Hfs, Hdec.
  - intros ->. intros path old Hfile Hold Hds Hbase Hend'.
    cbn [andb] in Hdec. rewrite Hfile in Hfs.
    rewrite written_encrypted in Hfs, Hdec by lia.
    unfold payload in Hfs. rewrite u64_small in Hfs by lia.
    rewrite (fs_append_file _ old) in Hfs by done.
    rewrite u64_small in Hdec by lia.
    destruct (Rsaved eq_refl path
                (old ++ take (Z.to_nat (Z.min (decrypted_size d) n))
                   (aes128_ctr (aes d) (iv d)
                      (encrypted_base d + encrypted_offset d) data)))
      as [Hfs' Hdec'].
    + by rewrite (sp_item_file _ _ Hsame).
    + rewrite Hfs. apply lookup_insert_eq.
    + lia.
    + rewrite (sp_encrypted_base _ _ Hsame). lia.
    + rewrite (sp_encrypted_base _ _ Hsame). lia.
    + split.
      * rewrite Hfs', Hfs, insert_insert_eq. do 2 f_equal.
        rewrite <- app_assoc. f_equal.
        rewrite (sp_aes _ _ Hsame), (sp_iv _ _ Hsame),
          (sp_encrypted_base _ _ Hsame), Heoff, Hdec.
        rewrite aes128_ctr_app, take_app, length_aes128_ctr.
        rewrite Hlen, Z.add_assoc. f_equal.
        -- destruct (Z.le_gt_cases (decrypted_size d) n).
           ++ by rewrite Z.min_l by lia.
           ++ rewrite Z.min_r by lia.
              rewrite !take_ge; [done| |];
                rewrite length_aes128_ctr; lia.
        -- f_equal. lia.
      * rewrite Hdec', Hdec, length_app, Nat2Z.inj_add. lia.
Qed.

(** A read of plain data of which every byte is kept. *)
Lemma written_plain d size n data :
  Z.of_nat (length data) = n ->
  (length data <= Z.to_nat (u32 size))%nat ->
  take (Z.to_nat (written false d n)) (payload false d data) = data.
Proof.
  intros Hlen Hbound. unfold written, payload.
  pose proof (u32_range size).
  rewrite u32_small by lia. apply take_ge. lia.
Qed.

(** [skip_to_tail] run to its end. *)
Record skipped (tail_offset : Z) (d d' : Download) (stream : list byte)
  : Prop := {
  sk_served : http_served (http d') = http_served (http d) ++ stream;
  sk_absorbed : sha_absorbed (sha d') = sha_absorbed (sha d) ++ stream;
  sk_fs : fs d' = fs d;
  sk_same : same_package d d';
  sk_reached : tail_offset <= download_offset d';
  sk_none : tail_offset <= download_offset d -> d' = d /\ stream = [];
  sk_exact :
    0 <= download_offset d <= tail_offset -> tail_offset < 2^64 ->
    download_offset d' = tail_offset
    /\ Z.of_nat (length stream) = tail_offset - download_offset d;
}.

Lemma skipped_nil tail_offset d :
  tail_offset <= download_offset d -> skipped tail_offset d d [].
Proof.
  intros Hend. split; rewrite ?app_nil_r.
  - done.
  - done.
  - done.
  - apply same_package_refl.
  - done.
  - done.
  - intros. simpl. lia.
Qed.

Lemma skip_to_tail_ret fuel tail_offset d d' :
  skip_to_tail fuel tail_offset d = (Ret true, d') ->
  exists stream, skipped tail_offset d d' stream.
Proof.
  revert d. induction fuel as [|fuel IH]; intros d Hrun;
    simpl in Hrun; unfold bind at 1, get at 1 in Hrun.
  all: destruct (download_offset d <? tail_offset) eqn:Hend;
    simpl in Hrun; try discriminate.
  1,3: apply Z.ltb_ge in Hend; injection Hrun as <-; exists [];
    by apply skipped_nil.
  apply Z.ltb_lt in Hend.
  unfold bind at 1 in Hrun.
  destruct (download_data _ _ _ _ d) as [[n| | |] d1] eqn:Hdata;
    try discriminate.
  destruct (n <=? 0) eqn:Hn; [discriminate|]. apply Z.leb_gt in Hn.
  destruct (download_data_ret _ _ _ _ _ _ _ Hdata) as [data Hstep]; [lia|].
  destruct Hstep as [Hlen Hbound Hserved _ _ Hsha Hdoff _ _ Hfs _ _ Hsame].
  destruct (IH d1 Hrun) as [rest Hrest].
  destruct Hrest as [Rserved Rabs Rfs Rsame Rreached Rnone Rexact].
  exists (data ++ rest). split.
  - by rewrite Rserved, Hserved, app_assoc.
  - by rewrite Rabs, Hsha, app_assoc.
  - by rewrite Rfs, Hfs.
  - by eapply same_package_trans.
  - done.
  - lia.
  - intros Hoff Htail.
    pose proof (chunk_bound (tail_offset - download_offset d) ltac:(lia)).
    rewrite u64_small in Hdoff by lia.
    destruct Rexact as [-> Rlen]; [lia|lia|].
    split; [done|]. rewrite length_app, Nat2Z.inj_add. lia.
Qed.

(** [drain_tail] run to its end. *)
Record tailed (d d' : Download) (stream : list byte) : Prop := {
  tl_served : http_served (http d') = http_served (http d) ++ stream;
  tl_absorbed : sha_absorbed (sha d') = sha_absorbed (sha d) ++ stream;
  tl_same : same_package d d';
  tl_end : download_offset d' = total_size d;
  tl_length :
    0 <= download_offset d <= total_size d -> total_size d < 2^64 ->
    Z.of_nat (length stream) = total_size d - download_offset d;
  tl_unsaved : content_type d = 6 -> fs d' = fs d;
  tl_saved : content_type d <> 6 ->
    forall path old,
      item_file d = Some path -> fs d !! path = Some (File old) ->
      fs d' = <[path := File (old ++ stream)]> (fs d);
}.

Lemma tailed_nil d :
  download_offset d = total_size d -> tailed d d [].
Proof.
  intros Hend. split; rewrite ?app_nil_r.
  - done.
  - done.
  - apply same_package_refl.
  - done.
  - intros. simpl. lia.
  - done.
  - intros _ path old _ Hold. by rewrite app_nil_r, insert_id.
Qed.

Lemma drain_tail_ret fuel d d' :
  drain_tail fuel d = (Ret true, d') ->
  exists stream, tailed d d' stream.
Proof.
  revert d. induction fuel as [|fuel IH]; intros d Hrun;
    simpl in Hrun; unfold bind at 1, get at 1 in Hrun.
  all: destruct (download_offset d =? total_size d) eqn:Hend;
    try discriminate.
  1,2: apply Z.eqb_eq in Hend; injection Hrun as <-; exists [];
    by apply tailed_nil.
  apply Z.eqb_neq in Hend.
  unfold bind at 1 in Hrun.
  destruct (download_data _ _ _ _ d) as [[n| | |] d1] eqn:Hdata;
    try discriminate.
  destruct (n <=? 0) eqn:Hn; [discriminate|]. apply Z.leb_gt in Hn.
  destruct (download_data_ret _ _ _ _ _ _ _ Hdata) as [data Hstep]; [lia|].
  destruct Hstep as [Hlen Hbound Hserved _ _ Hsha Hdoff _ _ Hfs _ _ Hsame].
  destruct (IH d1 Hrun) as [rest Hrest].
  destruct Hrest as [Rserved Rabs Rsame Rend Rlen Runsaved Rsaved].
  rewrite (sp_total_size _ _ Hsame) in Rend, Rlen.
  rewrite (sp_content_type _ _ Hsame) in Runsaved, Rsaved.
  exists (data ++ rest). split.
  - by rewrite Rserved, Hserved, app_assoc.
  - by rewrite Rabs, Hsha, app_assoc.
  - by eapply same_package_trans.
  - done.
  - intros Hoff Htotal.
    pose proof (chunk_bound (total_size d - download_offset d) ltac:(lia)).
    rewrite u64_small in Hdoff by lia.
    rewrite length_app, Nat2Z.inj_add. lia.
  - intros Hct. rewrite (Runsaved Hct), Hfs, Hct. done.
  - intros Hct path old Hfile Hold.
    assert ((content_type d =? 6) = false) as Hct' by (by apply Z.eqb_neq).
    rewrite Hct', Hfile in Hfs. cbn [negb] in Hfs.
    rewrite (written_plain _ _ _ _ Hlen Hbound) in Hfs.
    rewrite (fs_append_file _ old) in Hfs by done.
    rewrite (Rsaved Hct path (old ++ data)).
    + by rewrite Hfs, insert_insert_eq, app_assoc.
    + by rewrite (sp_item_file _ _ Hsame).
    + rewrite Hfs. apply lookup_insert_eq.
Qed.

End Loops.

(* ===================================================================== *)
(** * The hash covers the stream (C1) *)
(* ===================================================================== *)

Section HashCoversStream.
Context `{Platform}.

(** The context has absorbed exactly what the stream has served since
    it served [base]. *)
Definition hash_in_sync (base : list byte) (d : Download) : Prop :=
  http_served (http d) = base ++ sha_absorbed (sha d).

Lemma hash_in_sync_stable base : core_stable (hash_in_sync base).
Proof. unfold core_stable, hash_in_sync. intros d d' -> -> _ _. done. Qed.

Lemma hash_in_sync_data base buf size encrypted save :
  preserves (hash_in_sync base) (download_data buf size encrypted save).
Proof.
  intros d r d' Hrun Hr Hsync.
  destruct (download_data_effect _ _ _ _ _ _ _ Hrun Hr) as [data Heff].
  unfold hash_in_sync in *.
  by rewrite (de_served _ _ _ _ Heff), (de_absorbed _ _ _ _ Heff), Hsync,
    app_assoc.
Qed.

Lemma session_start_in_sync content url d :
  hash_in_sync (http_served (http d)) (session_start content url d).
Proof. unfold hash_in_sync. cbn. by rewrite app_nil_r. Qed.

Lemma pkgi_download_hash_in_sync content url rif digest d r d' :
  pkgi_download content url rif digest d = (r, d') -> r <> Stuck ->
  hash_in_sync (http_served (http d)) d'.
Proof.
  intros Hrun Hr. rewrite pkgi_download_phases in Hrun.
  eapply (preserves_phases _ (hash_in_sync_stable _) (hash_in_sync_data _));
    [exact Hrun|exact Hr|].
  apply session_start_in_sync.
Qed.

(** C1.  Every byte an HTTP read returns goes into the running SHA-256
    context once, in arrival order, whatever the [encrypted] and [save]
    flags are: a call of [download_data] that returns [n > 0] appends the
    [n] bytes it read to what the stream has served and to what the
    context has absorbed.  Hence, however a run of [pkgi_download] ends
    (completion included), the context holds exactly the bytes the
    stream served during the run, and finishing it gives their
    SHA-256. *)
Theorem sha256_covers_http_stream :
  (forall buf size encrypted save d n d',
      download_data buf size encrypted save d = (Ret n, d') -> 0 < n ->
      exists data,
        Z.of_nat (length data) = n
        /\ http_served (http d') = http_served (http d) ++ data
        /\ sha_absorbed (sha d') = sha_absorbed (sha d) ++ data)
  /\ (forall content url rif digest d r d',
        pkgi_download content url rif digest d = (r, d') -> r <> Stuck ->
        r <> OutOfFuel
        /\ exists stream,
             http_served (http d') = http_served (http d) ++ stream
             /\ sha_absorbed (sha d') = stream
             /\ fst (sha256_finish (sha d')) = sha256 stream).
Proof.
  split.
  - intros buf size encrypted save d n d' Hrun Hn.
    destruct (download_data_ret _ _ _ _ _ _ _ Hrun) as [data Hstep]; [lia|].
    exists data.
    destruct Hstep as [Hlen _ Hserved _ _ Hsha _ _ _ _ _ _ _].
    repeat split; try done. by rewrite Hsha.
  - intros content url rif digest d r d' Hrun Hr. split.
    + intros ->. by eapply total_pkgi_download.
    + exists (sha_absorbed (sha d')). repeat split.
      by eapply pkgi_download_hash_in_sync.
Qed.

End HashCoversStream.

Lemma sha256_covers_http_stream_witness :
  let run := run_pipeline s1_pkg 7 None None in
  fst run = Ret 1
  /\ exists stream,
       http_served (http (snd run)) = [] ++ stream
       /\ sha_absorbed (sha (snd run)) = stream
       /\ fst (@sha256_finish test_platform (sha (snd run))) = checksum stream.
Proof.
  intros run. split; [vm_compute; reflexivity|].
  refine (proj2 (proj2 (@sha256_covers_http_stream test_platform)
                   test_content_id test_url None None
                   (fresh_download (fresh_http s1_pkg 7) ∅) (Ret 1)
                   (snd run) _ _)).
  - vm_compute. reflexivity.
  - discriminate.
Defined.

(* ===================================================================== *)
(** * Strings and slices *)
(* ===================================================================== *)

Lemma substring_all (s : string) (n : nat) :
  (String.length s <= n)%nat -> String.substring 0 n s = s.
Proof.
  revert n. induction s as [|c s IH]; intros [|n] Hn; simpl in *;
    try done; try lia.
  f_equal. apply IH. lia.
Qed.

(** Text that fits its buffer is what [pkgi_snprintf] leaves there. *)
Lemma pkgi_snprintf_fits (cap : nat) (text : string) :
  (String.length text < cap)%nat -> pkgi_snprintf cap text = text.
Proof. intros Hfit. apply substring_all. lia. Qed.

Lemma string_length_append (a b : string) :
  String.length (a +:+ b) = (String.length a + String.length b)%nat.
Proof. induction a as [|c a IH]; simpl; auto. Qed.

Lemma length_slice buf off len :
  length (slice buf off len) = Z.to_nat len.
Proof. unfold slice. by rewrite length_map, length_seq. Qed.

Lemma slice_all (l : list byte) : slice l 0 (Z.of_nat (length l)) = l.
Proof.
  apply (nth_ext _ _ x00 x00).
  - by rewrite length_slice, Nat2Z.id.
  - intros n Hn. rewrite length_slice, Nat2Z.id in Hn. unfold slice.
    rewrite (nth_indep _ _ (byte_at l (0 + Z.of_nat 0))) by
      (rewrite length_map, length_seq; lia).
    rewrite (map_nth (fun k => byte_at l (0 + Z.of_nat k))), seq_nth by lia.
    cbn [Nat.add]. unfold byte_at. rewrite Z.add_0_l, Nat2Z.id.
    destruct (Z.of_nat n <? 0) eqn:E; [apply Z.ltb_lt in E; lia|done].
Qed.

(** On 32-byte strings [pkgi_memequ(a, b, 32)] is equality. *)
Lemma pkgi_memequ_digest (a b : list byte) :
  length a = 32%nat -> length b = 32%nat ->
  pkgi_memequ a b SHA256_DIGEST_SIZE = true <-> a = b.
Proof.
  intros Ha Hb. unfold pkgi_memequ, SHA256_DIGEST_SIZE.
  rewrite bool_decide_eq_true.
  change 32 with (Z.of_nat 32). rewrite <- Ha at 1. rewrite <- Hb.
  by rewrite !slice_all.
Qed.

(* ===================================================================== *)
(** * Where the stream is opened (C6) *)
(* ===================================================================== *)

Section StreamStart.
Context `{Platform}.

(** The stream is open at offset zero of [url], or is yet to be opened
    and will be opened there. *)
Definition starts_at_zero (url : string) (d : Download) : Prop :=
  http_started (http d) = Some (url, 0)
  \/ http_started (http d) = None
     /\ download_offset d = 0 /\ download_url d = url.

Lemma starts_at_zero_stable url : core_stable (starts_at_zero url).
Proof.
  unfold core_stable, starts_at_zero. intros d d' -> _ -> ->. done.
Qed.

Lemma starts_at_zero_data url buf size encrypted save :
  preserves (starts_at_zero url) (download_data buf size encrypted save).
Proof.
  intros d r d' Hrun Hr Hstart.
  destruct (download_data_effect _ _ _ _ _ _ _ Hrun Hr) as [data Heff].
  destruct Heff as [_ _ _ Hst Hoff _ _ Hsame].
  unfold starts_at_zero in *.
  destruct Hstart as [Hopen|(Hclosed & Hzero & Hurl)].
  - left. destruct Hst as [->|[Hnone _]]; congruence.
  - destruct Hst as [Hst|[_ Hst]].
    + right. rewrite Hst, (sp_url _ _ Hsame). repeat split; try done.
      destruct Hoff as [->|Hsome]; [done|].
      rewrite Hst, Hclosed in Hsome. by destruct Hsome.
    + left. by rewrite Hst, Hurl, Hzero.
Qed.

(** C6, as amended.  [download_data] opens the stream, when it is not
    open yet, at the value [download_offset] has at that moment; but
    [pkgi_download] sets [download_offset] to zero before the first
    [download_data], so a session it starts on a stream that is not open
    always requests the package from byte 0, whatever offset the object
    held before. *)
Theorem http_stream_opened_at_offset_zero :
  (forall buf size encrypted save d r d',
      download_data buf size encrypted save d = (r, d') ->
      http_started (http d) = None -> cancel_in d <> Some O ->
      http_started (http d') = Some (download_url d, download_offset d))
  /\ (forall content url rif digest d r d',
        pkgi_download content url rif digest d = (r, d') -> r <> Stuck ->
        http_started (http d) = None ->
        download_offset (session_start content url d) = 0
        /\ (http_started (http d') = None
            \/ http_started (http d') = Some (url, 0))).
Proof.
  split.
  - intros buf size encrypted save d r d'. apply download_data_opens.
  - intros content url rif digest d r d' Hrun Hr Hclosed.
    split; [done|].
    rewrite pkgi_download_phases in Hrun.
    assert (starts_at_zero url d') as [Hs|(Hs & _)]; [|by right|by left].
    eapply (preserves_phases _ (starts_at_zero_stable _)
              (starts_at_zero_data _)); [exact Hrun|exact Hr|].
    right. by cbn.
Qed.

End StreamStart.

Lemma http_stream_opened_at_offset_zero_witness :
  let d0 := fresh_download (fresh_http s1_pkg 64) ∅ in
  let run := @pkgi_download test_platform test_content_id test_url None None d0 in
  http_started (http (snd run)) = None
  \/ http_started (http (snd run)) = Some (test_url, 0).
Proof.
  intros d0 run.
  refine (proj2 (proj2 (@http_stream_opened_at_offset_zero test_platform)
                   test_content_id test_url None None d0 (fst run) (snd run)
                   _ _ _)).
  - vm_compute. reflexivity.
  - vm_compute. discriminate.
  - reflexivity.
Defined.

(** A session started on an object that holds offset 200 from an earlier,
    partial download: the request still goes out for byte 0. *)
Lemma resumed_session_requests_byte_zero :
  let d0 := set_download_offset 200 (fresh_download (fresh_http s1_pkg 64) ∅) in
  let run := @pkgi_download test_platform test_content_id test_url None None d0 in
  download_offset d0 = 200
  /\ http_started (http d0) = None
  /\ http_started (http (snd run)) = Some (test_url, 0)
  /\ http_started (http (snd run)) <> Some (test_url, download_offset d0).
Proof. vm_compute. repeat split; discriminate. Qed.

(* ===================================================================== *)
(** * The integrity check (C8) *)
(* ===================================================================== *)

Section Integrity.
Context `{Platform}.

(** The state after [sha256_finish(&sha, check)]. *)
Definition finished (d : Download) : Download :=
  set_sha {| sha_absorbed := sha_absorbed (sha d); sha_finished := true |} d.

(** The path [check_integrity] removes. *)
Definition integrity_head_bin (d : Download) : string :=
  pkgi_snprintf 256 (root d +:+ "/sce_sys/package/head.bin").

(** C8.  Without a digest [check_integrity] returns 1 and leaves the
    object, the hash context included, as it was.  With a digest it
    finishes the SHA-256 context and compares the first 32 bytes of the
    result with the first 32 bytes of the digest: when they agree it
    returns 1 and the file system is untouched; when they differ it
    removes [root/sce_sys/package/head.bin], throws, and every other path
    of the file system is as before. *)
Theorem check_integrity_removes_only_head_bin :
  (forall d, check_integrity None d = (Ret 1, d))
  /\ (forall digest d r d',
        check_integrity (Some digest) d = (r, d') ->
        let check := sha256 (sha_absorbed (sha d)) in
        sha_finished (sha d') = true
        /\ (pkgi_memequ digest check SHA256_DIGEST_SIZE = true ->
            r = Ret 1 /\ d' = finished d)
        /\ (pkgi_memequ digest check SHA256_DIGEST_SIZE = false ->
            r = Throw IntegrityFailed
            /\ d' = set_fs (delete (integrity_head_bin d) (fs d)) (finished d)
            /\ fs d' !! integrity_head_bin d = None
            /\ forall p, p <> integrity_head_bin d -> fs d' !! p = fs d !! p)
        /\ (r = Ret 1 \/ r = Throw IntegrityFailed)
        /\ (length digest = 32%nat -> length check = 32%nat ->
            (r = Throw IntegrityFailed <-> check <> digest))
        /\ ((String.length (root d) + 25 < 256)%nat ->
            integrity_head_bin d = root d +:+ "/sce_sys/package/head.bin")).
Proof.
  split; [done|].
  intros digest d r d' Hrun check.
  unfold check_integrity, bind, get, modify, pkgi_rm, ret, throw in Hrun.
  cbn [fst snd sha256_finish] in Hrun. fold check in Hrun.
  destruct (pkgi_memequ digest check SHA256_DIGEST_SIZE) eqn:Heq;
    cbn [negb] in Hrun; injection Hrun as <- <-.
  - split; [done|]. split; [done|]. split; [discriminate|].
    split; [by left|]. split.
    + intros Hd Hc. split; [discriminate|]. intros Hne. exfalso. apply Hne.
      symmetry. by apply pkgi_memequ_digest.
    + intros Hfit. apply pkgi_snprintf_fits.
      rewrite string_length_append. simpl. lia.
  - split; [done|]. split; [discriminate|]. split.
    { intros _. split; [done|]. split; [done|]. split.
      - apply lookup_delete_eq.
      - intros p Hp. simpl. by apply lookup_delete_ne. }
    split; [by right|]. split.
    + intros Hd Hc. split; [|done]. intros _ Heq'. symmetry in Heq'.
      apply (pkgi_memequ_digest digest check Hd Hc) in Heq'.
      congruence.
    + intros Hfit. apply pkgi_snprintf_fits.
      rewrite string_length_append. simpl. lia.
Qed.

End Integrity.

Lemma check_integrity_removes_only_head_bin_witness :
  let run := run_pipeline s1_pkg 64 None None in
  let d := snd run in
  let bad := replicate 32 x00 in
  exists r d',
    @check_integrity test_platform (Some bad) d = (r, d')
    /\ r = Throw IntegrityFailed
    /\ fs d !! (root d +:+ "/sce_sys/package/head.bin") <> None
    /\ fs d' !! (root d +:+ "/sce_sys/package/head.bin") = None
    /\ fs d' !! (root d +:+ "/x.bin") = Some (File x_bin).
Proof.
  intros run d bad.
  exists (fst (@check_integrity test_platform (Some bad) d)),
         (snd (@check_integrity test_platform (Some bad) d)).
  pose proof (proj2 (@check_integrity_removes_only_head_bin test_platform)
                bad d _ _ (surjective_pairing _)) as Hspec.
  cbv zeta in Hspec.
  destruct Hspec as (_ & _ & Hbad & _ & Hiff & Hpath).
  destruct Hbad as (Hr & _ & Hgone & Hrest); [vm_compute; reflexivity|].
  split; [apply surjective_pairing|]. split; [exact Hr|].
  rewrite Hpath in Hgone by (vm_compute; lia).
  split; [vm_compute; discriminate|]. split; [exact Hgone|].
  rewrite Hrest; [vm_compute; reflexivity|].
  rewrite Hpath by (vm_compute; lia). vm_compute. discriminate.
Defined.

(* ===================================================================== *)
(** * Running a function step by step *)
(* ===================================================================== *)

Lemma run_bind_modify {A} f (k : unit -> M A) d :
  bind (modify f) k d = k tt (f d).
Proof. reflexivity. Qed.

Lemma run_bind_get {A} (k : Download -> M A) d : bind get k d = k d d.
Proof. reflexivity. Qed.

Lemma with_fuel_run {A} (loop : nat -> M A) d :
  with_fuel loop d = loop (S (length (http_script (http d)))) d.
Proof. reflexivity. Qed.

Lemma bind_ret {A B} (m : M A) (k : A -> M B) d b d' :
  bind m k d = (Ret b, d') ->
  exists a d1, m d = (Ret a, d1) /\ k a d1 = (Ret b, d').
Proof.
  unfold bind. destruct (m d) as [[a|e| |] d1]; try discriminate. eauto.
Qed.

Lemma bind_throw {A B} (m : M A) (k : A -> M B) d e d' :
  bind m k d = (Throw e, d') ->
  m d = (Throw e, d')
  \/ exists a d1, m d = (Ret a, d1) /\ k a d1 = (Throw e, d').
Proof.
  unfold bind. destruct (m d) as [[a|e1| |] d1]; try discriminate.
  - eauto.
  - intros [= -> ->]. by left.
Qed.

Lemma scope_exit_run {A} (body : M A) d r d' :
  scope_exit_close body d = (r, d') ->
  exists d1, body d = (r, d1) /\ d' = set_item_file None d1.
Proof.
  unfold scope_exit_close. destruct (body d) as [r1 d1].
  intros [= <- <-]. eauto.
Qed.

(** Follow a run that ended with [Ret] through the binds it went
    through. *)
Ltac exec H :=
  repeat
    match type of H with
    | bind (modify _) _ _ = _ => rewrite run_bind_modify in H
    | bind get _ _ = _ => rewrite run_bind_get in H
    | bind _ _ _ = (Ret _, _) =>
        let a := fresh "a" in
        let d1 := fresh "d" in
        let Ha := fresh "Hstep" in
        apply bind_ret in H as (a & d1 & Ha & H)
    | (if ?c then _ else _) _ = _ =>
        let Hc := fresh "Hc" in
        destruct c eqn:Hc; try discriminate H
    | (match ?x with inl _ => _ | inr _ => _ end) _ = _ =>
        let Hx := fresh "Hx" in
        destruct x eqn:Hx; try discriminate H
    | (let _ := _ in _) _ = _ => cbv zeta in H
    end.

(* ===================================================================== *)
(** * The header as it arrives *)
(* ===================================================================== *)

Lemma byte_at_nat (l : list byte) (n : nat) :
  byte_at l (Z.of_nat n) = nth n l x00.
Proof.
  unfold byte_at. rewrite Nat2Z.id.
  destruct (Z.of_nat n <? 0) eqn:E; [apply Z.ltb_lt in E; lia|done].
Qed.

Lemma nth_slice buf off len (n : nat) :
  (n < Z.to_nat len)%nat ->
  nth n (slice buf off len) x00 = byte_at buf (off + Z.of_nat n).
Proof.
  intros Hn. unfold slice.
  rewrite (nth_indep _ _ (byte_at buf (off + Z.of_nat 0))) by
    (rewrite length_map, length_seq; lia).
  rewrite (map_nth (fun k => byte_at buf (off + Z.of_nat k))), seq_nth by lia.
  done.
Qed.

Lemma byte_at_slice buf off len i :
  0 <= i < len -> byte_at (slice buf off len) i = byte_at buf (off + i).
Proof.
  intros Hi. rewrite <- (Z2Nat.id i) at 1 by lia.
  rewrite byte_at_nat, nth_slice by lia. f_equal. lia.
Qed.

Lemma slice_ext a b off len :
  (forall i, off <= i < off + len -> byte_at a i = byte_at b i) ->
  slice a off len = slice b off len.
Proof.
  intros Hab. unfold slice. apply map_ext_in. intros k Hk.
  apply in_seq in Hk. apply Hab. lia.
Qed.

Lemma slice_slice buf n off len :
  0 <= off -> off + len <= n ->
  slice (slice buf 0 n) off len = slice buf off len.
Proof.
  intros Hoff Hlen. apply slice_ext. intros i Hi.
  by rewrite byte_at_slice by lia.
Qed.

Lemma slice_app_l (p r : list byte) :
  slice (p ++ r) 0 (Z.of_nat (length p)) = p.
Proof.
  rewrite <- (slice_all p) at 3. apply slice_ext. intros i Hi.
  rewrite <- (Z2Nat.id i) by lia. rewrite !byte_at_nat.
  apply app_nth1. lia.
Qed.

(** Bytes stored at the end of what a buffer holds extend its contents. *)
Lemma slice_store buf off data :
  0 <= off ->
  slice (store buf off data) 0 (off + Z.of_nat (length data)) =
  slice buf 0 off ++ data.
Proof.
  intros Hoff. unfold store. rewrite app_assoc.
  replace (off + Z.of_nat (length data))
    with (Z.of_nat (length (slice buf 0 off ++ data))).
  - apply slice_app_l.
  - rewrite length_app, length_slice. lia.
Qed.

Section Header.
Context `{Platform}.

(** [read_header] run to its end: the bytes served are the contents of
    [head]. *)
Lemma read_header_ret fuel head_offset d d' :
  read_header fuel head_offset d = (Ret true, d') ->
  0 <= head_offset <= head_size d -> head_size d < 2^32 ->
  exists stream,
    http_served (http d') = http_served (http d) ++ stream
    /\ Z.of_nat (length stream) = head_size d - head_offset
    /\ slice (head d') 0 (head_size d) = slice (head d) 0 head_offset ++ stream
    /\ same_package d d'.
Proof.
  revert head_offset d. induction fuel as [|fuel IH];
    intros off d Hrun Hoff Hsize; simpl in Hrun;
    rewrite run_bind_get in Hrun.
  all: destruct (off =? head_size d) eqn:Hend; try discriminate.
  1,2: apply Z.eqb_eq in Hend; injection Hrun as <-; exists [];
    rewrite !app_nil_r, Hend; split; [done|]; split; [simpl; lia|];
    split; [done|apply same_package_refl].
  apply Z.eqb_neq in Hend.
  apply bind_ret in Hrun as (n & d1 & Hdata & Hrun).
  destruct (n <=? 0) eqn:Hn; [discriminate|]. apply Z.leb_gt in Hn.
  destruct (download_data_ret _ _ _ _ _ _ _ Hdata) as [data Hstep]; [lia|].
  destruct Hstep as [Hlen Hbound Hserved _ _ _ _ _ _ _ _ Hhead Hsame].
  unfold payload in Hhead.
  rewrite u32_small in Hbound by lia.
  rewrite (u32_small (off + n)) in Hrun by lia.
  destruct (IH _ _ Hrun) as (rest & Rserved & Rlen & Rhead & Rsame).
  { rewrite (sp_head_size _ _ Hsame). lia. }
  { by rewrite (sp_head_size _ _ Hsame). }
  rewrite (sp_head_size _ _ Hsame) in Rlen, Rhead.
  exists (data ++ rest). split; [|split; [|split]].
  - by rewrite Rserved, Hserved, app_assoc.
  - rewrite length_app, Nat2Z.inj_add. lia.
  - rewrite Rhead, Hhead, <- Hlen, slice_store by lia. by rewrite app_assoc.
  - by eapply same_package_trans.
Qed.

End Header.

Section KeyLadder.
Context `{Platform}.

(** Once installed, the key and the IV stay, and the stream only grows. *)
Definition keyed (key ivv base : list byte) (d : Download) : Prop :=
  aes d = key /\ iv d = ivv
  /\ exists stream, http_served (http d) = base ++ stream.

Lemma keyed_data key ivv base buf size encrypted save :
  preserves (keyed key ivv base) (download_data buf size encrypted save).
Proof.
  intros d r d' Hrun Hr (Hkey & Hiv & stream & Hserved).
  destruct (download_data_effect _ _ _ _ _ _ _ Hrun Hr) as [data Heff].
  destruct Heff as [Hs _ _ _ _ _ _ Hsame].
  split; [by rewrite (sp_aes _ _ Hsame)|].
  split; [by rewrite (sp_iv _ _ Hsame)|].
  exists (stream ++ data). by rewrite Hs, Hserved, app_assoc.
Qed.

Ltac keyed_steps :=
  repeat
    match goal with
    | |- preserves _ (ret _) => apply preserves_ret
    | |- preserves _ (throw _) => apply preserves_throw
    | |- preserves _ out_of_fuel => apply preserves_out_of_fuel
    | |- preserves _ get => apply preserves_get
    | |- preserves _ (download_data _ _ _ _) => apply keyed_data
    | |- preserves _ (modify _) =>
        apply preserves_modify; let HP := fresh in intros ? HP; exact HP
    | |- preserves _ (bind _ _) => apply preserves_bind; [|intro]
    | |- preserves _ (if ?b then _ else _) => destruct b
    | |- preserves _ (match ?x with _ => _ end) => destruct x
    | |- preserves _ (let _ := _ in _) => cbv zeta
    | |- preserves _ _ => solve [auto]
    end.

Lemma keyed_grow_head key ivv base fuel target_size :
  preserves (keyed key ivv base) (grow_head fuel target_size).
Proof. induction fuel as [|fuel IH]; simpl; keyed_steps. Qed.

Lemma keyed_walk_meta key ivv base n offset :
  preserves (keyed key ivv base) (walk_meta n offset).
Proof. revert offset. induction n as [|n IH]; intros; simpl; keyed_steps. Qed.

(** The key depends on the header through byte [0xE7] alone. *)
Lemma derive_key_ext head1 head2 ivv :
  byte_at head1 0xe7 = byte_at head2 0xe7 ->
  derive_key head1 ivv = derive_key head2 ivv.
Proof. intros Hb. unfold derive_key, key_type_of. by rewrite Hb. Qed.

Lemma key_type_range head : 0 <= key_type_of head <= 7.
Proof.
  unfold key_type_of, byte_val. split.
  - apply Z.land_nonneg. right. lia.
  - assert (Z.land (Z.of_N (Byte.to_N (byte_at head 231))) 7 < 2 ^ 3); [|lia].
    apply Z.log2_lt_cancel.
    destruct (Z.eq_dec (Z.land (Z.of_N (Byte.to_N (byte_at head 231))) 7) 0)
      as [->|Hne]; [done|].
    assert (0 <= Z.land (Z.of_N (Byte.to_N (byte_at head 231))) 7)
      by (apply Z.land_nonneg; right; lia).
    eapply Z.le_lt_trans; [apply Z.log2_land; lia|].
    rewrite Z.log2_pow2 by lia. apply Z.min_lt_iff. right. done.
Qed.


(** Everything in [download_head] but the key derivation throws other
    errors than "invalid key type". *)
Definition other_error (e : DownloadError) : Prop :=
  match e with
  | InvalidKeyType _ => False
  | _ => True
  end.

Definition throws_other {A} (m : M A) : Prop :=
  forall d e d', m d = (Throw e, d') -> other_error e.

Lemma throws_other_bind {A B} (m : M A) (k : A -> M B) :
  throws_other m -> (forall a, throws_other (k a)) -> throws_other (bind m k).
Proof.
  intros Hm Hk d e d' Hrun.
  apply bind_throw in Hrun as [Hrun|(a & d1 & _ & Hrun)].
  - by eapply Hm.
  - by eapply Hk.
Qed.

Lemma throws_other_data buf size encrypted save :
  throws_other (download_data buf size encrypted save).
Proof.
  intros d e d' Hrun.
  destruct (download_data_throws _ _ _ _ _ _ _ Hrun)
    as [->|[[s ->]|[->|[p ->]]]]; done.
Qed.

Ltac other_steps :=
  repeat
    match goal with
    | |- throws_other (ret _) => by intros d e d'
    | |- throws_other stuck => by intros d e d'
    | |- throws_other out_of_fuel => by intros d e d'
    | |- throws_other get => by intros d e d'
    | |- throws_other (modify _) => by intros d e d'
    | |- throws_other (throw _) => by intros d e d' [= <- _]
    | |- throws_other (download_data _ _ _ _) => apply throws_other_data
    | |- throws_other (bind _ _) => apply throws_other_bind; [|intro]
    | |- throws_other (if ?b then _ else _) => destruct b
    | |- throws_other (match ?x with _ => _ end) => destruct x
    | |- throws_other (let _ := _ in _) => cbv zeta
    | |- throws_other _ => solve [auto]
    end.

Lemma throws_other_mkdirs path : throws_other (pkgi_mkdirs path).
Proof. intros d e d'. unfold pkgi_mkdirs. by case_match. Qed.

Lemma throws_other_create path : throws_other (pkgi_create path).
Proof. intros d e d'. unfold pkgi_create. by case_match. Qed.

Lemma throws_other_create_file : throws_other create_file.
Proof.
  pose proof throws_other_mkdirs. pose proof throws_other_create.
  unfold create_file. other_steps.
Qed.

Lemma throws_other_read_header fuel head_offset :
  throws_other (read_header fuel head_offset).
Proof.
  revert head_offset. induction fuel as [|fuel IH]; intros; simpl;
    other_steps.
Qed.

Lemma throws_other_grow_head fuel target_size :
  throws_other (grow_head fuel target_size).
Proof. induction fuel as [|fuel IH]; simpl; other_steps. Qed.

Lemma throws_other_walk_meta n offset : throws_other (walk_meta n offset).
Proof. revert offset. induction n as [|n IH]; intros; simpl; other_steps. Qed.

Lemma throws_other_with_fuel {A} (loop : nat -> M A) :
  (forall fuel, throws_other (loop fuel)) -> throws_other (with_fuel loop).
Proof. intros Hloop d e d'. apply Hloop. Qed.

(** Follow a run that ended with "invalid key type". *)
Ltac other H :=
  exfalso;
  first
    [ apply throws_other_create_file in H
    | apply (throws_other_with_fuel _ (fun fuel =>
               throws_other_read_header fuel _)) in H
    | apply (throws_other_with_fuel _ (fun fuel =>
               throws_other_grow_head fuel _)) in H
    | apply throws_other_walk_meta in H ];
  exact H.

Ltac exec_key_error H :=
  repeat
    match type of H with
    | bind (modify _) _ _ = _ => rewrite run_bind_modify in H
    | bind get _ _ = _ => rewrite run_bind_get in H
    | bind _ _ _ = (Throw _, _) =>
        let a := fresh "a" in
        let d1 := fresh "d" in
        let Ha := fresh "Hstep" in
        apply bind_throw in H as [H|(a & d1 & Ha & H)]; [other H|]
    | (if ?c then _ else _) _ = _ =>
        let Hc := fresh "Hc" in
        destruct c eqn:Hc; try discriminate H
    | (match ?x with inl _ => _ | inr _ => _ end) _ = _ =>
        let Hx := fresh "Hx" in
        destruct x eqn:Hx; try discriminate H
    | (let _ := _ in _) _ = _ => cbv zeta in H
    end.

Lemma derive_key_table head ivv :
  let k := key_type_of head in
  k = Z.land (byte_val (byte_at head 0xe7)) 7
  /\ 0 <= k <= 7
  /\ (k = 1 -> derive_key head ivv = inr pkg_psp_key)
  /\ (k = 2 -> derive_key head ivv = inr (aes128_encrypt pkg_vita_2 ivv))
  /\ (k = 3 -> derive_key head ivv = inr (aes128_encrypt pkg_vita_3 ivv))
  /\ (k = 4 -> derive_key head ivv = inr (aes128_encrypt pkg_vita_4 ivv))
  /\ (k = 0 \/ k = 5 \/ k = 6 \/ k = 7 ->
      derive_key head ivv = inl (InvalidKeyType k)).
Proof.
  intros k. split; [done|]. split; [apply key_type_range|].
  unfold derive_key. fold k.
  repeat split; intros Hk; try (by rewrite Hk).
  by destruct Hk as [->|[->|[->| ->]]].
Qed.

Lemma derive_key_error head ivv e :
  derive_key head ivv = inl e ->
  let k := key_type_of head in
  e = InvalidKeyType k /\ (k = 0 \/ k = 5 \/ k = 6 \/ k = 7).
Proof.
  intros He. cbv zeta. pose proof (key_type_range head) as Hrange.
  unfold derive_key in He.
  repeat (case_match; try discriminate). injection He as <-.
  split; [done|].
  repeat match goal with H : (_ =? _) = false |- _ =>
    apply Z.eqb_neq in H end.
  lia.
Qed.

(** The first 256 bytes [download_head] reads are the header the key is
    derived from. *)
Lemma header_read d0 d1 :
  with_fuel (fun fuel => read_header fuel 0)
    (set_head_size (u32 (PKG_HEADER_SIZE + PKG_HEADER_EXT_SIZE)) d0) =
  (Ret true, d1) ->
  exists header,
    http_served (http d1) = http_served (http d0) ++ header
    /\ length header = 256%nat
    /\ slice (head d1) 0 256 = header
    /\ aes d1 = aes d0 /\ iv d1 = iv d0.
Proof.
  intros Hrun. rewrite with_fuel_run in Hrun.
  change (u32 (PKG_HEADER_SIZE + PKG_HEADER_EXT_SIZE)) with 256 in Hrun.
  apply read_header_ret in Hrun as (header & Hs & Hlen & Hhead & Hsame);
    [|by cbn|by cbn].
  exists header. cbn in Hs, Hlen, Hhead.
  split; [done|]. split; [lia|]. split; [done|].
  split; [apply (sp_aes _ _ Hsame)|apply (sp_iv _ _ Hsame)].
Qed.

Lemma create_file_http d r d' : create_file d = (r, d') -> http d' = http d.
Proof.
  unfold create_file, bind, get, pkgi_mkdirs, pkgi_create,
    modify, ret, throw, stuck.
  intros Hrun.
  by repeat (cbv beta zeta in *; case_match; simplify_eq/=; try done).
Qed.

(** The object as [create_file] finds it in [download_head]
    (lines 147-149). *)
Definition head_named (d : Download) : Download :=
  set_item_path (head_bin_path (root d))
    (set_item_name (pkgi_snprintf (Z.to_nat NAME_CAP) "Preparing...") d).

(** The checks [download_head] makes on the 256 bytes of the header
    before it looks at the key type (lines 180-210). *)
Definition header_accepted (rif : option (list byte)) (hd : list byte)
  : bool :=
  (get32be hd 0 =? 0x7f504b47)
  && (get32be hd PKG_HEADER_SIZE =? 0x7F657874)
  && match rif with
     | Some rif => pkgi_memequ (drop 0x10 rif) (drop 0x30 hd) 0x30
     | None => true
     end
  && (get64be hd 32 <=? HEAD_CAP).

(** The object when the key type is looked at (line 215). *)
Definition at_key_type (d1 : Download) : Download :=
  set_iv (slice (head d1) 0x70 AES_BLOCK_SIZE)
    (set_header (get32be (head d1) 8) (get32be (head d1) 12)
       (get32be (head d1) 20) (get64be (head d1) 24)
       (get64be (head d1) 32) (get64be (head d1) 40) d1).

Lemma bind_step {A B} (m : M A) (k : A -> M B) d a d1 :
  m d = (Ret a, d1) -> bind m k d = k a d1.
Proof. unfold bind. by intros ->. Qed.

(** [download_head] from the key type on, once the header is read and
    accepted. *)
Lemma download_head_at_key_type rif d v d0 d1 :
  create_file (head_named d) = (Ret v, d0) ->
  with_fuel (fun fuel => read_header fuel 0)
    (set_head_size (u32 (PKG_HEADER_SIZE + PKG_HEADER_EXT_SIZE)) d0)
  = (Ret true, d1) ->
  header_accepted rif (head d1) = true ->
  download_head rif d =
  scope_exit_close
    (match derive_key (head d1) (slice (head d1) 0x70 AES_BLOCK_SIZE) with
     | inl e => throw e
     | inr key =>
         modify (set_aes key);;
         let* ok := with_fuel (fun fuel =>
                       grow_head fuel (u32 (get64be (head d1) 32))) in
         if negb ok then ret 0
         else
         modify (set_index_size 0);;
         walk_meta (Z.to_nat (get32be (head d1) 12)) (get32be (head d1) 8);;
         let* d := get in
         let target_size := u32 (enc_offset d + u32 (index_count d * 32)) in
         if HEAD_CAP <? target_size then throw HeadTooLarge
         else
         let* ok := with_fuel (fun fuel => grow_head fuel target_size) in
         if negb ok then ret 0
         else
         let* d := get in
         let item := aes128_ctr (aes d) (iv d) 0
                       (slice (head d) (enc_offset d) 32) in
         let item_offset := get64be item 8 in
         if negb (index_size d =? 0) && negb (item_offset =? index_size d)
         then throw (IndexSizeMismatch (index_size d) item_offset)
         else
         let target_size := u32 (enc_offset d + item_offset) in
         if HEAD_CAP <? target_size then throw HeadTooLarge
         else
         let* ok := with_fuel (fun fuel => grow_head fuel target_size) in
         if negb ok then ret 0
         else ret 1
     end)
    (at_key_type d1).
Proof.
  intros Hcreate Hread Hacc.
  destruct (create_file_ret _ _ _ Hcreate) as (-> & _).
  unfold header_accepted in Hacc.
  apply andb_prop in Hacc as [Hacc Hcap].
  apply andb_prop in Hacc as [Hacc Hrif].
  apply andb_prop in Hacc as [Hm1 Hm2].
  unfold download_head. rewrite !run_bind_modify.
  unfold scope_exit_close. fold (head_named d).
  rewrite (bind_step _ _ _ _ _ Hcreate), run_bind_get.
  change (1 =? 0) with false. cbv iota.
  rewrite run_bind_modify, (bind_step _ _ _ _ _ Hread).
  cbn [negb]. rewrite run_bind_get, Hm1, Hm2. cbn [negb orb].
  replace (match rif with
           | Some rif0 =>
               negb (pkgi_memequ (drop 16 rif0) (drop 48 (head d1)) 48)
           | None => false
           end) with false by (destruct rif; [by rewrite Hrif|done]).
  rewrite run_bind_modify, run_bind_get.
  replace (HEAD_CAP <? enc_offset _) with false
    by (symmetry; apply Z.ltb_ge; cbn; by apply Z.leb_le).
  rewrite run_bind_modify, run_bind_get. reflexivity.
Qed.

(** C2.  The package key is chosen by the key type, the low three bits of
    header byte [0xE7]: type 1 gives the constant [pkg_psp_key]; types 2, 3
    and 4 give the AES-128 encryption of the header IV under [pkg_vita_2],
    [pkg_vita_3] and [pkg_vita_4]; the other values, 0, 5, 6 and 7, give
    the "invalid key type" error.  In [download_head] the header is the
    first 256 bytes read from the stream and the IV its bytes
    [0x70..0x80]: when [download_head] returns 1 the key it installed is
    the one the table gives for that header, and when it throws "invalid
    key type" it has read just the header, whose key type is the one
    reported and is 0, 5, 6 or 7.  And it does throw: once [download_head]
    has created [head.bin], read the 256 bytes of the header from the
    stream and accepted them, a key type of 0, 5, 6 or 7 ends it with the
    "invalid key type" error of that key type, without another byte read
    or written.  A key type of 1, 2, 3 or 4 never ends it with that
    error, and whatever [download_head] then ends with, short of
    undefined behaviour, the IV is bytes [0x70..0x80] of the header and
    the key the one of the table. *)
Theorem package_key_ladder :
  (forall head ivv,
      let k := key_type_of head in
      k = Z.land (byte_val (byte_at head 0xe7)) 7
      /\ 0 <= k <= 7
      /\ (k = 1 -> derive_key head ivv = inr pkg_psp_key)
      /\ (k = 2 -> derive_key head ivv = inr (aes128_encrypt pkg_vita_2 ivv))
      /\ (k = 3 -> derive_key head ivv = inr (aes128_encrypt pkg_vita_3 ivv))
      /\ (k = 4 -> derive_key head ivv = inr (aes128_encrypt pkg_vita_4 ivv))
      /\ (k = 0 \/ k = 5 \/ k = 6 \/ k = 7 ->
          derive_key head ivv = inl (InvalidKeyType k)))
  /\ (forall rif d d',
        download_head rif d = (Ret 1, d') ->
        exists header rest,
          http_served (http d') = http_served (http d) ++ header ++ rest
          /\ length header = 256%nat
          /\ iv d' = slice header 0x70 16
          /\ derive_key header (iv d') = inr (aes d'))
  /\ (forall rif d k d',
        download_head rif d = (Throw (InvalidKeyType k), d') ->
        exists header,
          http_served (http d') = http_served (http d) ++ header
          /\ length header = 256%nat
          /\ k = key_type_of header
          /\ (k = 0 \/ k = 5 \/ k = 6 \/ k = 7))
  /\ (forall rif d v d0 d1,
        create_file (head_named d) = (Ret v, d0) ->
        with_fuel (fun fuel => read_header fuel 0)
          (set_head_size (u32 (PKG_HEADER_SIZE + PKG_HEADER_EXT_SIZE)) d0)
        = (Ret true, d1) ->
        header_accepted rif (head d1) = true ->
        let k := key_type_of (head d1) in
        k = 0 \/ k = 5 \/ k = 6 \/ k = 7 ->
        exists d',
          download_head rif d = (Throw (InvalidKeyType k), d')
          /\ http d' = http d1 /\ fs d' = fs d1
          /\ http_served (http d1)
             = http_served (http d) ++ slice (head d1) 0 256)
  /\ (forall rif d v d0 d1 r d',
        create_file (head_named d) = (Ret v, d0) ->
        with_fuel (fun fuel => read_header fuel 0)
          (set_head_size (u32 (PKG_HEADER_SIZE + PKG_HEADER_EXT_SIZE)) d0)
        = (Ret true, d1) ->
        header_accepted rif (head d1) = true ->
        let k := key_type_of (head d1) in
        1 <= k <= 4 ->
        download_head rif d = (r, d') -> r <> Stuck ->
        (forall e, r <> Throw (InvalidKeyType e))
        /\ iv d' = slice (head d1) 0x70 16
        /\ (k = 1 -> aes d' = pkg_psp_key)
        /\ (k = 2 -> aes d' = aes128_encrypt pkg_vita_2 (iv d'))
        /\ (k = 3 -> aes d' = aes128_encrypt pkg_vita_3 (iv d'))
        /\ (k = 4 -> aes d' = aes128_encrypt pkg_vita_4 (iv d'))).
Proof.
  split; [apply derive_key_table|]. split; [|split; [|split]].
  - intros rif d d' Hrun. unfold download_head in Hrun.
    exec Hrun. apply scope_exit_run in Hrun as (dx & Hrun & ->).
    exec Hrun.
    apply create_file_http in Hstep. cbn in Hstep.
    destruct a0; [|discriminate].
    apply header_read in Hstep0 as (header & Hs & Hlen & Hhead & _ & _).
    cbn in Hx. injection Hrun as <-.
    set (key := l) in *. set (ivv := slice (head d1) 112 AES_BLOCK_SIZE) in *.
    set (base := http_served (http d) ++ header).
    rewrite with_fuel_run in Hstep1, Hstep3, Hstep4.
    assert (keyed key ivv base
              (set_aes key (set_iv ivv
                 (set_header (get32be (head d1) 8) (get32be (head d1) 12)
                    (get32be (head d1) 20) (get64be (head d1) 24)
                    (get64be (head d1) 32) (get64be (head d1) 40) d1))))
      as Hkeyed.
    { split; [done|]. split; [done|]. exists []. cbn.
      by rewrite app_nil_r, Hs, Hstep. }
    apply (keyed_grow_head key ivv base _ _ _ _ _ Hstep1) in Hkeyed;
      [|discriminate].
    apply (keyed_walk_meta key ivv base _ _ _ _ _ Hstep2) in Hkeyed;
      [|discriminate].
    apply (keyed_grow_head key ivv base _ _ _ _ _ Hstep3) in Hkeyed;
      [|discriminate].
    apply (keyed_grow_head key ivv base _ _ _ _ _ Hstep4) in Hkeyed;
      [|discriminate].
    rename Hkeyed into Hstep4'.
    destruct Hstep4' as (Hkey & Hiv & rest & Hserved).
    exists header, rest. cbn. rewrite Hkey, Hiv, Hserved.
    split; [unfold base; by rewrite <- app_assoc|]. split; [done|].
    assert (ivv = slice header 112 16) as <-.
    { unfold ivv. rewrite <- Hhead. by rewrite slice_slice. }
    split; [done|].
    rewrite <- Hx. apply derive_key_ext.
    rewrite <- Hhead. by rewrite byte_at_slice.
  - intros rif d k d' Hrun. unfold download_head in Hrun.
    exec_key_error Hrun. apply scope_exit_run in Hrun as (dx & Hrun & ->).
    exec_key_error Hrun.
    apply create_file_http in Hstep. cbn in Hstep.
    destruct a0; [|discriminate].
    apply header_read in Hstep0 as (header & Hs & Hlen & Hhead & _ & _).
    cbn in Hx. injection Hrun as -> <-.
    apply derive_key_error in Hx as [[= ->] Hk].
    exists header. cbn. rewrite Hs, Hstep.
    split; [done|]. split; [done|].
    assert (key_type_of (head d1) = key_type_of header) as <-; [|done].
    unfold key_type_of. rewrite <- Hhead. by rewrite byte_at_slice.
  - intros rif d v d0 d1 Hcreate Hread Hacc k Hk.
    rewrite (download_head_at_key_type _ _ _ _ _ Hcreate Hread Hacc).
    destruct (derive_key_table (head d1) (slice (head d1) 0x70 AES_BLOCK_SIZE))
      as (_ & _ & _ & _ & _ & _ & Hbad).
    rewrite (Hbad Hk).
    pose proof (create_file_http _ _ _ Hcreate) as Hhttp. cbn in Hhttp.
    destruct (header_read _ _ Hread) as (header & Hs & _ & Hhead & _).
    eexists. split; [reflexivity|]. split; [done|]. split; [done|].
    by rewrite Hhead, Hs, Hhttp.
  - intros rif d v d0 d1 r d' Hcreate Hread Hacc k Hk Hrun Hr.
    rewrite (download_head_at_key_type _ _ _ _ _ Hcreate Hread Hacc) in Hrun.
    apply scope_exit_run in Hrun as (dx & Hrun & ->).
    destruct (derive_key (head d1) (slice (head d1) 0x70 AES_BLOCK_SIZE))
      as [e|key] eqn:Hkey.
    { apply derive_key_error in Hkey as [_ Hbad]. fold k in Hbad. lia. }
    rewrite run_bind_modify in Hrun.
    set (ivv := slice (head d1) 0x70 AES_BLOCK_SIZE) in *.
    set (base := http_served (http d1)).
    assert (keyed key ivv base (set_aes key (at_key_type d1))) as Hkeyed.
    { split; [done|]. split; [done|]. exists []. cbn.
      by rewrite app_nil_r. }
    pose proof (keyed_grow_head key ivv base) as Hgrow.
    pose proof (keyed_walk_meta key ivv base) as Hwalk.
    pose proof (fun loop Hloop =>
                  preserves_with_fuel (A:=bool) (keyed key ivv base)
                    loop Hloop) as Hfuel.
    match type of Hrun with
    | ?m _ = _ => assert (preserves (keyed key ivv base) m) as Hpres
    end.
    { keyed_steps. all: apply Hfuel; intros; apply Hgrow. }
    apply (Hpres _ _ _ Hrun Hr) in Hkeyed as (Haes & Hiv & _).
    split.
    { intros e ->.
      match type of Hrun with
      | ?m _ = _ => assert (throws_other m) as Hother
      end.
      { pose proof throws_other_walk_meta.
        pose proof (fun target =>
          throws_other_with_fuel _ (fun fuel =>
            throws_other_grow_head fuel target)).
        repeat
          match goal with
          | |- throws_other (ret _) => by intros ? ? ?
          | |- throws_other get => by intros ? ? ?
          | |- throws_other (modify _) => by intros ? ? ?
          | |- throws_other (throw _) => by intros ? ? ? [= <- _]
          | |- throws_other (bind _ _) => apply throws_other_bind; [|intro]
          | |- throws_other (if ?b then _ else _) => destruct b
          | |- throws_other (let _ := _ in _) => cbv zeta
          | |- throws_other _ => solve [auto]
          end. }
      by apply Hother in Hrun. }
    cbn. rewrite Hiv, Haes. split; [done|].
    destruct (derive_key_table (head d1) ivv)
      as (_ & _ & H1 & H2 & H3 & H4 & _).
    fold k in H1, H2, H3, H4.
    repeat split; intros Hk'.
    + specialize (H1 Hk'). congruence.
    + specialize (H2 Hk'). congruence.
    + specialize (H3 Hk'). congruence.
    + specialize (H4 Hk'). congruence.
Qed.

End KeyLadder.

Lemma package_key_ladder_witness :
  let d0 := @session_start test_platform test_content_id test_url
              (fresh_download (fresh_http s1_pkg 64) ∅) in
  let bad := fresh_download (fresh_http (test_pkg 21 5 s1_files s1_tail) 64) ∅ in
  let header_of d :=
    snd (with_fuel (fun fuel => @read_header test_platform fuel 0)
           (set_head_size 256
              (snd (@create_file test_platform
                      (@head_named test_platform d))))) in
  (exists header rest,
      http_served (http (snd (@download_head test_platform None d0))) =
        [] ++ header ++ rest
      /\ length header = 256%nat
      /\ iv (snd (@download_head test_platform None d0)) = slice header 0x70 16
      /\ @derive_key test_platform header
           (iv (snd (@download_head test_platform None d0))) =
         inr (aes (snd (@download_head test_platform None d0))))
  /\ (exists header,
        http_served (http (snd (@download_head test_platform None bad))) =
          [] ++ header
        /\ length header = 256%nat
        /\ 5 = key_type_of header
        /\ (5 = 0 \/ 5 = 5 \/ 5 = 6 \/ 5 = 7))
  /\ (key_type_of (head (header_of bad)) = 5
      /\ exists d',
           @download_head test_platform None bad
           = (Throw (InvalidKeyType (key_type_of (head (header_of bad)))), d')
           /\ http d' = http (header_of bad) /\ fs d' = fs (header_of bad)
           /\ http_served (http (header_of bad))
              = http_served (http bad) ++ slice (head (header_of bad)) 0 256)
  /\ (key_type_of (head (header_of d0)) = 2
      /\ fst (@download_head test_platform None d0) = Ret 1
      /\ aes (snd (@download_head test_platform None d0))
         = @aes128_encrypt test_platform pkg_vita_2
             (slice (head (header_of d0)) 0x70 16)).
Proof.
  intros d0 bad header_of. split; [|split; [|split]].
  - refine (proj1 (proj2 (@package_key_ladder test_platform))
              None d0 (snd (@download_head test_platform None d0)) _).
    vm_compute. reflexivity.
  - refine (proj1 (proj2 (proj2 (@package_key_ladder test_platform)))
              None bad 5 (snd (@download_head test_platform None bad)) _).
    vm_compute. reflexivity.
  - split; [vm_compute; reflexivity|].
    refine (proj1 (proj2 (proj2 (proj2 (@package_key_ladder test_platform))))
              None bad 1
              (snd (@create_file test_platform (@head_named test_platform bad)))
              (header_of bad) _ _ _ _).
    + vm_compute. reflexivity.
    + vm_compute. reflexivity.
    + vm_compute. reflexivity.
    + right. left. vm_compute. reflexivity.
  - split; [vm_compute; reflexivity|]. split; [vm_compute; reflexivity|].
    destruct (proj2 (proj2 (proj2 (proj2 (@package_key_ladder test_platform))))
                None d0 1
                (snd (@create_file test_platform
                        (@head_named test_platform d0)))
                (header_of d0) (Ret 1)
                (snd (@download_head test_platform None d0)))
      as (_ & Hiv & _ & Hkey & _).
    + vm_compute. reflexivity.
    + vm_compute. reflexivity.
    + vm_compute. reflexivity.
    + vm_compute. split; discriminate.
    + vm_compute. reflexivity.
    + discriminate.
    + rewrite <- Hiv. apply Hkey. vm_compute. reflexivity.
Defined.

(* ===================================================================== *)
(** * Items: rounding to blocks and what is written *)
(* ===================================================================== *)

Lemma land_clear_low4 x :
  0 <= x < 2^64 -> Z.land x (u64 (Z.lnot 15)) = x - x mod 16.
Proof.
  intros Hx.
  assert (Z.land x (u64 (Z.lnot 15)) = Z.ldiff x 15) as ->.
  { unfold u64. rewrite <- (Z.land_ones _ 64) by lia.
    rewrite Z.land_assoc, (Z.land_comm x), <- Z.land_assoc.
    rewrite (Z.land_ones x 64) by lia. rewrite Z.mod_small by lia.
    by rewrite Z.land_comm, Z.ldiff_land. }
  assert (Z.ldiff x 15 + Z.land x 15 = x) as Hsum.
  { rewrite Z.add_nocarry_lor; [apply Z.lor_ldiff_and|].
    rewrite (Z.land_comm x 15), Z.land_assoc, Z.land_ldiff. done. }
  change 15 with (Z.ones 4) in Hsum at 2.
  rewrite Z.land_ones in Hsum by lia. change (2^4) with 16 in Hsum. lia.
Qed.

(** [encrypted_size] is [item_size] rounded up to whole AES blocks. *)
Lemma encrypted_size_blocks item_size :
  0 <= item_size -> item_size + 15 < 2^64 ->
  encrypted_size_of item_size = 16 * ((item_size + 15) / 16)
  /\ item_size <= encrypted_size_of item_size < item_size + 16.
Proof.
  intros Hs Hmax. unfold encrypted_size_of, AES_BLOCK_SIZE.
  replace (item_size + 16 - 1) with (item_size + 15) by lia.
  change (16 - 1) with 15.
  rewrite (u64_small (item_size + 15)) by lia.
  rewrite land_clear_low4 by lia.
  pose proof (Z.div_mod (item_size + 15) 16 ltac:(lia)).
  pose proof (Z.mod_pos_bound (item_size + 15) 16 ltac:(lia)).
  lia.
Qed.

Section Items.
Context `{Platform}.
Hypothesis HDOWN : 0 <= DOWN_CAP.

(** The bound check on the name of an entry (line 372). *)
Definition name_fits (d : Download) (e : index_entry) : bool :=
  negb ((u32 (NAME_CAP - 1) <? name_size e)
        || (total_size d <? u64 (enc_offset d + name_offset e + name_size e))).

(** The members as [download_file] sets them for entry [index] before it
    chooses [item_path]. *)
Definition entering (d : Download) (index : Z) : Download :=
  let e := read_index_entry d index in
  set_item (item_size e) (item_offset e) index
    (set_item_name (read_item_name d e) d).

(** How [download_file] routes an entry. *)
Lemma download_file_run index d :
  download_file index d =
  let e := read_index_entry d index in
  let name := read_item_name d e in
  let encrypted_size := encrypted_size_of (item_size e) in
  if negb (name_fits d e) then (Throw PkgTooSmallOrCorrupted, d)
  else if content_type d =? 6 then
    if bool_decide (name = "USRDIR/CONTENT/DOCUMENT.DAT") then
      materialise e encrypted_size
        (set_item_path (document_dat_path (root d)) (entering d index))
    else if bool_decide (name = "USRDIR/CONTENT/EBOOT.PBP") then
      materialise e encrypted_size
        (set_item_path (eboot_pbp_path (root d)) (entering d index))
    else
      with_fuel (fun fuel => drain_item fuel encrypted_size false)
        (entering d index)
  else
    materialise e encrypted_size
      (set_item_path (content_path (root d) name) (entering d index)).
Proof.
  unfold download_file, name_fits. rewrite run_bind_get. cbv zeta.
  destruct (_ || _); cbn [negb]; [done|].
  rewrite !run_bind_modify.
  destruct (content_type d =? 6); [|by rewrite run_bind_modify].
  repeat case_match; by rewrite ?run_bind_modify.
Qed.

(** A regular file written to its end. *)
Record item_written (e : index_entry) (d d' : Download)
    (stream : list byte) : Prop := {
  iw_served : http_served (http d') = http_served (http d) ++ stream;
  iw_absorbed : sha_absorbed (sha d') = sha_absorbed (sha d) ++ stream;
  iw_length : Z.of_nat (length stream) = encrypted_size_of (item_size e);
  iw_ordered : download_offset d = u64 (enc_offset d + item_offset e);
  iw_fs : exists folder,
    folder_of (item_path d) = Some folder
    /\ fs d' =
       <[item_path d :=
           File (take (Z.to_nat (item_size e))
                   (aes128_ctr (aes d) (iv d) (item_offset e) stream))]>
         (fs_mkdirs folder (fs d));
  iw_closed : item_file d' = None;
  iw_same_root : root d' = root d /\ content_type d' = content_type d;
}.

Lemma materialise_written e d d' :
  materialise e (encrypted_size_of (item_size e)) d = (Ret true, d') ->
  item_type e <> 4 -> item_type e <> 18 ->
  encrypted_offset d = 0 -> decrypted_size d = item_size e ->
  encrypted_base d = item_offset e ->
  0 <= item_size e -> item_size e + 15 < 2^64 ->
  0 <= item_offset e ->
  item_offset e + encrypted_size_of (item_size e) < 2^64 ->
  exists stream, item_written e d d' stream.
Proof.
  intros Hrun Hdir Hskip Hoff Hdec Hbase Hsize Hmax Hio Hend.
  destruct (encrypted_size_blocks _ Hsize Hmax) as [_ Hes].
  unfold materialise in Hrun. rewrite run_bind_get in Hrun.
  apply Z.eqb_neq in Hdir, Hskip. rewrite Hdir, Hskip in Hrun.
  exec Hrun.
  apply create_file_ret in Hstep as (-> & folder & Hfolder & ->).
  cbn in Hc0, Hc1.
  destruct a0; [|discriminate]. injection Hrun as <-.
  rewrite with_fuel_run in Hstep0.
  apply (drain_item_ret HDOWN) in Hstep0 as [stream Hdr];
    [|cbn; lia|lia].
  destruct Hdr as [Hs Ha Hlen _ _ Hsame _ Hsaved].
  cbn in Hs, Ha, Hlen.
  destruct (Hsaved eq_refl (item_path d) []) as [Hfs _].
  { done. }
  { cbn. apply lookup_insert_eq. }
  { cbn. lia. }
  { cbn. lia. }
  { cbn. lia. }
  cbn in Hfs. rewrite insert_insert_eq in Hfs.
  exists stream. split; cbn.
  - done.
  - done.
  - lia.
  - apply negb_false_iff, Z.eqb_eq in Hc0. rewrite Hoff in Hc0.
    by rewrite Z.add_0_r in Hc0.
  - exists folder. split; [done|]. rewrite Hfs, Hbase, Hoff, Z.add_0_r, Hdec.
    done.
  - done.
  - split; [apply (sp_root _ _ Hsame)|apply (sp_content_type _ _ Hsame)].
Qed.

End Items.

Lemma be_value_nonneg (l : list byte) : 0 <= be_value l.
Proof.
  unfold be_value.
  assert (forall acc, 0 <= acc ->
            0 <= fold_left (fun acc b => acc * 256 + byte_val b) l acc) as Hgen.
  { induction l as [|b l IH]; intros acc Hacc; simpl; [done|].
    apply IH. unfold byte_val. lia. }
  by apply Hgen.
Qed.

Section WrittenBytes.
Context `{Platform}.



End WrittenBytes.




(* ===================================================================== *)
(** * Which files download_files touches *)
(* ===================================================================== *)

Lemma bind_run {A B} (m : M A) (k : A -> M B) d r d' :
  bind m k d = (r, d') ->
  (exists a d1, m d = (Ret a, d1) /\ k a d1 = (r, d'))
  \/ (exists r1, m d = (r1, d') /\ forall a, r1 <> Ret a).
Proof.
  unfold bind. destruct (m d) as [[a|e| |] d1]; intros Hrun.
  - left. eauto.
  - right. injection Hrun as <- <-. eauto.
  - right. injection Hrun as <- <-. eauto.
  - right. injection Hrun as <- <-. eauto.
Qed.

Section Confinement.
Context `{Platform}.

(** [d'] has the root and content type of [d], and the regular files of
    [d] plus, at most, files at the paths [S]. *)
Definition confined (S : string -> Prop) (d d' : Download) : Prop :=
  root d' = root d /\ content_type d' = content_type d
  /\ forall p data,
       fs d' !! p = Some (File data) -> fs d !! p = Some (File data) \/ S p.

Lemma confined_refl S d : confined S d d.
Proof. repeat split. intros p data Hp. by left. Qed.

Lemma confined_trans S d1 d2 d3 :
  confined S d1 d2 -> confined S d2 d3 -> confined S d1 d3.
Proof.
  intros (Hr1 & Hc1 & Hf1) (Hr2 & Hc2 & Hf2).
  split; [congruence|]. split; [congruence|].
  intros p data Hp. destruct (Hf2 _ _ Hp) as [Hp2|HS]; [|by right].
  by apply Hf1.
Qed.

(** The read loop of an item writes to the open file, if at all. *)
Lemma drain_item_confined fuel encrypted_size save d r d' :
  drain_item fuel encrypted_size save d = (r, d') ->
  item_file d' = item_file d /\ root d' = root d
  /\ content_type d' = content_type d
  /\ (forall p, item_file d <> Some p -> fs d' !! p = fs d !! p)
  /\ (save = false -> fs d' = fs d).
Proof.
  revert d. induction fuel as [|fuel IH]; intros d Hrun; simpl in Hrun;
    rewrite run_bind_get in Hrun.
  all: destruct (encrypted_offset d =? encrypted_size);
    [by injection Hrun as <- <-|].
  { by injection Hrun as <- <-. }
  apply bind_run in Hrun as [(n & d1 & Hdata & Hrun)|(r1 & Hdata & _)].
  - destruct (download_data_confined _ _ _ _ _ _ _ Hdata)
      as (Hfile & Hroot & Hct & Hfs).
    assert (save = false -> fs d1 = fs d) as Hunsaved.
    { intros ->. by eapply download_data_unsaved. }
    destruct (n <=? 0).
    + injection Hrun as <- <-. by repeat split.
    + destruct (IH _ Hrun) as (Hfile' & Hroot' & Hct' & Hfs' & Hunsaved').
      split; [congruence|]. split; [congruence|]. split; [congruence|].
      split.
      * intros p Hp. rewrite Hfs' by congruence. by apply Hfs.
      * intros Hs. rewrite Hunsaved' by done. by apply Hunsaved.
  - destruct (download_data_confined _ _ _ _ _ _ _ Hdata)
      as (Hfile & Hroot & Hct & Hfs).
    repeat split; try done. intros ->. by eapply download_data_unsaved.
Qed.

Lemma create_file_frame d r d' :
  create_file d = (r, d') ->
  root d' = root d /\ content_type d' = content_type d
  /\ (forall a, r = Ret a -> item_file d' = Some (item_path d)).
Proof.
  unfold create_file, bind, get, pkgi_mkdirs, pkgi_create,
    modify, ret, throw, stuck.
  intros Hrun.
  repeat (cbv beta zeta in *; case_match; simplify_eq/=; try done).
Qed.

(** An entry that is materialised touches the file at [item_path]
    only. *)
Lemma materialise_confined e encrypted_size d r d' :
  materialise e encrypted_size d = (r, d') ->
  confined (fun p => p = item_path d) d d'.
Proof.
  intros Hrun. unfold materialise in Hrun. rewrite run_bind_get in Hrun.
  destruct (item_type e =? 4).
  { unfold bind, pkgi_mkdirs, ret in Hrun.
    destruct (mkdirs_ok (item_path d) (fs d)); injection Hrun as <- <-;
      repeat split; cbn; intros p data Hp; left.
    - by apply fs_mkdirs_file in Hp.
    - by apply fs_mkdirs_upto_file in Hp. }
  destruct (item_type e =? 18).
  { injection Hrun as <- <-. apply confined_refl. }
  assert (forall d1 r1, create_file d = (r1, d1) ->
            confined (fun p => p = item_path d) d d1) as Hcreate.
  { intros d1 r1 Hcf.
    destruct (create_file_frame _ _ _ Hcf) as (Hroot & Hct & _).
    split; [done|]. split; [done|]. intros p data Hp.
    destruct (decide (p = item_path d)) as [->|Hne]; [by right|]. left.
    destruct (create_file_fs _ _ _ p Hcf Hne) as [<-|[_ Hdir]]; [done|].
    congruence. }
  apply bind_run in Hrun as [(a & d1 & Hcf & Hrun)|(r1 & Hcf & _)];
    [|by eapply Hcreate].
  eapply confined_trans; [by eapply Hcreate|].
  destruct (create_file_frame _ _ _ Hcf) as (Hroot & Hct & Hfile).
  specialize (Hfile a eq_refl).
  destruct (a =? 0); [injection Hrun as <- <-; apply confined_refl|].
  rewrite run_bind_get in Hrun.
  destruct (negb _); [injection Hrun as <- <-; apply confined_refl|].
  destruct (_ <? _); [injection Hrun as <- <-; apply confined_refl|].
  assert (forall d2 r2,
            with_fuel (fun fuel => drain_item fuel encrypted_size true) d1
            = (r2, d2) ->
            confined (fun p => p = item_path d) d1 d2) as Hdrain.
  { intros d2 r2 Hdr. rewrite with_fuel_run in Hdr.
    destruct (drain_item_confined _ _ _ _ _ _ Hdr) as (_ & Hr & Hc & Hfs & _).
    split; [done|]. split; [done|]. intros p data Hp.
    destruct (decide (p = item_path d)) as [->|Hne]; [by right|]. left.
    rewrite <- Hfs; [done|]. rewrite Hfile. congruence. }
  apply bind_run in Hrun as [(ok & d2 & Hdr & Hrun)|(r2 & Hdr & _)];
    [|by eapply Hdrain].
  eapply confined_trans; [by eapply Hdrain|].
  destruct (negb ok); [injection Hrun as <- <-; apply confined_refl|].
  rewrite run_bind_modify in Hrun. injection Hrun as <- <-.
  exact (confined_refl _ d2).
Qed.

(** The two paths a handheld disc game is written to. *)
Definition disc_game_path (rt : string) (p : string) : Prop :=
  p = document_dat_path rt \/ p = eboot_pbp_path rt.

(** The routes of [download_file] for a handheld disc game. *)
Lemma download_file_unfit index d :
  name_fits d (read_index_entry d index) = false ->
  download_file index d = (Throw PkgTooSmallOrCorrupted, d).
Proof. intros Hfit. rewrite download_file_run. cbv zeta. by rewrite Hfit. Qed.

Lemma download_file_document index d :
  let e := read_index_entry d index in
  content_type d = 6 -> name_fits d e = true ->
  read_item_name d e = "USRDIR/CONTENT/DOCUMENT.DAT" ->
  download_file index d =
  materialise e (encrypted_size_of (item_size e))
    (set_item_path (document_dat_path (root d)) (entering d index)).
Proof.
  intros e Hct Hfit Hname. rewrite download_file_run. cbv zeta.
  fold e. rewrite Hfit, Hct, Hname. done.
Qed.

Lemma download_file_eboot index d :
  let e := read_index_entry d index in
  content_type d = 6 -> name_fits d e = true ->
  read_item_name d e = "USRDIR/CONTENT/EBOOT.PBP" ->
  download_file index d =
  materialise e (encrypted_size_of (item_size e))
    (set_item_path (eboot_pbp_path (root d)) (entering d index)).
Proof.
  intros e Hct Hfit Hname. rewrite download_file_run. cbv zeta.
  fold e. rewrite Hfit, Hct, Hname. done.
Qed.

Lemma download_file_other index d :
  let e := read_index_entry d index in
  content_type d = 6 -> name_fits d e = true ->
  read_item_name d e <> "USRDIR/CONTENT/DOCUMENT.DAT" ->
  read_item_name d e <> "USRDIR/CONTENT/EBOOT.PBP" ->
  download_file index d =
  with_fuel (fun fuel => drain_item fuel (encrypted_size_of (item_size e)) false)
    (entering d index).
Proof.
  intros e Hct Hfit Hdoc Hboot. rewrite download_file_run. cbv zeta.
  fold e. rewrite Hfit, Hct.
  rewrite (bool_decide_eq_false_2 _ Hdoc), (bool_decide_eq_false_2 _ Hboot).
  done.
Qed.

Lemma download_file_confined index d r d' :
  content_type d = 6 -> download_file index d = (r, d') ->
  confined (disc_game_path (root d)) d d'.
Proof.
  intros Hct Hrun.
  destruct (name_fits d (read_index_entry d index)) eqn:Hfit.
  2: { rewrite download_file_unfit in Hrun by done.
       injection Hrun as <- <-. apply confined_refl. }
  destruct (decide (read_item_name d (read_index_entry d index)
                    = "USRDIR/CONTENT/DOCUMENT.DAT")) as [Hdoc|Hdoc].
  { rewrite download_file_document in Hrun by done.
    apply materialise_confined in Hrun as (Hr & Hc & Hfs).
    split; [exact Hr|]. split; [exact Hc|]. intros p data Hp.
    destruct (Hfs _ _ Hp) as [Hp'|Hp']; [left; exact Hp'|].
    right. left. exact Hp'. }
  destruct (decide (read_item_name d (read_index_entry d index)
                    = "USRDIR/CONTENT/EBOOT.PBP")) as [Hboot|Hboot].
  { rewrite download_file_eboot in Hrun by done.
    apply materialise_confined in Hrun as (Hr & Hc & Hfs).
    split; [exact Hr|]. split; [exact Hc|]. intros p data Hp.
    destruct (Hfs _ _ Hp) as [Hp'|Hp']; [left; exact Hp'|].
    right. right. exact Hp'. }
  rewrite download_file_other in Hrun by done.
  rewrite with_fuel_run in Hrun.
  destruct (drain_item_confined _ _ _ _ _ _ Hrun) as (_ & Hr & Hc & _ & Hfs).
  split; [exact Hr|]. split; [exact Hc|]. intros p data Hp.
  left. rewrite (Hfs eq_refl) in Hp. exact Hp.
Qed.

Lemma download_entries_confined n index d r d' :
  content_type d = 6 -> download_entries n index d = (r, d') ->
  confined (disc_game_path (root d)) d d'.
Proof.
  revert index d. induction n as [|n IH]; intros index d Hct Hrun;
    simpl in Hrun.
  { injection Hrun as <- <-. apply confined_refl. }
  apply bind_run in Hrun as [(ok & d1 & Hfile & Hrun)|(r1 & Hfile & _)];
    [|by eapply download_file_confined].
  pose proof (download_file_confined _ _ _ _ Hct Hfile) as Hc1.
  eapply confined_trans; [exact Hc1|].
  destruct (negb ok); [injection Hrun as <- <-; apply confined_refl|].
  destruct Hc1 as (Hroot & Hct1 & _). rewrite <- Hroot.
  apply (IH (index + 1) d1); [congruence|exact Hrun].
Qed.

Lemma download_files_confined d r d' :
  content_type d = 6 -> download_files d = (r, d') ->
  confined (disc_game_path (root d)) d d'.
Proof.
  intros Hct Hrun. unfold download_files in Hrun.
  apply scope_exit_run in Hrun as (d1 & Hrun & ->).
  rewrite run_bind_get in Hrun.
  apply bind_run in Hrun as [(ok & d2 & Hen & Hrun)|(r1 & Hen & _)].
  - pose proof (download_entries_confined _ _ _ _ _ Hct Hen) as Hc.
    destruct (negb ok); [injection Hrun as <- <-; exact Hc|].
    rewrite run_bind_modify in Hrun. injection Hrun as <- <-. exact Hc.
  - exact (download_entries_confined _ _ _ _ _ Hct Hen).
Qed.

End Confinement.

Lemma encrypted_size_range item_size :
  0 <= encrypted_size_of item_size < 2^64.
Proof.
  unfold encrypted_size_of, AES_BLOCK_SIZE. change (16 - 1) with 15.
  pose proof (u64_range (item_size + 16 - 1)) as Hx.
  rewrite land_clear_low4 by done.
  pose proof (Z.mod_pos_bound (u64 (item_size + 16 - 1)) 16 ltac:(lia)).
  pose proof (Z.mod_le (u64 (item_size + 16 - 1)) 16 ltac:(lia) ltac:(lia)).
  lia.
Qed.

Section DiscGame.
Context `{Platform}.

(** C5.  For content type 6, [download_files] writes files at two paths
    and nowhere else: the entry named [USRDIR/CONTENT/DOCUMENT.DAT] goes
    to [root/DOCUMENT.DAT] and the entry named [USRDIR/CONTENT/EBOOT.PBP]
    to [root/EBOOT.PBP] (each holding the first [item_size] bytes of the
    decryption of what was read for it); for every other entry the
    [encrypted_size] bytes are read through
    [download_data(down, _, 1, 0)], which hashes and decrypts them, and
    the file system stays as it was. *)
Theorem disc_game_writes_two_files :
  (forall index d,
      let e := read_index_entry d index in
      let name := read_item_name d e in
      let encrypted_size := encrypted_size_of (item_size e) in
      content_type d = 6 -> name_fits d e = true ->
      (name = "USRDIR/CONTENT/DOCUMENT.DAT" ->
       download_file index d =
       materialise e encrypted_size
         (set_item_path (document_dat_path (root d)) (entering d index)))
      /\ (name = "USRDIR/CONTENT/EBOOT.PBP" ->
          download_file index d =
          materialise e encrypted_size
            (set_item_path (eboot_pbp_path (root d)) (entering d index)))
      /\ (name <> "USRDIR/CONTENT/DOCUMENT.DAT" ->
          name <> "USRDIR/CONTENT/EBOOT.PBP" ->
          download_file index d =
          with_fuel (fun fuel => drain_item fuel encrypted_size false)
            (entering d index)))
  /\ (forall index d d',
        let e := read_index_entry d index in
        let name := read_item_name d e in
        let encrypted_size := encrypted_size_of (item_size e) in
        content_type d = 6 -> download_file index d = (Ret true, d') ->
        item_type e <> 4 -> item_type e <> 18 ->
        0 <= DOWN_CAP -> item_size e + 15 < 2^64 ->
        item_offset e + encrypted_size < 2^64 ->
        forall path,
          name = "USRDIR/CONTENT/DOCUMENT.DAT"
          /\ path = document_dat_path (root d)
          \/ name = "USRDIR/CONTENT/EBOOT.PBP"
             /\ path = eboot_pbp_path (root d) ->
          exists stream,
            http_served (http d') = http_served (http d) ++ stream
            /\ sha_absorbed (sha d') = sha_absorbed (sha d) ++ stream
            /\ Z.of_nat (length stream) = encrypted_size
            /\ fs d' !! path =
               Some (File (take (Z.to_nat (item_size e))
                             (aes128_ctr (aes d) (iv d) (item_offset e)
                                stream))))
  /\ (forall index d r d',
        let e := read_index_entry d index in
        let name := read_item_name d e in
        let encrypted_size := encrypted_size_of (item_size e) in
        content_type d = 6 ->
        name <> "USRDIR/CONTENT/DOCUMENT.DAT" ->
        name <> "USRDIR/CONTENT/EBOOT.PBP" ->
        download_file index d = (r, d') ->
        fs d' = fs d
        /\ (r = Ret true -> 0 <= DOWN_CAP ->
            exists stream,
              http_served (http d') = http_served (http d) ++ stream
              /\ sha_absorbed (sha d') = sha_absorbed (sha d) ++ stream
              /\ Z.of_nat (length stream) = encrypted_size))
  /\ (forall d r d',
        content_type d = 6 -> download_files d = (r, d') ->
        forall p data,
          fs d' !! p = Some (File data) ->
          fs d !! p = Some (File data)
          \/ p = document_dat_path (root d) \/ p = eboot_pbp_path (root d)).
Proof.
  split; [|split; [|split]].
  - intros index d e name encrypted_size Hct Hfit.
    split; [|split].
    + intros Hname. by apply download_file_document.
    + intros Hname. by apply download_file_eboot.
    + intros Hdoc Hboot. by apply download_file_other.
  - intros index d d' e name encrypted_size Hct Hrun Hdir Hskip HDOWN Hmax
      Hend path Hpath.
    destruct (name_fits d e) eqn:Hfit.
    2: { rewrite download_file_unfit in Hrun by done. discriminate. }
    pose proof (be_value_nonneg
                  (slice (aes128_ctr (aes d) (iv d) (u32 (32 * index))
                            (slice (head d)
                               (enc_offset d + u32 (32 * index)) 32)) 16 8))
      as Hsize.
    pose proof (be_value_nonneg
                  (slice (aes128_ctr (aes d) (iv d) (u32 (32 * index))
                            (slice (head d)
                               (enc_offset d + u32 (32 * index)) 32)) 8 8))
      as Hoff.
    destruct Hpath as [[Hname ->]|[Hname ->]].
    + rewrite download_file_document in Hrun by done.
      apply (materialise_written HDOWN) in Hrun as [stream Hw]; try done.
      destruct Hw as [Hs Ha Hlen _ (folder & _ & Hfs) _ _].
      exists stream. split; [exact Hs|]. split; [exact Ha|].
      split; [exact Hlen|].
      rewrite Hfs. apply lookup_insert_eq.
    + rewrite download_file_eboot in Hrun by done.
      apply (materialise_written HDOWN) in Hrun as [stream Hw]; try done.
      destruct Hw as [Hs Ha Hlen _ (folder & _ & Hfs) _ _].
      exists stream. split; [exact Hs|]. split; [exact Ha|].
      split; [exact Hlen|].
      rewrite Hfs. apply lookup_insert_eq.
  - intros index d r d' e name encrypted_size Hct Hdoc Hboot Hrun.
    subst encrypted_size name e.
    destruct (name_fits d (read_index_entry d index)) eqn:Hfit.
    2: { rewrite download_file_unfit in Hrun by done.
         injection Hrun as <- <-. split; [done|]. discriminate. }
    rewrite download_file_other in Hrun by done.
    rewrite with_fuel_run in Hrun. split.
    + destruct (drain_item_confined _ _ _ _ _ _ Hrun) as (_ & _ & _ & _ & Hfs).
      exact (Hfs eq_refl).
    + intros -> HDOWN.
      pose proof (encrypted_size_range
                    (item_size (read_index_entry d index))) as Hes.
      apply (drain_item_ret HDOWN) in Hrun as [stream Hdr];
        [|change (encrypted_offset (entering d index)) with 0; lia|lia].
      destruct Hdr as [Hs Ha Hlen _ _ _ _ _].
      exists stream. split; [exact Hs|]. split; [exact Ha|].
      rewrite Hlen. change (encrypted_offset (entering d index)) with 0. lia.
  - intros d r d' Hct Hrun p data Hp.
    destruct (download_files_confined _ _ _ Hct Hrun) as (_ & _ & Hfs).
    exact (Hfs _ _ Hp).
Qed.

End DiscGame.

(** S6 of the specification: a handheld disc game with three files. *)
Definition eboot_pbp : list byte :=
  [x00; x50; x42; x50; x00; x00; x01; x00; x28; x00; x00; x00; x10; x20;
   x30; x40; x50; x60; x70; x80].
Definition document_dat : list byte := [x44; x4f; x43; x20; x31].
Definition junk_bin : list byte := replicate 33 xee.

Definition s6_files : list test_file :=
  [ {| tf_name := "USRDIR/CONTENT/EBOOT.PBP"; tf_type := 0;
       tf_data := eboot_pbp; tf_skew := 0 |};
    {| tf_name := "USRDIR/CONTENT/DOCUMENT.DAT"; tf_type := 0;
       tf_data := document_dat; tf_skew := 0 |};
    {| tf_name := "USRDIR/CONTENT/JUNK.BIN"; tf_type := 0;
       tf_data := junk_bin; tf_skew := 0 |} ].

Definition s6_pkg : list byte := test_pkg 6 1 s6_files [x01; x02].

Lemma disc_game_writes_two_files_witness :
  let d_head :=
    snd (@download_head test_platform None
           (@session_start test_platform test_content_id test_url
              (fresh_download (fresh_http s6_pkg 64) ∅))) in
  let run := @download_files test_platform d_head in
  fst run = Ret 1
  /\ fs (snd run) !! (root d_head +:+ "/EBOOT.PBP") = Some (File eboot_pbp)
  /\ fs (snd run) !! (root d_head +:+ "/DOCUMENT.DAT")
     = Some (File document_dat)
  /\ fs (snd run) !! (root d_head +:+ "/USRDIR/CONTENT/JUNK.BIN") = None
  /\ sha_absorbed (sha (snd run)) = take 554 s6_pkg
  /\ forall p data,
       fs (snd run) !! p = Some (File data) ->
       fs d_head !! p = Some (File data)
       \/ p = @document_dat_path test_platform (root d_head)
       \/ p = @eboot_pbp_path test_platform (root d_head).
Proof.
  intros d_head run.
  split; [vm_compute; reflexivity|]. split; [vm_compute; reflexivity|].
  split; [vm_compute; reflexivity|]. split; [vm_compute; reflexivity|].
  split; [vm_compute; reflexivity|].
  refine (proj2 (proj2 (proj2 (@disc_game_writes_two_files test_platform)))
            d_head (fst run) (snd run) _ _).
  - vm_compute. reflexivity.
  - apply surjective_pairing.
Defined.

(* ===================================================================== *)
(** * The tail of the package (C7) *)
(* ===================================================================== *)

Section Tail.
Context `{Platform}.
Hypothesis HDOWN : 0 <= DOWN_CAP.

(** [tail_offset] of [download_tail] (line 501). *)
Definition tail_offset_of (d : Download) : Z := u64 (enc_offset d + enc_size d).

(** What [tail.bin] holds when [download_tail] is through: nothing for a
    handheld disc game, the bytes of the tail otherwise. *)
Definition tail_bin_content (d : Download) (tail : list byte) : list byte :=
  if content_type d =? 6 then [] else tail.

(** Where the second loop of [download_tail] starts to read: at
    [tail_offset], or at [download_offset] when the stream is already
    past it (lines 502, 513). *)
Definition tail_start (d : Download) : Z :=
  Z.max (download_offset d) (tail_offset_of d).

(** C7 (amended). When download_tail returns 1 it has created
    root/sce_sys/package/tail.bin (and its folder) whatever the content
    type is, has read the bytes up to enc_offset + enc_size, none when
    download_offset is there or past it already, and then the bytes up to
    total_size from the HTTP stream, unencrypted, into the SHA-256
    context, and has closed the file.  For content type 6 the file stays
    empty; for every other content type it holds exactly the bytes of the
    second loop: with [tail_start] the larger of download_offset and
    enc_offset + enc_size, and not beyond total_size, the bytes from
    [tail_start] to total_size.  (The members are unsigned 64-bit
    numbers.) *)
Theorem download_tail_creates_tail_bin d d' :
  download_tail d = (Ret 1, d') ->
  exists folder skip tail,
    folder_of (tail_bin_path (root d)) = Some folder
    /\ http_served (http d') = http_served (http d) ++ skip ++ tail
    /\ sha_absorbed (sha d') = sha_absorbed (sha d) ++ skip ++ tail
    /\ (0 <= download_offset d ->
        Z.of_nat (length skip) = tail_start d - download_offset d)
    /\ (0 <= download_offset d -> tail_start d <= total_size d < 2^64 ->
        Z.of_nat (length tail) = total_size d - tail_start d)
    /\ download_offset d' = total_size d
    /\ item_file d' = None
    /\ fs d' = <[tail_bin_path (root d) := File (tail_bin_content d tail)]>
                 (fs_mkdirs folder (fs d)).
Proof.
  intros Hrun. unfold tail_start, tail_offset_of in *.
  apply scope_exit_run in Hrun as (d_end & Hrun & ->).
  rewrite !run_bind_modify in Hrun.
  apply bind_ret in Hrun as (created & d1 & Hcreate & Hrun).
  apply create_file_ret in Hcreate as (-> & folder & Hfolder & ->).
  rewrite run_bind_get in Hrun. cbn [Z.eqb Pos.eqb] in Hrun.
  cbv zeta in Hrun.
  apply bind_ret in Hrun as (ok1 & d2 & Hskip & Hrun).
  destruct ok1; [|discriminate]. cbn [negb] in Hrun.
  apply bind_ret in Hrun as (ok2 & d3 & Htail & Hrun).
  destruct ok2; [|discriminate]. injection Hrun as <-.
  rewrite with_fuel_run in Hskip, Htail.
  apply (skip_to_tail_ret HDOWN) in Hskip as (skip & Hskip).
  apply (drain_tail_ret HDOWN) in Htail as (tail & Htail).
  destruct Hskip as [Sserved Sabs Sfs Ssame _ Snone Sexact].
  destruct Htail as [Tserved Tabs Tsame Tend Tlen Tunsaved Tsaved].
  simpl in Sserved, Sabs, Sfs, Sexact, Snone, Hfolder.
  pose proof (sp_total_size _ _ Ssame) as Etotal.
  pose proof (sp_content_type _ _ Ssame) as Etype.
  pose proof (sp_item_file _ _ Ssame) as Efile.
  simpl in Etotal, Etype, Efile.
  assert (u64 (enc_offset d + enc_size d) < 2^64) as Hu64
    by (unfold u64; apply Z.mod_pos_bound; lia).
  assert (0 <= download_offset d ->
          download_offset d2
          = Z.max (download_offset d) (u64 (enc_offset d + enc_size d))
          /\ Z.of_nat (length skip)
             = Z.max (download_offset d) (u64 (enc_offset d + enc_size d))
               - download_offset d) as Hstart.
  { intros Hpos.
    destruct (Z.le_gt_cases (u64 (enc_offset d + enc_size d))
                (download_offset d)) as [Hpast|Hbefore].
    - destruct (Snone Hpast) as [-> ->]. simpl. lia.
    - destruct Sexact as [Sat Slen]; [lia|lia|]. lia. }
  rewrite Etotal in Tend, Tlen. rewrite Etype in Tunsaved, Tsaved.
  exists folder, skip, tail.
  change (http (set_item_file None d3)) with (http d3).
  change (sha (set_item_file None d3)) with (sha d3).
  change (fs (set_item_file None d3)) with (fs d3).
  change (download_offset (set_item_file None d3)) with (download_offset d3).
  split; [done|].
  split; [by rewrite Tserved, Sserved, app_assoc|].
  split; [by rewrite Tabs, Sabs, app_assoc|].
  split; [intros Hpos; by apply Hstart|].
  split.
  { intros Hpos Htotal. destruct (Hstart Hpos) as [Hat _].
    rewrite Tlen; lia. }
  split; [done|].
  split; [done|]. simpl. unfold tail_bin_content.
  destruct (content_type d =? 6) eqn:Htype.
  - apply Z.eqb_eq in Htype. by rewrite (Tunsaved Htype), Sfs.
  - apply Z.eqb_neq in Htype.
    rewrite (Tsaved Htype _ [] Efile).
    + by rewrite Sfs, insert_insert_eq.
    + rewrite Sfs. apply lookup_insert_eq.
Qed.

End Tail.

(** The package of S1 with an [enc_size] that is 16 too small: the files
    take the stream past [enc_offset + enc_size]. *)
Definition s1_short_pkg : list byte :=
  take 40 s1_pkg ++ be_bytes 8 53 ++ drop 48 s1_pkg.

Lemma download_tail_creates_tail_bin_witness :
  let d_files :=
    snd (@download_files test_platform
      (snd (@download_head test_platform None
              (@session_start test_platform test_content_id test_url
                 (fresh_download (fresh_http s1_pkg 64) ∅))))) in
  let run := @download_tail test_platform d_files in
  let d_short :=
    snd (@download_files test_platform
      (snd (@download_head test_platform None
              (@session_start test_platform test_content_id test_url
                 (fresh_download (fresh_http s1_short_pkg 64) ∅))))) in
  let short := @download_tail test_platform d_short in
  (fst run = Ret 1
   /\ @tail_bin_content d_files s1_tail = s1_tail
   /\ fs (snd run) !! (root d_files +:+ "/sce_sys/package/tail.bin")
      = Some (File s1_tail))
  /\ (fst short = Ret 1
      /\ download_offset d_short = 357 /\ tail_offset_of d_short = 341
      /\ total_size d_short = 360
      /\ fs (snd short) !! (root d_short +:+ "/sce_sys/package/tail.bin")
         = Some (File s1_tail)).
Proof.
  intros d_files run d_short short. split.
  - split; [vm_compute; reflexivity|]. split; [vm_compute; reflexivity|].
    destruct (@download_tail_creates_tail_bin test_platform ltac:(vm_compute; discriminate)
                d_files (snd run))
      as (folder & skip & tail & _ & Hserved & _ & Hskip & _ & _ & _ & Hfs).
    + vm_compute. reflexivity.
    + rewrite Hfs.
      replace (root d_files +:+ "/sce_sys/package/tail.bin")
        with (@tail_bin_path test_platform (root d_files))
        by (vm_compute; reflexivity).
      rewrite lookup_insert_eq. f_equal. f_equal.
      assert (skip = []) as ->.
      { apply length_zero_iff_nil. apply Nat2Z.inj. rewrite Hskip.
        - vm_compute. reflexivity.
        - vm_compute. discriminate. }
      assert (tail = drop (length (http_served (http d_files)))
                (http_served (http (snd run)))) as ->.
      { rewrite Hserved. by rewrite drop_app_length. }
      vm_compute. reflexivity.
  - split; [vm_compute; reflexivity|]. split; [vm_compute; reflexivity|].
    split; [vm_compute; reflexivity|]. split; [vm_compute; reflexivity|].
    destruct (@download_tail_creates_tail_bin test_platform ltac:(vm_compute; discriminate)
                d_short (snd short))
      as (folder & skip & tail & _ & Hserved & _ & Hskip & _ & _ & _ & Hfs).
    + vm_compute. reflexivity.
    + rewrite Hfs.
      replace (root d_short +:+ "/sce_sys/package/tail.bin")
        with (@tail_bin_path test_platform (root d_short))
        by (vm_compute; reflexivity).
      rewrite lookup_insert_eq. f_equal. f_equal.
      assert (skip = []) as ->.
      { apply length_zero_iff_nil. apply Nat2Z.inj. rewrite Hskip.
        - vm_compute. reflexivity.
        - vm_compute. discriminate. }
      assert (tail = drop (length (http_served (http d_short)))
                (http_served (http (snd short)))) as ->.
      { rewrite Hserved. by rewrite drop_app_length. }
      vm_compute. reflexivity.
Defined.

(** Two runs that go through.  A handheld disc game (content type 6)
    leaves an empty [tail.bin] in the staging directory, although the
    package has a two-byte tail.  A package whose files reach past
    [enc_offset + enc_size] leaves a [tail.bin] of three bytes, not the
    19 from [enc_offset + enc_size] to [total_size]. *)
Lemma tail_bin_is_not_the_declared_tail :
  (let run := run_pipeline s6_pkg 64 None None in
   fst run = Ret 1
   /\ content_type (snd run) = 6
   /\ total_size (snd run) - tail_offset_of (snd run) = 2
   /\ fs (snd run) !! (root (snd run) +:+ "/sce_sys/package/tail.bin")
      = Some (File []))
  /\ (let run := run_pipeline s1_short_pkg 64 None None in
      fst run = Ret 1
      /\ content_type (snd run) = 21
      /\ total_size (snd run) - tail_offset_of (snd run) = 19
      /\ fs (snd run) !! (root (snd run) +:+ "/sce_sys/package/tail.bin")
         = Some (File s1_tail)).
Proof. vm_compute. repeat split; reflexivity. Qed.

(* ===================================================================== *)
(** * The ordering check (C3) *)
(* ===================================================================== *)

Section Ordering.
Context `{Platform}.

(** The position the index gives for the data of entry [e] (line 441). *)
Definition expected_offset (d : Download) (e : index_entry) : Z :=
  u64 (enc_offset d + item_offset e + encrypted_offset d).

Definition is_file_ordering (e : DownloadError) : Prop :=
  exists expected actual, e = FileOrdering expected actual.

(** The read loop of an entry has the errors of [download_data] only. *)
Lemma drain_item_throws fuel encrypted_size save d e d' :
  drain_item fuel encrypted_size save d = (Throw e, d') ->
  ~ is_file_ordering e.
Proof.
  revert d. induction fuel as [|fuel IH]; intros d Hrun;
    simpl in Hrun; unfold bind at 1, get at 1 in Hrun.
  all: destruct (encrypted_offset d =? encrypted_size); try discriminate.
  unfold bind at 1 in Hrun.
  destruct (download_data _ _ _ _ d) as [[n| | |] d1] eqn:Hdata;
    try discriminate.
  - destruct (n <=? 0); [discriminate|]. by eapply IH.
  - injection Hrun as -> ->.
    apply download_data_throws in Hdata
      as [->|[[status ->]|[->|[path ->]]]].
    all: by intros (expected & actual & ?).
Qed.

Lemma download_file_content index d :
  let e := read_index_entry d index in
  content_type d <> 6 -> name_fits d e = true ->
  download_file index d =
  materialise e (encrypted_size_of (item_size e))
    (set_item_path (content_path (root d) (read_item_name d e))
       (entering d index)).
Proof.
  intros e Hct Hfit. rewrite download_file_run. cbv zeta.
  fold e. rewrite Hfit. apply Z.eqb_neq in Hct. by rewrite Hct.
Qed.

Lemma expected_offset_entering path d index e :
  expected_offset (set_item_path path (entering d index)) e
  = u64 (enc_offset d + item_offset e).
Proof.
  unfold expected_offset, entering. cbv zeta.
  cbn [enc_offset encrypted_offset set_item_path set_item set_item_name].
  by rewrite Z.add_0_r.
Qed.

Lemma materialise_regular e encrypted_size d :
  item_type e <> 4 -> item_type e <> 18 ->
  expected_offset d e <> download_offset d ->
  materialise e encrypted_size d =
  match create_file d with
  | (Ret created, d1) =>
      if created =? 0 then (Throw (CannotCreate (item_name d)), d1)
      else (Throw (FileOrdering (expected_offset d e) (download_offset d)), d1)
  | (Throw err, d1) => (Throw err, d1)
  | (Stuck, d1) => (Stuck, d1)
  | (OutOfFuel, d1) => (OutOfFuel, d1)
  end.
Proof.
  intros Hdir Hother Hoff. unfold materialise. rewrite run_bind_get.
  apply Z.eqb_neq in Hdir, Hother. rewrite Hdir, Hother.
  unfold bind at 1.
  destruct (create_file d) as [[created| | |] d1] eqn:Hcreate; try done.
  destruct (created =? 0); [done|]. rewrite run_bind_get. cbv zeta.
  pose proof (create_file_ret _ _ _ Hcreate) as (_ & folder & _ & ->).
  change (u64 (enc_offset d + item_offset e + encrypted_offset d))
    with (expected_offset d e) in *.
  cbn [enc_offset encrypted_offset download_offset set_item_file set_fs].
  fold (expected_offset d e).
  apply Z.eqb_neq in Hoff. by rewrite Hoff.
Qed.

(** C3 (amended).  An index entry that is a regular file (its type is
    neither 4 nor 18) and whose position according to the index,
    enc_offset + item_offset + encrypted_offset, differs from
    download_offset: the output file is created first, empty, and only
    then the pipeline fails with the "file ordering" error, without having
    read a byte of the entry; the empty file stays behind.  This is what
    download_files does with every such entry of a package whose content
    type is not 6, and with the entries DOCUMENT.DAT and EBOOT.PBP of a
    package of content type 6.  The other entries of a package of content
    type 6 are read and dropped without the check: for them no "file
    ordering" error is raised at all. *)
Theorem file_ordering_checked_after_create :
  (forall e encrypted_size d created d1,
     item_type e <> 4 -> item_type e <> 18 ->
     expected_offset d e <> download_offset d ->
     create_file d = (Ret created, d1) ->
     materialise e encrypted_size d
     = (Throw (FileOrdering (expected_offset d e) (download_offset d)), d1)
     /\ fs d1 !! item_path d = Some (File [])
     /\ http d1 = http d)
  /\ (forall e encrypted_size d r d',
        item_type e <> 4 -> item_type e <> 18 ->
        expected_offset d e <> download_offset d ->
        materialise e encrypted_size d = (r, d') ->
        (forall v, r <> Ret v) /\ http d' = http d)
  /\ (forall index d created d1,
        let e := read_index_entry d index in
        let path := content_path (root d) (read_item_name d e) in
        content_type d <> 6 -> name_fits d e = true ->
        item_type e <> 4 -> item_type e <> 18 ->
        u64 (enc_offset d + item_offset e) <> download_offset d ->
        create_file (set_item_path path (entering d index))
        = (Ret created, d1) ->
        download_file index d
        = (Throw (FileOrdering (u64 (enc_offset d + item_offset e))
                    (download_offset d)), d1)
        /\ fs d1 !! path = Some (File [])
        /\ http d1 = http d)
  /\ (forall index d err d',
        let e := read_index_entry d index in
        content_type d = 6 -> name_fits d e = true ->
        read_item_name d e <> "USRDIR/CONTENT/DOCUMENT.DAT" ->
        read_item_name d e <> "USRDIR/CONTENT/EBOOT.PBP" ->
        download_file index d = (Throw err, d') ->
        ~ is_file_ordering err).
Proof.
  assert (forall e encrypted_size d created d1,
     item_type e <> 4 -> item_type e <> 18 ->
     expected_offset d e <> download_offset d ->
     create_file d = (Ret created, d1) ->
     materialise e encrypted_size d
     = (Throw (FileOrdering (expected_offset d e) (download_offset d)), d1)
     /\ fs d1 !! item_path d = Some (File [])
     /\ http d1 = http d) as Hcreated.
  { intros e encrypted_size d created d1 Hdir Hother Hoff Hcreate.
    rewrite materialise_regular, Hcreate by done.
    pose proof (create_file_http _ _ _ Hcreate) as Hhttp.
    apply create_file_ret in Hcreate as (-> & folder & _ & ->).
    split; [done|]. split; [|done]. simpl. apply lookup_insert_eq. }
  split; [exact Hcreated|]. split; [|split].
  - intros e encrypted_size d r d' Hdir Hother Hoff Hrun.
    rewrite materialise_regular in Hrun by done.
    destruct (create_file d) as [[created| | |] d1] eqn:Hcreate.
    + pose proof (create_file_http _ _ _ Hcreate) as Hhttp.
      destruct (created =? 0); injection Hrun as <- <-; by split.
    + pose proof (create_file_http _ _ _ Hcreate) as Hhttp.
      injection Hrun as <- <-; by split.
    + pose proof (create_file_http _ _ _ Hcreate) as Hhttp.
      injection Hrun as <- <-; by split.
    + pose proof (create_file_http _ _ _ Hcreate) as Hhttp.
      injection Hrun as <- <-; by split.
  - intros index d created d1 e path Hct Hfit Hdir Hother Hoff Hcreate.
    rewrite download_file_content by done. fold e. fold path.
    pose proof (expected_offset_entering path d index e) as Hexp.
    destruct (Hcreated e (encrypted_size_of (item_size e))
                (set_item_path path (entering d index)) created d1)
      as (Hrun & Hfs & Hhttp); [done|done| |done|].
    { by rewrite Hexp. }
    rewrite Hexp in Hrun. by repeat split.
  - intros index d err d' e Hct Hfit Hdoc Hboot Hrun.
    rewrite download_file_other, with_fuel_run in Hrun by done.
    by eapply drain_item_throws.
Qed.

End Ordering.

(** A package of content type 21 with two files; the index gives the
    second one a position 16 bytes too far. *)
Definition a_bin : list byte := [x61; x62; x63].
Definition s3_files : list test_file :=
  [ {| tf_name := "a.bin"; tf_type := 0; tf_data := a_bin; tf_skew := 0 |};
    {| tf_name := "x.bin"; tf_type := 0; tf_data := x_bin; tf_skew := 16 |} ].
Definition s3_pkg : list byte := test_pkg 21 2 s3_files s1_tail.

(** A handheld disc game whose index misplaces an entry that is not
    materialised. *)
Definition s6_skewed_files : list test_file :=
  [ {| tf_name := "USRDIR/CONTENT/EBOOT.PBP"; tf_type := 0;
       tf_data := eboot_pbp; tf_skew := 0 |};
    {| tf_name := "USRDIR/CONTENT/JUNK.BIN"; tf_type := 0;
       tf_data := junk_bin; tf_skew := 4096 |};
    {| tf_name := "USRDIR/CONTENT/DOCUMENT.DAT"; tf_type := 0;
       tf_data := document_dat; tf_skew := 0 |} ].
Definition s6_skewed_pkg : list byte :=
  test_pkg 6 1 s6_skewed_files [x01; x02].

Lemma file_ordering_checked_after_create_witness :
  let d_head :=
    snd (@download_head test_platform None
           (@session_start test_platform test_content_id test_url
              (fresh_download (fresh_http s3_pkg 64) ∅))) in
  let d_first := snd (@download_file test_platform 0 d_head) in
  let run := @download_file test_platform 1 d_first in
  fst run = Throw (FileOrdering 394 378)
  /\ fs (snd run) !! (root d_head +:+ "/x.bin") = Some (File [])
  /\ http (snd run) = http d_first.
Proof.
  intros d_head d_first run.
  destruct (proj1 (proj2 (proj2
              (@file_ordering_checked_after_create test_platform)))
              1 d_first 1 (snd run))
    as (Hrun & Hfs & Hhttp).
  - vm_compute. discriminate.
  - vm_compute. reflexivity.
  - vm_compute. discriminate.
  - vm_compute. discriminate.
  - vm_compute. discriminate.
  - vm_compute. reflexivity.
  - split; [|split].
    + unfold run. rewrite Hrun. vm_compute. reflexivity.
    + replace (root d_head +:+ "/x.bin")
        with (@content_path test_platform (root d_first)
                (@read_item_name test_platform d_first
                   (@read_index_entry test_platform d_first 1)))
        by (vm_compute; reflexivity).
      exact Hfs.
    + exact Hhttp.
Defined.

(** The run of the first package ends with the "file ordering" error and
    leaves the empty [x.bin] of the misplaced entry behind; the run of the
    second succeeds, its misplaced entry, which the index puts beyond the
    end of the package, being one that is dropped. *)
Lemma misplaced_entry_leaves_empty_file :
  let run := run_pipeline s3_pkg 64 None None in
  let run6 := run_pipeline s6_skewed_pkg 64 None None in
  fst run = Throw (FileOrdering 394 378)
  /\ fs (snd run) !! (root (snd run) +:+ "/x.bin") = Some (File [])
  /\ fst run6 = Ret 1
  /\ Z.of_nat (length s6_skewed_pkg)
     < enc_offset (snd run6)
       + item_offset (@read_index_entry test_platform (snd run6) 1).
Proof. vm_compute. repeat split; reflexivity. Qed.

(* ===================================================================== *)
(** * install.cpp: the device *)
(* ===================================================================== *)

(** A row of [tbl_appinfo] in [ur0:shell/db/app.db]. *)
Record appinfo := {
  titleId : string;
  key : Z;
  val : string;
}.

(** What [install.cpp] works on: the file system and the application
    table of the shell. *)
Record Device := {
  dev_fs : filesystem;
  app_db : list appinfo;
}.

(** The collaborators of [install.cpp]: the reader of [param.sfo], the
    result of the rename system call and the result codes of the SQLite
    calls. *)
Class Host := {
  pkgi_sfo_get_string : list byte -> string -> string;
  sceIoRename_res : string -> string -> filesystem -> Z;
  sqlite3_open : string -> Z;
  sqlite3_prepare_v2 : list appinfo -> Z;
  sqlite3_step : list appinfo -> Z;
}.

Definition SQLITE_OK : Z := 0.
Definition SQLITE_DONE : Z := 101.

(** The [std::runtime_error]s of [pkgi_install_update], and the exception
    of [pkgi_load]. *)
Inductive InstallError : Type :=
  | CannotRename (res : Z)
  | CannotLoad (path : string)
  | VersionNotFound
  | VersionWrongSize (size : nat)
  | SqliteError (what : string)
  | CannotUpdateVersion.

(** [Undefined]: [contentid + 7] points past the end of the string. *)
Inductive result (A : Type) : Type :=
  | Done (a : A)
  | Raise (e : InstallError)
  | Undefined.
Arguments Done {A} a.
Arguments Raise {A} e.
Arguments Undefined {A}.

Fixpoint starts_with (pre s : string) : bool :=
  match pre, s with
  | EmptyString, _ => true
  | String a pre', String b s' => Ascii.eqb a b && starts_with pre' s'
  | String _ _, EmptyString => false
  end.

Fixpoint string_drop (n : nat) (s : string) : string :=
  match n, s with
  | O, _ => s
  | S n', String _ s' => string_drop n' s'
  | S _, EmptyString => EmptyString
  end.

(** [p] is [dir] or lies below it. *)
Definition under (dir p : string) : bool :=
  bool_decide (p = dir) || starts_with (dir +:+ "/") p.

(** The path [p] below [src] has once [src] has become [dest]. *)
Definition rebase (src dest p : string) : string :=
  dest +:+ string_drop (String.length src) p.

(** Modelled from the spec: [pkgi_delete_dir] of [file.cpp], "delete
    existing patch dir": the directory goes with all it holds; nothing
    happens when there is none. *)
Definition pkgi_delete_dir (dir : string) (fs : filesystem) : filesystem :=
  filter (fun e => under dir e.1 = false) fs.

(** Modelled from the spec: a successful [sceIoRename], "All file moves are
    single-step renames (same filesystem)": what is at or below [src] is
    afterwards at the same place below [dest]. *)
Definition fs_rename (src dest : string) (fs : filesystem) : filesystem :=
  list_to_map
    (prod_map (rebase src dest) id
       <$> map_to_list (filter (fun e => under src e.1 = true) fs))
  ∪ filter (fun e => under src e.1 = false) fs.

(** Modelled from the spec: [pkgi_file_exists] of [file.cpp], the
    "file-exists probe" of the I/O facade. *)
Definition pkgi_file_exists (path : string) (fs : filesystem) : bool :=
  bool_decide (is_Some (fs !! path)).

(** Modelled from the spec: [pkgi_load] of [file.cpp], "load(path) ->
    bytes"; it throws when there is no such file. *)
Definition pkgi_load (path : string) (fs : filesystem) : option (list byte) :=
  match fs !! path with
  | Some (File data) => Some data
  | _ => None
  end.

Section Install.
Context `{Platform} `{Host}.

Definition param_sfo (package : string) : string :=
  package +:+ "/sce_sys/param.sfo".

Definition pkgi_extract_package_version (package : string)
    (fs : filesystem) : result string :=
  match pkgi_load (param_sfo package) fs with
  | None => Raise (CannotLoad (param_sfo package))
  | Some sfo => Done (pkgi_sfo_get_string sfo "APP_VER")
  end.

Definition pkgi_get_game_version (titleid : string) (s : Device)
  : result string :=
  let patch_dir := "ux0:patch/" +:+ titleid in
  if pkgi_file_exists patch_dir (dev_fs s)
  then pkgi_extract_package_version patch_dir (dev_fs s)
  else
    let game_dir := "ux0:app/" +:+ titleid in
    if pkgi_file_exists game_dir (dev_fs s)
    then pkgi_extract_package_version game_dir (dev_fs s)
    else Done "".

(** [UPDATE tbl_appinfo SET val = ? WHERE titleId = ? AND key = 3168212510]
    with [version] and [titleid] bound to the two parameters. *)
Definition update_version (version titleid : string) (db : list appinfo)
  : list appinfo :=
  (fun row =>
     if bool_decide (titleId row = titleid) && (key row =? 3168212510)
     then {| titleId := titleId row; key := key row; val := version |}
     else row) <$> db.

(** [fmt::format("{:.9}", contentid + 7)] *)
Definition titleid_of (contentid : string) : string :=
  String.substring 7 9 contentid.

Definition pkgi_install_update (contentid : string) (s : Device)
  : result unit * Device :=
  if (String.length contentid <? 7)%nat then (Undefined, s)
  else
  let fs1 := if mkdirs_ok "ux0:patch" (dev_fs s)
             then fs_mkdirs "ux0:patch" (dev_fs s)
             else fs_mkdirs_upto (mkdirs_made "ux0:patch" (dev_fs s))
                    "ux0:patch" (dev_fs s) in
  let titleid := titleid_of contentid in
  let src := "ux0:pkgj/" +:+ contentid in
  let dest := "ux0:patch/" +:+ titleid in
  let fs2 := pkgi_delete_dir dest fs1 in
  let res := sceIoRename_res src dest fs2 in
  if res <? 0
  then (Raise (CannotRename (u32 res)), {| dev_fs := fs2; app_db := app_db s |})
  else
  let s3 := {| dev_fs := fs_rename src dest fs2; app_db := app_db s |} in
  match pkgi_load (param_sfo dest) (dev_fs s3) with
  | None => (Raise (CannotLoad (param_sfo dest)), s3)
  | Some sfo =>
      let version := pkgi_sfo_get_string sfo "APP_VER" in
      if bool_decide (version = "") then (Raise VersionNotFound, s3)
      else if negb (String.length version =? 5)%nat
      then (Raise (VersionWrongSize (String.length version)), s3)
      else if negb (sqlite3_open "ur0:shell/db/app.db" =? SQLITE_OK)
      then (Raise (SqliteError "can't open app.db database"), s3)
      else if negb (sqlite3_prepare_v2 (app_db s) =? SQLITE_OK)
      then (Raise (SqliteError "can't prepare version update SQL statement"),
            s3)
      else
        let err := sqlite3_step (app_db s) in
        if negb (err =? SQLITE_DONE) then (Raise CannotUpdateVersion, s3)
        else (Done tt,
              {| dev_fs := dev_fs s3;
                 app_db := update_version version titleid (app_db s) |})
  end.

End Install.

(** A host to run [install.cpp] on: [param.sfo] holds the version as a C
    string, renaming fails when there is nothing to rename, SQLite does
    not fail. *)
Definition test_host : Host :=
  {| pkgi_sfo_get_string := fun sfo name =>
       if bool_decide (name = "APP_VER") then c_str sfo else "";
     sceIoRename_res := fun src dest fs =>
       if pkgi_file_exists src fs then 0 else -2147418110;
     sqlite3_open := fun _ => SQLITE_OK;
     sqlite3_prepare_v2 := fun _ => SQLITE_OK;
     sqlite3_step := fun _ => SQLITE_DONE |}.

Definition staged_update : Device :=
  {| dev_fs :=
       list_to_map
         [ ("ux0:pkgj", Dir);
           ("ux0:pkgj/EP0000-PCSB00000_00-0000000000000000", Dir);
           ("ux0:pkgj/EP0000-PCSB00000_00-0000000000000000/sce_sys", Dir);
           ("ux0:pkgj/EP0000-PCSB00000_00-0000000000000000/sce_sys/param.sfo",
            File (str_bytes "01.05"));
           ("ux0:patch", Dir);
           ("ux0:patch/PCSB00000", Dir);
           ("ux0:patch/PCSB00000/sce_sys", Dir);
           ("ux0:patch/PCSB00000/sce_sys/param.sfo", File (str_bytes "01.02"));
           ("ux0:patch/PCSB00000/old.bin", File [x00]);
           ("ux0:app/PCSB00000", Dir);
           ("ux0:app/PCSB00000/sce_sys", Dir);
           ("ux0:app/PCSB00000/sce_sys/param.sfo", File (str_bytes "01.00")) ];
     app_db :=
       [ {| titleId := "PCSB00000"; key := 3168212510; val := "01.02" |};
         {| titleId := "PCSB00000"; key := 566916785; val := "gd" |};
         {| titleId := "PCSB00001"; key := 3168212510; val := "01.00" |} ] |}.

(* ===================================================================== *)
(** * Paths, deleting and renaming *)
(* ===================================================================== *)

Lemma append_cons c (a b : string) : String c a +:+ b = String c (a +:+ b).
Proof. reflexivity. Qed.

Lemma append_nil_l (s : string) : "" +:+ s = s.
Proof. reflexivity. Qed.

Lemma append_nil_r (s : string) : s +:+ "" = s.
Proof. induction s as [|c s IH]; [done|]. by rewrite append_cons, IH. Qed.

Lemma append_assoc (a b c : string) : (a +:+ b) +:+ c = a +:+ (b +:+ c).
Proof.
  induction a as [|x a IH]; [done|]. by rewrite !append_cons, IH.
Qed.

Lemma append_inj_l (a r r' : string) : a +:+ r = a +:+ r' -> r = r'.
Proof. apply String.app_inj. Qed.

Lemma string_drop_append (a r : string) :
  string_drop (String.length a) (a +:+ r) = r.
Proof.
  induction a as [|x a IH]; [by destruct r|]. by rewrite append_cons.
Qed.

Lemma starts_with_append (a r : string) : starts_with a (a +:+ r) = true.
Proof.
  induction a as [|x a IH]; [done|]. rewrite append_cons. simpl.
  by rewrite Ascii.eqb_refl.
Qed.

Lemma starts_with_inv (pre s : string) :
  starts_with pre s = true -> exists r, s = pre +:+ r.
Proof.
  revert s. induction pre as [|x pre IH]; intros s; simpl.
  - by exists s.
  - destruct s as [|y s]; [done|].
    intros [Hxy Hrest]%andb_prop. apply Ascii.eqb_eq in Hxy as ->.
    destruct (IH _ Hrest) as [r ->]. exists r. by rewrite append_cons.
Qed.

(** The part of a path after the directory: nothing, or a slash and
    more. *)
Definition below (rest : string) : Prop :=
  rest = "" \/ starts_with "/" rest = true.

Lemma under_append (dir rest : string) :
  below rest -> under dir (dir +:+ rest) = true.
Proof.
  unfold under. intros [->|Hrest].
  - rewrite append_nil_r. by rewrite bool_decide_eq_true_2.
  - apply starts_with_inv in Hrest as [r ->].
    rewrite <- append_assoc, starts_with_append. apply orb_true_r.
Qed.

Lemma under_self (dir : string) : under dir dir = true.
Proof. unfold under. by rewrite bool_decide_eq_true_2. Qed.

Lemma under_inv (dir p : string) :
  under dir p = true -> exists rest, p = dir +:+ rest.
Proof.
  unfold under. intros [Heq|Hpre]%orb_prop.
  - apply bool_decide_eq_true_1 in Heq as ->. exists "".
    by rewrite append_nil_r.
  - apply starts_with_inv in Hpre as [r ->]. exists ("/" +:+ r).
    by rewrite append_assoc.
Qed.

Lemma rebase_append (src dest rest : string) :
  rebase src dest (src +:+ rest) = dest +:+ rest.
Proof. unfold rebase. by rewrite string_drop_append. Qed.

Lemma pkgi_delete_dir_gone dir rest (fs : filesystem) :
  below rest -> pkgi_delete_dir dir fs !! (dir +:+ rest) = None.
Proof.
  intros Hrest. unfold pkgi_delete_dir. apply map_lookup_filter_None.
  right. intros n _. simpl. by rewrite under_append.
Qed.

Lemma pkgi_delete_dir_other dir p (fs : filesystem) :
  under dir p = false -> pkgi_delete_dir dir fs !! p = fs !! p.
Proof.
  intros Hp. unfold pkgi_delete_dir.
  destruct (fs !! p) as [n|] eqn:Hn.
  - by apply map_lookup_filter_Some.
  - apply map_lookup_filter_None. by left.
Qed.

(** What was below [src] is below [dest]; where [src] had nothing, what
    was there before stays. *)
Lemma fs_rename_lookup src dest rest (fs : filesystem) :
  under src (dest +:+ rest) = false ->
  fs_rename src dest fs !! (dest +:+ rest)
  = match fs !! (src +:+ rest) with
    | Some n => if under src (src +:+ rest) then Some n
                else fs !! (dest +:+ rest)
    | None => fs !! (dest +:+ rest)
    end.
Proof.
  intros Hout. unfold fs_rename.
  assert (forall y,
    (dest +:+ rest, y) ∈ prod_map (rebase src dest) id
       <$> map_to_list (filter (fun e => under src e.1 = true) fs) ->
    fs !! (src +:+ rest) = Some y /\ under src (src +:+ rest) = true)
    as Hmoved.
  { intros y ([p n] & [= Hp ->] & Hin)%list_elem_of_fmap.
    apply elem_of_map_to_list, map_lookup_filter_Some in Hin as [Hn Hp'].
    simpl in Hp'. destruct (under_inv _ _ Hp') as [r ->].
    rewrite rebase_append in Hp. apply append_inj_l in Hp as ->. done. }
  assert (filter (fun e => under src e.1 = false) fs !! (dest +:+ rest)
          = fs !! (dest +:+ rest)) as Hkept.
  { destruct (fs !! (dest +:+ rest)) as [n|] eqn:Hn.
    - by apply map_lookup_filter_Some.
    - apply map_lookup_filter_None. by left. }
  destruct (fs !! (src +:+ rest)) as [n|] eqn:Hn;
    [destruct (under src (src +:+ rest)) eqn:Hin|].
  - apply lookup_union_Some_l. apply elem_of_list_to_map_1'.
    + intros y Hy. apply Hmoved in Hy as [Hy _]. congruence.
    + apply list_elem_of_fmap. exists (src +:+ rest, n). split.
      * simpl. by rewrite rebase_append.
      * apply elem_of_map_to_list, map_lookup_filter_Some. done.
  - rewrite lookup_union_r; [done|]. apply not_elem_of_list_to_map_1.
    intros ([k y] & Hk & Hy)%list_elem_of_fmap. simpl in Hk. subst k.
    apply Hmoved in Hy as [_ Hy]. congruence.
  - rewrite lookup_union_r; [done|]. apply not_elem_of_list_to_map_1.
    intros ([k y] & Hk & Hy)%list_elem_of_fmap. simpl in Hk. subst k.
    apply Hmoved in Hy as [Hy _]. congruence.
Qed.

(** The staging directory and the patch directory lie apart. *)
Lemma staged_apart_from_patch contentid titleid rest :
  under ("ux0:pkgj/" +:+ contentid) (("ux0:patch/" +:+ titleid) +:+ rest)
  = false.
Proof.
  unfold under. rewrite !append_cons, !append_nil_l.
  rewrite bool_decide_eq_false_2; [done|congruence].
Qed.

Lemma patch_apart_from_staged contentid titleid rest :
  under ("ux0:patch/" +:+ titleid) (("ux0:pkgj/" +:+ contentid) +:+ rest)
  = false.
Proof.
  unfold under. rewrite !append_cons, !append_nil_l.
  rewrite bool_decide_eq_false_2; [done|congruence].
Qed.

Lemma fs_mkdirs_patch (fs : filesystem) contentid rest :
  fs_mkdirs "ux0:patch" fs !! (("ux0:pkgj/" +:+ contentid) +:+ rest)
  = fs !! (("ux0:pkgj/" +:+ contentid) +:+ rest).
Proof.
  change (fs_mkdirs "ux0:patch" fs) with (fs_mkdir "ux0:patch" fs).
  unfold fs_mkdir. destruct (fs !! "ux0:patch"); [done|].
  apply lookup_insert_ne. rewrite !append_cons. congruence.
Qed.

Lemma fs_mkdirs_upto_patch k (fs : filesystem) contentid rest :
  fs_mkdirs_upto k "ux0:patch" fs !! (("ux0:pkgj/" +:+ contentid) +:+ rest)
  = fs !! (("ux0:pkgj/" +:+ contentid) +:+ rest).
Proof.
  destruct k as [|k]; [done|].
  replace (fs_mkdirs_upto (S k) "ux0:patch" fs)
    with (fs_mkdirs "ux0:patch" fs); [apply fs_mkdirs_patch|].
  unfold fs_mkdirs_upto, fs_mkdirs.
  change (dir_prefixes EmptyString "ux0:patch") with ["ux0:patch"].
  by destruct k.
Qed.

(* ===================================================================== *)
(** * The installed version of a game (C10) *)
(* ===================================================================== *)

Section GameVersion.
Context `{Host}.

(** C10. pkgi_get_game_version: when ux0:patch/<titleid> exists the answer
    is the APP_VER of its sce_sys/param.sfo; when it does not and
    ux0:app/<titleid> exists, the APP_VER of that directory's
    sce_sys/param.sfo; when neither exists, the empty string.  The patch
    directory takes precedence: when it exists, the answer is the same on
    every device that agrees on what is at and below it, whatever
    ux0:app/<titleid> holds. *)
Theorem pkgi_get_game_version_precedence (titleid : string) (s : Device) :
  let patch_dir := "ux0:patch/" +:+ titleid in
  let game_dir := "ux0:app/" +:+ titleid in
  (forall sfo,
     pkgi_file_exists patch_dir (dev_fs s) = true ->
     dev_fs s !! param_sfo patch_dir = Some (File sfo) ->
     pkgi_get_game_version titleid s
     = Done (pkgi_sfo_get_string sfo "APP_VER"))
  /\ (forall sfo,
        pkgi_file_exists patch_dir (dev_fs s) = false ->
        pkgi_file_exists game_dir (dev_fs s) = true ->
        dev_fs s !! param_sfo game_dir = Some (File sfo) ->
        pkgi_get_game_version titleid s
        = Done (pkgi_sfo_get_string sfo "APP_VER"))
  /\ (pkgi_file_exists patch_dir (dev_fs s) = false ->
      pkgi_file_exists game_dir (dev_fs s) = false ->
      pkgi_get_game_version titleid s = Done "")
  /\ (forall s',
        pkgi_file_exists patch_dir (dev_fs s) = true ->
        (forall p, under patch_dir p = true ->
                   dev_fs s' !! p = dev_fs s !! p) ->
        pkgi_get_game_version titleid s' = pkgi_get_game_version titleid s).
Proof.
  intros patch_dir game_dir. unfold pkgi_get_game_version.
  fold patch_dir game_dir. split; [|split; [|split]].
  - intros sfo -> Hsfo.
    unfold pkgi_extract_package_version, pkgi_load. by rewrite Hsfo.
  - intros sfo -> -> Hsfo.
    unfold pkgi_extract_package_version, pkgi_load. by rewrite Hsfo.
  - by intros -> ->.
  - intros s' Hpatch Hsame. rewrite Hpatch.
    assert (pkgi_file_exists patch_dir (dev_fs s') = true) as ->.
    { unfold pkgi_file_exists in *. rewrite Hsame; [done|].
      apply under_self. }
    unfold pkgi_extract_package_version, pkgi_load.
    rewrite Hsame; [done|]. apply under_append. by right.
Qed.

End GameVersion.

Lemma pkgi_get_game_version_precedence_witness :
  @pkgi_get_game_version test_host "PCSB00000" staged_update = Done "01.02".
Proof.
  refine (proj1 (@pkgi_get_game_version_precedence test_host
                   "PCSB00000" staged_update) (str_bytes "01.02") _ _).
  - vm_compute. reflexivity.
  - vm_compute. reflexivity.
Defined.

(* ===================================================================== *)
(** * Installing an update (C9) *)
(* ===================================================================== *)

Section InstallUpdate.
Context `{Platform} `{Host}.

(** The file system as [sceIoRename] finds it (line 100). *)
Definition patch_cleared (contentid : string) (s : Device) : filesystem :=
  pkgi_delete_dir ("ux0:patch/" +:+ titleid_of contentid)
    (if mkdirs_ok "ux0:patch" (dev_fs s)
     then fs_mkdirs "ux0:patch" (dev_fs s)
     else fs_mkdirs_upto (mkdirs_made "ux0:patch" (dev_fs s))
            "ux0:patch" (dev_fs s)).

Lemma patch_cleared_staged contentid s rest :
  patch_cleared contentid s !! (("ux0:pkgj/" +:+ contentid) +:+ rest)
  = dev_fs s !! (("ux0:pkgj/" +:+ contentid) +:+ rest).
Proof.
  unfold patch_cleared.
  rewrite pkgi_delete_dir_other by apply patch_apart_from_staged.
  destruct (mkdirs_ok _ _); [apply fs_mkdirs_patch|apply fs_mkdirs_upto_patch].
Qed.

(** After the rename the patch directory holds what the staging directory
    held, and nothing else. *)
Lemma renamed_lookup contentid s rest :
  below rest ->
  fs_rename ("ux0:pkgj/" +:+ contentid)
    ("ux0:patch/" +:+ titleid_of contentid) (patch_cleared contentid s)
    !! (("ux0:patch/" +:+ titleid_of contentid) +:+ rest)
  = dev_fs s !! (("ux0:pkgj/" +:+ contentid) +:+ rest).
Proof.
  intros Hrest.
  rewrite fs_rename_lookup by apply staged_apart_from_patch.
  rewrite patch_cleared_staged, under_append by done.
  unfold patch_cleared at 1. rewrite pkgi_delete_dir_gone by done.
  by destruct (dev_fs s !! _).
Qed.

Lemma pkgi_install_update_run contentid s :
  (7 <= String.length contentid)%nat ->
  pkgi_install_update contentid s =
  let titleid := titleid_of contentid in
  let src := "ux0:pkgj/" +:+ contentid in
  let dest := "ux0:patch/" +:+ titleid in
  let res := sceIoRename_res src dest (patch_cleared contentid s) in
  if res <? 0
  then (Raise (CannotRename (u32 res)),
        {| dev_fs := patch_cleared contentid s; app_db := app_db s |})
  else
  let s3 := {| dev_fs := fs_rename src dest (patch_cleared contentid s);
               app_db := app_db s |} in
  match dev_fs s !! param_sfo src with
  | Some (File sfo) =>
      let version := pkgi_sfo_get_string sfo "APP_VER" in
      if bool_decide (version = "") then (Raise VersionNotFound, s3)
      else if negb (String.length version =? 5)%nat
      then (Raise (VersionWrongSize (String.length version)), s3)
      else if negb (sqlite3_open "ur0:shell/db/app.db" =? SQLITE_OK)
      then (Raise (SqliteError "can't open app.db database"), s3)
      else if negb (sqlite3_prepare_v2 (app_db s) =? SQLITE_OK)
      then (Raise (SqliteError "can't prepare version update SQL statement"),
            s3)
      else if negb (sqlite3_step (app_db s) =? SQLITE_DONE)
      then (Raise CannotUpdateVersion, s3)
      else (Done tt,
            {| dev_fs := dev_fs s3;
               app_db := update_version version titleid (app_db s) |})
  | _ => (Raise (CannotLoad (param_sfo dest)), s3)
  end.
Proof.
  intros Hlen. unfold pkgi_install_update.
  assert ((String.length contentid <? 7)%nat = false) as ->
    by (apply Nat.ltb_ge; lia).
  fold (patch_cleared contentid s). cbv zeta.
  destruct (_ <? 0); [done|].
  unfold pkgi_load. cbn [dev_fs]. unfold param_sfo.
  rewrite renamed_lookup by (by right).
  destruct (dev_fs s !! _) as [[sfo|]|]; done.
Qed.

(** C9.  pkgi_install_update, for a content id of at least 7 characters
    (the title id being the up to 9 characters from index 7 on).  When it
    returns, the version is the APP_VER of the staged sce_sys/param.sfo,
    which is now the one of ux0:patch/<titleid>, it has 5 characters,
    whatever was at or below ux0:patch/<titleid> has been replaced by what
    was at or below the staged directory ux0:pkgj/<contentid>, and the
    table of the shell is the one the UPDATE gives: the rows with this
    title id and key 3168212510 hold the version, every other row is as
    before.  When it does not return the table is untouched; and it does
    not return when the version has not exactly 5 characters.  It does
    return when the rename and the SQLite calls succeed and the staged
    param.sfo holds a version of 5 characters. *)
Theorem pkgi_install_update_patch (contentid : string) (s : Device) r s' :
  let titleid := titleid_of contentid in
  let src := "ux0:pkgj/" +:+ contentid in
  let dest := "ux0:patch/" +:+ titleid in
  (7 <= String.length contentid)%nat ->
  pkgi_install_update contentid s = (r, s') ->
  (r = Done tt ->
   exists sfo,
     let version := pkgi_sfo_get_string sfo "APP_VER" in
     dev_fs s !! param_sfo src = Some (File sfo)
     /\ dev_fs s' !! param_sfo dest = Some (File sfo)
     /\ String.length version = 5%nat
     /\ (forall rest, below rest ->
           dev_fs s' !! (dest +:+ rest) = dev_fs s !! (src +:+ rest))
     /\ app_db s' = update_version version titleid (app_db s)
     /\ forall i row,
          app_db s !! i = Some row ->
          app_db s' !! i
          = Some (if decide (titleId row = titleid /\ key row = 3168212510)
                  then {| titleId := titleid; key := 3168212510;
                          val := version |}
                  else row))
  /\ (r <> Done tt -> app_db s' = app_db s)
  /\ (forall sfo,
        dev_fs s !! param_sfo src = Some (File sfo) ->
        String.length (pkgi_sfo_get_string sfo "APP_VER") <> 5%nat ->
        exists e, r = Raise e)
  /\ (forall sfo,
        dev_fs s !! param_sfo src = Some (File sfo) ->
        String.length (pkgi_sfo_get_string sfo "APP_VER") = 5%nat ->
        0 <= sceIoRename_res src dest (patch_cleared contentid s) ->
        sqlite3_open "ur0:shell/db/app.db" = SQLITE_OK ->
        sqlite3_prepare_v2 (app_db s) = SQLITE_OK ->
        sqlite3_step (app_db s) = SQLITE_DONE ->
        r = Done tt).
Proof.
  intros titleid src dest Hlen Hrun.
  rewrite pkgi_install_update_run in Hrun by done. cbv zeta in Hrun.
  fold titleid src dest in Hrun.
  destruct (sceIoRename_res src dest (patch_cleared contentid s) <? 0)
    eqn:Hres.
  { injection Hrun as <- <-. split; [done|]. split; [done|].
    split; [by eauto|]. intros sfo _ _ Hpos. apply Z.ltb_lt in Hres. lia. }
  destruct (dev_fs s !! param_sfo src) as [[sfo|]|] eqn:Hsfo.
  2,3: injection Hrun as <- <-; by repeat split.
  destruct (bool_decide (pkgi_sfo_get_string sfo "APP_VER" = ""))
    eqn:Hempty.
  { injection Hrun as <- <-. split; [done|]. split; [done|].
    split; [by eauto|]. intros sfo' [= <-] Hfive.
    apply bool_decide_eq_true_1 in Hempty. by rewrite Hempty in Hfive. }
  destruct (String.length (pkgi_sfo_get_string sfo "APP_VER") =? 5)%nat
    eqn:Hsize; cbn [negb] in Hrun.
  2: { injection Hrun as <- <-. split; [done|]. split; [done|].
       split; [by eauto|]. intros sfo' [= <-] Hfive.
       apply Nat.eqb_neq in Hsize. done. }
  apply Nat.eqb_eq in Hsize.
  destruct (sqlite3_open _ =? SQLITE_OK) eqn:Hopen; cbn [negb] in Hrun.
  2: { injection Hrun as <- <-. split; [done|]. split; [done|].
       split; [by intros sfo' [= <-]|]. intros _ _ _ _ Hok.
       apply Z.eqb_neq in Hopen. done. }
  destruct (sqlite3_prepare_v2 _ =? SQLITE_OK) eqn:Hprep; cbn [negb] in Hrun.
  2: { injection Hrun as <- <-. split; [done|]. split; [done|].
       split; [by intros sfo' [= <-]|]. intros _ _ _ _ _ Hok.
       apply Z.eqb_neq in Hprep. done. }
  destruct (sqlite3_step _ =? SQLITE_DONE) eqn:Hstep; cbn [negb] in Hrun.
  2: { injection Hrun as <- <-. split; [done|]. split; [done|].
       split; [by intros sfo' [= <-]|]. intros _ _ _ _ _ _ Hok.
       apply Z.eqb_neq in Hstep. done. }
  injection Hrun as <- <-. cbn [dev_fs app_db].
  split; [|split; [done|split; [by intros sfo' [= <-]|done]]].
  subst titleid src dest.
  intros _. exists sfo. cbv zeta.
  split; [done|]. split.
  { unfold param_sfo. rewrite renamed_lookup by (by right). exact Hsfo. }
  split; [done|]. split.
  { intros rest Hrest. by apply renamed_lookup. }
  split; [done|].
  intros i row Hrow. unfold update_version.
  rewrite list_lookup_fmap, Hrow. simpl. f_equal.
  destruct (decide (titleId row = titleid_of contentid
                    /\ key row = 3168212510)) as [[Htitle Hkey]|Hnot].
  - rewrite bool_decide_eq_true_2 by done. rewrite Hkey. simpl.
    by rewrite Htitle.
  - destruct (bool_decide (titleId row = titleid_of contentid)) eqn:Htitle;
      [|done].
    destruct (key row =? 3168212510) eqn:Hkey; [|done].
    apply bool_decide_eq_true_1 in Htitle. apply Z.eqb_eq in Hkey.
    by destruct Hnot.
Qed.

End InstallUpdate.

Lemma pkgi_install_update_patch_witness :
  let run := @pkgi_install_update test_platform test_host
               test_content_id staged_update in
  fst run = Done tt
  /\ dev_fs (snd run) !! "ux0:patch/PCSB00000/sce_sys/param.sfo"
     = Some (File (str_bytes "01.05"))
  /\ dev_fs (snd run) !! "ux0:patch/PCSB00000/old.bin" = None
  /\ app_db (snd run)
     = [ {| titleId := "PCSB00000"; key := 3168212510; val := "01.05" |};
         {| titleId := "PCSB00000"; key := 566916785; val := "gd" |};
         {| titleId := "PCSB00001"; key := 3168212510; val := "01.00" |} ].
Proof.
  intros run.
  pose proof (@pkgi_install_update_patch test_platform test_host
                test_content_id staged_update (fst run) (snd run)
                ltac:(vm_compute; lia) ltac:(apply surjective_pairing))
    as (Hdone & _ & _ & Hreturns).
  assert (fst run = Done tt) as Hrun.
  { apply (Hreturns (str_bytes "01.05")).
    - vm_compute. reflexivity.
    - vm_compute. reflexivity.
    - vm_compute. discriminate.
    - reflexivity.
    - reflexivity.
    - reflexivity. }
  destruct (Hdone Hrun) as (sfo & Hstaged & Hsfo & _ & Hmoved & Hdb & _).
  assert (sfo = str_bytes "01.05") as ->.
  { assert (Some (File sfo) = Some (File (str_bytes "01.05"))) as [= ->];
      [|done].
    rewrite <- Hstaged. vm_compute. reflexivity. }
  split; [exact Hrun|]. split; [exact Hsfo|]. split.
  - change "ux0:patch/PCSB00000/old.bin"
      with (("ux0:patch/" +:+ titleid_of test_content_id) +:+ "/old.bin").
    rewrite (Hmoved "/old.bin") by (by right). vm_compute. reflexivity.
  - rewrite Hdb. vm_compute. reflexivity.
Defined.

(* ===================================================================== *)
(** * create_file: the folders on the way *)
(* ===================================================================== *)

Lemma length_substring_0 (n : nat) (s : string) :
  String.length (String.substring 0 n s) = Nat.min n (String.length s).
Proof.
  revert n. induction s as [|c s IH]; intros [|n]; simpl; auto.
Qed.

Lemma pkgi_strrchr_lt (s : string) (i : nat) :
  pkgi_strrchr s = Some i -> (i < String.length s)%nat.
Proof.
  revert i. induction s as [|c s IH]; intros i; simpl; [done|].
  destruct (pkgi_strrchr s) as [j|].
  - intros [= <-]. specialize (IH j eq_refl). lia.
  - destruct (bool_decide _); intros [= <-]. lia.
Qed.

Lemma dir_prefixes_length (pre rest p : string) :
  p ∈ dir_prefixes pre rest ->
  (String.length p <= String.length pre + String.length rest)%nat.
Proof.
  revert pre. induction rest as [|c rest IH]; intros pre; simpl.
  - intros ->%list_elem_of_singleton. lia.
  - destruct (bool_decide _).
    + intros [->|Hin]%elem_of_cons; [lia|].
      apply IH in Hin. rewrite string_length_append in Hin. simpl in Hin. lia.
    + intros Hin. apply IH in Hin.
      rewrite string_length_append in Hin. simpl in Hin. lia.
Qed.

Lemma fs_mkdir_keeps q (m : filesystem) p :
  is_Some (m !! p) -> is_Some (fs_mkdir q m !! p).
Proof.
  intros Hp. unfold fs_mkdir. destruct (m !! q) eqn:Hq; [done|].
  destruct (decide (q = p)) as [->|Hne].
  - rewrite lookup_insert_eq. by eexists.
  - by rewrite lookup_insert_ne.
Qed.

Lemma fs_mkdir_makes q (m : filesystem) : is_Some (fs_mkdir q m !! q).
Proof.
  unfold fs_mkdir. destruct (m !! q) eqn:Hq.
  - rewrite Hq. by eexists.
  - rewrite lookup_insert_eq. by eexists.
Qed.

(** Every directory [pkgi_mkdirs] walks through exists afterwards. *)
Lemma fs_mkdirs_makes path (m : filesystem) p :
  p ∈ dir_prefixes EmptyString path -> is_Some (fs_mkdirs path m !! p).
Proof.
  unfold fs_mkdirs. generalize (dir_prefixes EmptyString path). intros l.
  assert (forall l (m : filesystem), is_Some (m !! p) ->
            is_Some (foldl (fun acc q => fs_mkdir q acc) m l !! p)) as Hkeep.
  { clear. intros l. induction l as [|q l IH]; intros m Hp; simpl; [done|].
    apply IH. by apply fs_mkdir_keeps. }
  revert m. induction l as [|q l IH]; intros m Hin; simpl.
  - by apply elem_of_nil in Hin.
  - apply elem_of_cons in Hin as [->|Hin]; [|by apply IH].
    apply Hkeep. apply fs_mkdir_makes.
Qed.

Section CreateFileFacts.
Context `{Platform}.

(** X1.  create_file (lines 117-141).  When it returns, it returns 1: every
    folder on the way to [item_path] exists, the file at [item_path] is
    empty and is the open file.  However it ends, every other path of the
    file system holds what it held, or a directory where there was
    nothing.  Its two errors are "cannot create folder", after which no
    file has been made or changed, and "cannot create file".  An
    [item_path] without a slash is undefined behaviour: [pkgi_strrchr]
    returns NULL, which is written through. *)
Theorem create_file_makes_parents d r d' :
  create_file d = (r, d') ->
  (folder_of (item_path d) = None -> r = Stuck)
  /\ (forall v, r = Ret v ->
        v = 1
        /\ fs d' !! item_path d = Some (File [])
        /\ item_file d' = Some (item_path d)
        /\ exists folder,
             folder_of (item_path d) = Some folder
             /\ forall p, p ∈ dir_prefixes EmptyString folder ->
                          is_Some (fs d' !! p))
  /\ (forall p, p <> item_path d ->
        fs d' !! p = fs d !! p
        \/ fs d !! p = None /\ fs d' !! p = Some Dir)
  /\ (forall e, r = Throw e ->
        (exists folder,
            folder_of (item_path d) = Some folder
            /\ e = CannotCreateFolder folder
            /\ forall p data, fs d' !! p = Some (File data)
                              <-> fs d !! p = Some (File data))
        \/ e = CannotCreateFile (item_name d)).
Proof.
  intros Hrun. split; [|split; [|split]].
  - unfold create_file, folder_of in *. rewrite run_bind_get in Hrun.
    destruct (pkgi_strrchr _); [done|]. intros _. by injection Hrun as <-.
  - intros v ->.
    apply create_file_ret in Hrun as (-> & folder & Hfolder & ->).
    split; [done|]. cbn. split; [apply lookup_insert_eq|]. split; [done|].
    exists folder. split; [done|]. intros p Hp.
    rewrite lookup_insert_ne; [by apply fs_mkdirs_makes|].
    intros Heq. apply dir_prefixes_length in Hp. simpl in Hp.
    unfold folder_of in Hfolder.
    destruct (pkgi_strrchr _) as [last|] eqn:Hlast; [|done].
    injection Hfolder as <-.
    apply pkgi_strrchr_lt in Hlast.
    unfold pkgi_snprintf in *.
    rewrite !length_substring_0 in *. subst p. lia.
  - intros p Hp. by eapply create_file_fs.
  - intros e ->. revert Hrun.
    unfold create_file, folder_of, bind, get, pkgi_mkdirs, pkgi_create,
      modify, ret, throw, stuck.
    intros Hrun.
    repeat (cbv beta zeta in *; case_match; simplify_eq/=; try done).
    all: first [by right|left; eexists; split; [done|split; [done|]]].
    intros p data. apply fs_mkdirs_upto_file.
Qed.

End CreateFileFacts.

Lemma create_file_makes_parents_witness :
  let d := set_item_path "ux0:pkgj/a/b/c.bin" (fresh_download (fresh_http [] 1) ∅) in
  let run := @create_file test_platform d in
  fs (snd run) !! "ux0:pkgj/a/b/c.bin" = Some (File [])
  /\ is_Some (fs (snd run) !! "ux0:pkgj/a/b")
  /\ is_Some (fs (snd run) !! "ux0:pkgj/a")
  /\ is_Some (fs (snd run) !! "ux0:pkgj").
Proof.
  intros d run.
  destruct (proj1 (proj2 (@create_file_makes_parents test_platform d
              (fst run) (snd run) (surjective_pairing _))) 1)
    as (_ & Hfile & _ & folder & Hfolder & Hdirs).
  - vm_compute. reflexivity.
  - split; [exact Hfile|].
    assert (folder = "ux0:pkgj/a/b") as ->.
    { assert (Some folder = Some "ux0:pkgj/a/b") as [= ->]; [|done].
      rewrite <- Hfolder. vm_compute. reflexivity. }
    split; [|split]; apply Hdirs; vm_compute; set_solver.
Defined.

(* ===================================================================== *)
(** * What download_data and pkgi_download return *)
(* ===================================================================== *)

Section Returns.
Context `{Platform}.

(** X2.  download_data (lines 39-113): it returns 0 exactly when the download
    has been cancelled, and then it has done nothing at all; otherwise a
    call that returns has read between 1 and [size] bytes and returns
    their number.  A failed or closed transfer is never a return value:
    the errors are "length unknown", "download error", "connection
    closed" and "cannot write". *)
Theorem download_data_outcomes buf size encrypted save d r d' :
  download_data buf size encrypted save d = (r, d') ->
  (cancel_in d = Some O -> r = Ret 0 /\ d' = d)
  /\ (forall n, r = Ret n ->
        (n = 0 /\ d' = d /\ cancel_in d = Some O)
        \/ (0 < n <= size
            /\ exists data,
                 Z.of_nat (length data) = n
                 /\ http_served (http d') = http_served (http d) ++ data))
  /\ (forall e, r = Throw e ->
        e = HttpLengthUnknown
        \/ (exists status, e = HttpDownloadError status /\ status < 0)
        \/ e = HttpConnectionClosed
        \/ e = CannotWriteTo (item_path d)).
Proof.
  intros Hrun. split; [|split].
  - intros Hcancel. unfold download_data, bind, is_canceled in Hrun.
    rewrite Hcancel in Hrun. by injection Hrun as <- <-.
  - intros n ->. destruct (decide (n <= 0)) as [Hn|Hn].
    + left. by eapply download_data_ret_0.
    + right. destruct (download_data_ret _ _ _ _ _ _ _ Hrun) as [data Hstep];
        [lia|].
      destruct Hstep as [Hlen Hbound Hserved _ _ _ _ _ _ _ _ _ _].
      split; [lia|]. by exists data.
  - intros e ->. revert Hrun. unfold download_data.
    repeat unfold bind, is_canceled, open_stream, read_stream, http_read,
      fill, get, modify, ret, throw, stuck, pkgi_write.
    intros Hrun.
    repeat (cbv beta in *; case_match; simplify_eq/=; try done).
    all: try (by left).
    all: try (right; right; by left).
    all: try (right; right; by right).
    all: right; left; eexists; split; [done|lia].
Qed.

(** The read loops answer false only when the download was cancelled. *)
Lemma read_header_false fuel head_offset d d' :
  read_header fuel head_offset d = (Ret false, d') -> cancel_in d' = Some O.
Proof.
  revert head_offset d. induction fuel as [|fuel IH]; intros off d Hrun;
    simpl in Hrun; rewrite run_bind_get in Hrun.
  all: destruct (off =? head_size d); try discriminate.
  apply bind_ret in Hrun as (n & d1 & Hdata & Hrun).
  destruct (n <=? 0) eqn:Hn; [|by eapply IH].
  injection Hrun as <-. apply Z.leb_le in Hn.
  by destruct (download_data_ret_0 _ _ _ _ _ _ _ Hdata Hn) as (_ & -> & ?).
Qed.

Lemma grow_head_false fuel target_size d d' :
  grow_head fuel target_size d = (Ret false, d') -> cancel_in d' = Some O.
Proof.
  revert d. induction fuel as [|fuel IH]; intros d Hrun;
    simpl in Hrun; rewrite run_bind_get in Hrun.
  all: destruct (head_size d =? target_size); try discriminate.
  apply bind_ret in Hrun as (n & d1 & Hdata & Hrun).
  destruct (n <=? 0) eqn:Hn.
  - injection Hrun as <-. apply Z.leb_le in Hn.
    by destruct (download_data_ret_0 _ _ _ _ _ _ _ Hdata Hn) as (_ & -> & ?).
  - rewrite run_bind_modify in Hrun. by eapply IH.
Qed.

Lemma drain_item_false fuel encrypted_size save d d' :
  drain_item fuel encrypted_size save d = (Ret false, d') ->
  cancel_in d' = Some O.
Proof.
  revert d. induction fuel as [|fuel IH]; intros d Hrun;
    simpl in Hrun; rewrite run_bind_get in Hrun.
  all: destruct (encrypted_offset d =? encrypted_size); try discriminate.
  apply bind_ret in Hrun as (n & d1 & Hdata & Hrun).
  destruct (n <=? 0) eqn:Hn; [|by eapply IH].
  injection Hrun as <-. apply Z.leb_le in Hn.
  by destruct (download_data_ret_0 _ _ _ _ _ _ _ Hdata Hn) as (_ & -> & ?).
Qed.

Lemma skip_to_tail_false fuel tail_offset d d' :
  skip_to_tail fuel tail_offset d = (Ret false, d') -> cancel_in d' = Some O.
Proof.
  revert d. induction fuel as [|fuel IH]; intros d Hrun;
    simpl in Hrun; rewrite run_bind_get in Hrun.
  all: destruct (negb (download_offset d <? tail_offset)); try discriminate.
  apply bind_ret in Hrun as (n & d1 & Hdata & Hrun).
  destruct (n <=? 0) eqn:Hn; [|by eapply IH].
  injection Hrun as <-. apply Z.leb_le in Hn.
  by destruct (download_data_ret_0 _ _ _ _ _ _ _ Hdata Hn) as (_ & -> & ?).
Qed.

Lemma drain_tail_false fuel d d' :
  drain_tail fuel d = (Ret false, d') -> cancel_in d' = Some O.
Proof.
  revert d. induction fuel as [|fuel IH]; intros d Hrun;
    simpl in Hrun; rewrite run_bind_get in Hrun.
  all: destruct (download_offset d =? total_size d); try discriminate.
  apply bind_ret in Hrun as (n & d1 & Hdata & Hrun).
  destruct (n <=? 0) eqn:Hn; [|by eapply IH].
  injection Hrun as <-. apply Z.leb_le in Hn.
  by destruct (download_data_ret_0 _ _ _ _ _ _ _ Hdata Hn) as (_ & -> & ?).
Qed.

(** Close a branch of a phase: it ends in [ret 1], or in [ret 0] after a
    loop has answered false. *)
Ltac since_cancelled :=
  repeat match goal with
         | H : negb ?b = true |- _ => apply negb_true_iff in H; subst b
         | H : negb ?b = false |- _ => apply negb_false_iff in H; subst b
         end;
  match goal with
  | H : ret _ _ = (Ret _, _) |- _ => injection H as <- <-
  end;
  first
    [ by left
    | right; split; [done|]; cbn;
      match goal with
      | H : with_fuel _ _ = (Ret false, _) |- _ =>
          rewrite with_fuel_run in H;
          first [ exact (read_header_false _ _ _ _ H)
                | exact (grow_head_false _ _ _ _ H)
                | exact (drain_item_false _ _ _ _ _ H)
                | exact (skip_to_tail_false _ _ _ _ H)
                | exact (drain_tail_false _ _ _ H) ]
      end ].

Lemma download_head_zero rif d r d' :
  download_head rif d = (Ret r, d') ->
  r = 1 \/ (r = 0 /\ cancel_in d' = Some O).
Proof.
  intros Hrun. unfold download_head in Hrun.
  exec Hrun. apply scope_exit_run in Hrun as (dx & Hrun & ->).
  exec Hrun. all: since_cancelled.
Qed.

Lemma materialise_false e encrypted_size d d' :
  materialise e encrypted_size d = (Ret false, d') -> cancel_in d' = Some O.
Proof.
  intros Hrun. unfold materialise in Hrun. exec Hrun.
  all: repeat match goal with
         | H : negb ?b = true |- _ => apply negb_true_iff in H; subst b
         | H : negb ?b = false |- _ => apply negb_false_iff in H; subst b
         end.
  all: try (by injection Hrun).
  injection Hrun as <-. rewrite with_fuel_run in Hstep0.
  by eapply drain_item_false.
Qed.

Lemma download_file_false index d d' :
  download_file index d = (Ret false, d') -> cancel_in d' = Some O.
Proof.
  intros Hrun. rewrite download_file_run in Hrun. cbv zeta in Hrun.
  repeat match type of Hrun with
         | (if ?c then _ else _) = _ => destruct c
         end; try discriminate.
  all: first [ by eapply materialise_false
             | rewrite with_fuel_run in Hrun; by eapply drain_item_false ].
Qed.

Lemma download_entries_false n index d d' :
  download_entries n index d = (Ret false, d') -> cancel_in d' = Some O.
Proof.
  revert index d. induction n as [|n IH]; intros index d Hrun;
    simpl in Hrun; [discriminate|].
  apply bind_ret in Hrun as (ok & d1 & Hfile & Hrun).
  destruct ok; cbn [negb] in Hrun; [by eapply IH|].
  injection Hrun as <-. by eapply download_file_false.
Qed.

Lemma download_files_zero d r d' :
  download_files d = (Ret r, d') ->
  r = 1 \/ (r = 0 /\ cancel_in d' = Some O).
Proof.
  intros Hrun. unfold download_files in Hrun.
  apply scope_exit_run in Hrun as (dx & Hrun & ->).
  rewrite run_bind_get in Hrun.
  apply bind_ret in Hrun as (ok & d1 & Hentries & Hrun).
  destruct ok; cbn [negb] in Hrun.
  - rewrite run_bind_modify in Hrun. injection Hrun as <- <-. by left.
  - injection Hrun as <- <-. right. split; [done|]. cbn.
    by eapply download_entries_false.
Qed.

Lemma download_tail_zero d r d' :
  download_tail d = (Ret r, d') ->
  r = 1 \/ (r = 0 /\ cancel_in d' = Some O).
Proof.
  intros Hrun. unfold download_tail in Hrun.
  apply scope_exit_run in Hrun as (dx & Hrun & ->).
  exec Hrun. all: since_cancelled.
Qed.

Lemma create_stat_ret d r d' : create_stat d = (Ret r, d') -> r = 1.
Proof.
  unfold create_stat. intros Hrun. exec Hrun. by injection Hrun as <-.
Qed.

Lemma create_rif_ret rif d r d' : create_rif rif d = (Ret r, d') -> r = 1.
Proof.
  unfold create_rif. intros Hrun. exec Hrun. by injection Hrun as <-.
Qed.

Lemma check_integrity_ret digest d r d' :
  check_integrity digest d = (Ret r, d') -> r = 1.
Proof.
  unfold check_integrity. intros Hrun. destruct digest as [digest|].
  - exec Hrun. by injection Hrun as <-.
  - by injection Hrun as <-.
Qed.

(** X3.  pkgi_download (lines 594-636) returns 1 or 0, and 0 only when the
    download has been cancelled: a phase answers 0 when one of its calls
    of download_data did, and download_data does so only on a
    cancellation.  Every other failure is an exception. *)
Theorem pkgi_download_zero_is_cancel content url rif digest d r d' :
  pkgi_download content url rif digest d = (Ret r, d') ->
  r = 1 \/ (r = 0 /\ cancel_in d' = Some O).
Proof.
  intros Hrun. rewrite pkgi_download_phases in Hrun.
  unfold phases in Hrun.
  apply bind_ret in Hrun as (r1 & d1 & Hhead & Hrun).
  apply download_head_zero in Hhead as [->|[-> Hhead]];
    [|injection Hrun as <- <-; by right].
  apply bind_ret in Hrun as (r2 & d2 & Hfiles & Hrun).
  apply download_files_zero in Hfiles as [->|[-> Hfiles]];
    [|injection Hrun as <- <-; by right].
  apply bind_ret in Hrun as (r3 & d3 & Htail & Hrun).
  apply download_tail_zero in Htail as [->|[-> Htail]];
    [|injection Hrun as <- <-; by right].
  apply bind_ret in Hrun as (d3' & d3'' & [= <- <-] & Hrun).
  apply bind_ret in Hrun as (r4 & d4 & Hstat & Hrun).
  assert (r4 = 1) as ->.
  { destruct (negb _); [by eapply create_stat_ret|by injection Hstat]. }
  apply bind_ret in Hrun as (r5 & d5 & Hcheck & Hrun).
  apply check_integrity_ret in Hcheck as ->.
  apply bind_ret in Hrun as (r6 & d6 & Hrif & Hrun).
  assert (r6 = 1) as ->.
  { destruct rif; [by eapply create_rif_ret|by injection Hrif]. }
  injection Hrun as <- <-. by left.
Qed.

End Returns.

Lemma download_data_outcomes_witness :
  let d := set_cancel_in (Some O) (fresh_download (fresh_http s1_pkg 64) ∅) in
  @download_data test_platform InDown 16 false false d = (Ret 0, d).
Proof.
  intros d.
  destruct (proj1 (@download_data_outcomes test_platform InDown 16 false
              false d _ _ (surjective_pairing _)) eq_refl) as [Hr Hd].
  rewrite (surjective_pairing (download_data _ _ _ _ _)). by rewrite Hr, Hd.
Defined.

Lemma pkgi_download_zero_is_cancel_witness :
  let d := set_cancel_in (Some 3%nat) (fresh_download (fresh_http s1_pkg 64) ∅) in
  let run := @pkgi_download test_platform test_content_id test_url None None d in
  fst run = Ret 0 /\ cancel_in (snd run) = Some O.
Proof.
  intros d run.
  assert (fst run = Ret 0) as Hrun by (vm_compute; reflexivity).
  split; [exact Hrun|].
  destruct (@pkgi_download_zero_is_cancel test_platform test_content_id
              test_url None None d 0 (snd run)) as [?|[_ Hcancel]].
  - rewrite <- Hrun. apply surjective_pairing.
  - done.
  - exact Hcancel.
Defined.

(* ===================================================================== *)
(** * The offset and the bytes served *)
(* ===================================================================== *)

Section WholePackage.
Context `{Platform}.

(** However a call ends, [download_offset] has advanced by the number of
    bytes the stream has served. *)
Lemma download_data_advance buf size encrypted save d r d' :
  download_data buf size encrypted save d = (r, d') -> r <> Stuck ->
  exists data,
    http_served (http d') = http_served (http d) ++ data
    /\ (data = [] /\ download_offset d' = download_offset d
        \/ download_offset d' = u64 (download_offset d + Z.of_nat (length data))).
Proof.
  intros Hrun Hr. unfold download_data in Hrun.
  repeat unfold bind, is_canceled, open_stream, read_stream, http_read,
    fill, get, modify, ret, throw, stuck, pkgi_write in Hrun.
  repeat (cbv beta in *; case_match; simplify_eq/=; try done).
  all: try (match goal with H : (Z.of_nat _ <? 0) = true |- _ =>
              apply Z.ltb_lt in H; lia end).
  all: try (match goal with H : (Z.of_nat (length ?l) =? 0) = true |- _ =>
              apply Z.eqb_eq in H;
              assert (l = []) as -> by (apply nil_length_inv; lia) end).
  all: first
    [ solve [ exists []; rewrite ?app_nil_r; split; [done|by left] ]
    | solve [ eexists; split; [reflexivity|by right] ] ].
Qed.

(** Since the stream had served [base], [download_offset] counts what it
    has served. *)
Definition offset_in_sync (base : list byte) (d : Download) : Prop :=
  exists stream,
    http_served (http d) = base ++ stream
    /\ download_offset d = u64 (Z.of_nat (length stream)).

Lemma offset_in_sync_stable base : core_stable (offset_in_sync base).
Proof.
  intros d d' Hhttp _ Hoff _ (stream & Hserved & Hcount).
  exists stream. by rewrite Hhttp, Hoff.
Qed.

Lemma offset_in_sync_data base buf size encrypted save :
  preserves (offset_in_sync base) (download_data buf size encrypted save).
Proof.
  intros d r d' Hrun Hr (stream & Hserved & Hcount).
  destruct (download_data_advance _ _ _ _ _ _ _ Hrun Hr)
    as (data & Hdata & [[-> Hoff]|Hoff]).
  - exists stream. rewrite app_nil_r in Hdata. by rewrite Hdata, Hoff.
  - exists (stream ++ data). split; [by rewrite Hdata, Hserved, app_assoc|].
    rewrite Hoff, Hcount, length_app, Nat2Z.inj_add.
    unfold u64. by rewrite Zplus_mod_idemp_l.
Qed.

(** The later phases leave the offset and the size alone. *)
Lemma create_stat_offset d r d' :
  create_stat d = (r, d') ->
  download_offset d' = download_offset d /\ total_size d' = total_size d.
Proof.
  unfold create_stat, bind, get, pkgi_save, ret, throw. intros Hrun.
  by repeat (cbv beta zeta in *; case_match; simplify_eq/=; try done).
Qed.

Lemma create_rif_offset rif d r d' :
  create_rif rif d = (r, d') ->
  download_offset d' = download_offset d /\ total_size d' = total_size d.
Proof.
  unfold create_rif, bind, get, pkgi_save, ret, throw. intros Hrun.
  by repeat (cbv beta zeta in *; case_match; simplify_eq/=; try done).
Qed.

Lemma check_integrity_offset digest d r d' :
  check_integrity digest d = (r, d') ->
  download_offset d' = download_offset d /\ total_size d' = total_size d.
Proof.
  unfold check_integrity, bind, get, modify, pkgi_rm, ret, throw.
  intros Hrun.
  by repeat (cbv beta zeta in *; case_match; simplify_eq/=; try done).
Qed.

Lemma download_tail_end d d' :
  0 <= DOWN_CAP -> download_tail d = (Ret 1, d') ->
  download_offset d' = total_size d'.
Proof.
  intros HDOWN Hrun. unfold download_tail in Hrun.
  apply scope_exit_run in Hrun as (dx & Hrun & ->).
  exec Hrun.
  repeat match goal with
         | H : negb ?b = false |- _ => apply negb_false_iff in H; subst b
         end.
  rewrite with_fuel_run in Hstep1.
  apply (drain_tail_ret HDOWN) in Hstep1 as (tail & Htail).
  injection Hrun as <-. cbn.
  rewrite (tl_end _ _ _ Htail).
  symmetry. apply (sp_total_size _ _ (tl_same _ _ _ Htail)).
Qed.

(** X4.  A successful run has downloaded the package to its end:
    when pkgi_download returns 1 (and [sizeof(down)] is not negative),
    the number of bytes the stream has served during the run is the
    total_size the header declares (as a 64-bit number), and
    download_offset stands there. *)
Theorem pkgi_download_reads_total_size content url rif digest d d' :
  0 <= DOWN_CAP ->
  pkgi_download content url rif digest d = (Ret 1, d') ->
  exists stream,
    http_served (http d') = http_served (http d) ++ stream
    /\ u64 (Z.of_nat (length stream)) = total_size d'
    /\ download_offset d' = total_size d'.
Proof.
  intros HDOWN Hrun.
  assert (offset_in_sync (http_served (http d)) d') as (stream & Hs & Hoff).
  { rewrite pkgi_download_phases in Hrun.
    eapply (preserves_phases _ (offset_in_sync_stable _)
              (offset_in_sync_data _)); [exact Hrun|discriminate|].
    exists []. cbn. by rewrite app_nil_r. }
  exists stream. split; [done|]. rewrite <- Hoff.
  assert (download_offset d' = total_size d') as ->; [|done].
  clear Hs Hoff. rewrite pkgi_download_phases in Hrun. unfold phases in Hrun.
  apply bind_ret in Hrun as (r1 & d1 & Hhead & Hrun).
  destruct (r1 =? 0); [discriminate|].
  apply bind_ret in Hrun as (r2 & d2 & Hfiles & Hrun).
  destruct (r2 =? 0); [discriminate|].
  apply bind_ret in Hrun as (r3 & d3 & Htail & Hrun).
  destruct (r3 =? 0) eqn:Hr3; [discriminate|].
  assert (r3 = 1) as ->.
  { destruct (download_tail_zero _ _ _ Htail) as [?|[-> _]]; done. }
  apply (download_tail_end _ _ HDOWN) in Htail.
  apply bind_ret in Hrun as (d3' & d3'' & [= <- <-] & Hrun).
  apply bind_ret in Hrun as (r4 & d4 & Hstat & Hrun).
  assert (download_offset d4 = download_offset d3
          /\ total_size d4 = total_size d3) as [Ho4 Ht4].
  { destruct (negb _); [by eapply create_stat_offset|].
    by injection Hstat as <- <-. }
  destruct (r4 =? 0); [discriminate|].
  apply bind_ret in Hrun as (r5 & d5 & Hcheck & Hrun).
  apply check_integrity_offset in Hcheck as [Ho5 Ht5].
  destruct (r5 =? 0); [discriminate|].
  apply bind_ret in Hrun as (r6 & d6 & Hrif & Hrun).
  assert (download_offset d6 = download_offset d5
          /\ total_size d6 = total_size d5) as [Ho6 Ht6].
  { destruct rif; [by eapply create_rif_offset|].
    by injection Hrif as <- <-. }
  destruct (r6 =? 0); [discriminate|].
  injection Hrun as <-. congruence.
Qed.

End WholePackage.

Lemma pkgi_download_reads_total_size_witness :
  let d := fresh_download (fresh_http s1_pkg 7) ∅ in
  let run := @pkgi_download test_platform test_content_id test_url None None d in
  http_served (http (snd run)) = s1_pkg
  /\ total_size (snd run) = Z.of_nat (length s1_pkg).
Proof.
  intros d run.
  destruct (@pkgi_download_reads_total_size test_platform test_content_id
              test_url None None d (snd run))
    as (stream & Hserved & Hsize & _).
  - vm_compute. discriminate.
  - vm_compute. reflexivity.
  - split; vm_compute; reflexivity.
Defined.

(* ===================================================================== *)
(** * The head of the package *)
(* ===================================================================== *)

Section Head.
Context `{Platform}.

(** What is read into [head] fits into it. *)
Lemma download_data_in_head off size encrypted save d n d' :
  download_data (InHead off) size encrypted save d = (Ret n, d') ->
  n <> 0 -> off + n <= HEAD_CAP.
Proof.
  intros Hrun Hn. unfold download_data in Hrun.
  repeat unfold bind, is_canceled, open_stream, read_stream, http_read,
    fill, get, modify, ret, throw, stuck, pkgi_write in Hrun.
  repeat (cbv beta in *; case_match; simplify_eq/=; try done).
  all: repeat match goal with
              | H : (_ <? _) = false |- _ => apply Z.ltb_ge in H
              end; lia.
Qed.

Lemma same_package_but_head_size d d1 d' size :
  same_package d d1 ->
  same_package (set_head_size size d1)
    (set_head_size (head_size (set_head_size size d1)) d') ->
  same_package d (set_head_size (head_size d) d').
Proof. intros [] []. split; cbn in *; congruence. Qed.

(** [read_header] run to its end, with the file it writes. *)
Lemma read_header_saved fuel head_offset d d' path old :
  read_header fuel head_offset d = (Ret true, d') ->
  0 <= head_offset <= head_size d -> head_size d < 2^32 ->
  item_file d = Some path -> fs d !! path = Some (File old) ->
  exists stream,
    http_served (http d') = http_served (http d) ++ stream
    /\ Z.of_nat (length stream) = head_size d - head_offset
    /\ slice (head d') 0 (head_size d) = slice (head d) 0 head_offset ++ stream
    /\ fs d' = <[path := File (old ++ stream)]> (fs d)
    /\ (head_offset < head_size d -> head_size d <= HEAD_CAP)
    /\ same_package d d'.
Proof.
  revert head_offset d old. induction fuel as [|fuel IH];
    intros off d old Hrun Hoff Hsize Hfile Hold; simpl in Hrun;
    rewrite run_bind_get in Hrun.
  all: destruct (off =? head_size d) eqn:Hend; try discriminate.
  1,2: apply Z.eqb_eq in Hend; injection Hrun as <-; exists [];
    rewrite !app_nil_r, Hend; split; [done|]; split; [simpl; lia|];
    split; [done|]; split; [by rewrite insert_id|];
    split; [lia|apply same_package_refl].
  apply Z.eqb_neq in Hend.
  apply bind_ret in Hrun as (n & d1 & Hdata & Hrun).
  destruct (n <=? 0) eqn:Hn; [discriminate|]. apply Z.leb_gt in Hn.
  pose proof (download_data_in_head _ _ _ _ _ _ _ Hdata ltac:(lia)) as Hcap.
  destruct (download_data_ret _ _ _ _ _ _ _ Hdata) as [data Hstep]; [lia|].
  destruct Hstep as [Hlen Hbound Hserved _ _ _ _ _ _ Hfs _ Hhead Hsame].
  unfold payload in Hhead. rewrite Hfile in Hfs.
  rewrite (written_plain _ _ _ _ Hlen Hbound) in Hfs.
  rewrite (fs_append_file _ old) in Hfs by done.
  rewrite u32_small in Hbound by lia.
  rewrite (u32_small (off + n)) in Hrun by lia.
  destruct (IH _ _ (old ++ data) Hrun)
    as (rest & Rserved & Rlen & Rhead & Rfs & Rcap & Rsame).
  { rewrite (sp_head_size _ _ Hsame). lia. }
  { by rewrite (sp_head_size _ _ Hsame). }
  { by rewrite (sp_item_file _ _ Hsame). }
  { rewrite Hfs. apply lookup_insert_eq. }
  rewrite (sp_head_size _ _ Hsame) in Rlen, Rhead, Rcap.
  exists (data ++ rest). split; [|split; [|split; [|split; [|split]]]].
  - by rewrite Rserved, Hserved, app_assoc.
  - rewrite length_app, Nat2Z.inj_add. lia.
  - rewrite Rhead, Hhead, <- Hlen, slice_store by lia. by rewrite app_assoc.
  - by rewrite Rfs, Hfs, insert_insert_eq, app_assoc.
  - intros _. destruct (decide (off + n = head_size d)) as [<-|Hmore];
      [done|apply Rcap; lia].
  - by eapply same_package_trans.
Qed.

(** [grow_head] run to its end: the target was not behind, and the bytes
    read are in [head] and in the file. *)
Lemma grow_head_saved fuel target_size d d' path old :
  grow_head fuel target_size d = (Ret true, d') ->
  0 <= head_size d -> 0 <= target_size < 2^32 -> HEAD_CAP < 2^32 ->
  item_file d = Some path -> fs d !! path = Some (File old) ->
  head_size d <= target_size
  /\ exists stream,
       http_served (http d') = http_served (http d) ++ stream
       /\ Z.of_nat (length stream) = target_size - head_size d
       /\ slice (head d') 0 target_size
          = slice (head d) 0 (head_size d) ++ stream
       /\ fs d' = <[path := File (old ++ stream)]> (fs d)
       /\ head_size d' = target_size
       /\ same_package d (set_head_size (head_size d) d').
Proof.
  revert d old. induction fuel as [|fuel IH];
    intros d old Hrun Hhs Htarget Hcap Hfile Hold; simpl in Hrun;
    rewrite run_bind_get in Hrun.
  all: destruct (head_size d =? target_size) eqn:Hend; try discriminate.
  1,2: apply Z.eqb_eq in Hend; injection Hrun as <-; split; [lia|];
    exists []; rewrite !app_nil_r, Hend; split; [done|];
    split; [simpl; lia|]; split; [by rewrite <- Hend|];
    split; [by rewrite insert_id|]; split; [done|];
    by destruct d.
  apply Z.eqb_neq in Hend.
  apply bind_ret in Hrun as (n & d1 & Hdata & Hrun).
  destruct (n <=? 0) eqn:Hn; [discriminate|]. apply Z.leb_gt in Hn.
  rewrite run_bind_modify in Hrun.
  pose proof (download_data_in_head _ _ _ _ _ _ _ Hdata ltac:(lia)) as Hfit.
  destruct (download_data_ret _ _ _ _ _ _ _ Hdata) as [data Hstep]; [lia|].
  destruct Hstep as [Hlen Hbound Hserved _ _ _ _ _ _ Hfs _ Hhead Hsame].
  unfold payload in Hhead. rewrite Hfile in Hfs.
  rewrite (written_plain _ _ _ _ Hlen Hbound) in Hfs.
  rewrite (fs_append_file _ old) in Hfs by done.
  rewrite (sp_head_size _ _ Hsame) in Hrun.
  rewrite (u32_small (head_size d + n)) in Hrun by lia.
  destruct (IH _ (old ++ data) Hrun)
    as (Rle & rest & Rserved & Rlen & Rhead & Rfs & Rsize & Rsame).
  { cbn. lia. }
  { done. }
  { done. }
  { cbn. by rewrite (sp_item_file _ _ Hsame). }
  { cbn. rewrite Hfs. apply lookup_insert_eq. }
  cbn in Rle, Rserved, Rlen, Rhead, Rfs.
  split; [lia|].
  exists (data ++ rest). split; [|split; [|split; [|split; [|split]]]].
  - by rewrite Rserved, Hserved, app_assoc.
  - rewrite length_app, Nat2Z.inj_add. lia.
  - rewrite Rhead, Hhead, <- Hlen, slice_store by lia. by rewrite app_assoc.
  - by rewrite Rfs, Hfs, insert_insert_eq, app_assoc.
  - done.
  - by eapply same_package_but_head_size.
Qed.

(** [walk_meta] changes [content_type] and [index_size] only, and a
    content type it sets is 21, 22 or 6. *)
Lemma walk_meta_ret n offset d d' :
  walk_meta n offset d = (Ret tt, d') ->
  d' = set_index_size (index_size d') (set_content_type (content_type d') d)
  /\ (content_type d' = content_type d
      \/ content_type d' = 21 \/ content_type d' = 22
      \/ content_type d' = 6).
Proof.
  revert offset d. induction n as [|n IH]; intros offset d Hrun;
    simpl in Hrun.
  - injection Hrun as <-. split; [by destruct d|by left].
  - rewrite run_bind_get in Hrun.
    destruct (enc_offset d <=? u32 (offset + 16)); [discriminate|].
    cbv zeta in Hrun.
    apply bind_ret in Hrun as ([] & d1 & Hentry & Hrun).
    apply IH in Hrun as [Hd' Htype].
    destruct (get32be (head d) (offset + 0) =? 2).
    + rewrite run_bind_modify in Hentry.
      destruct (negb _ && negb _ && negb _) eqn:Hct; [discriminate|].
      injection Hentry as <-. cbn in Hd', Htype.
      split; [rewrite Hd' at 1; by destruct d|].
      destruct Htype as [->|?]; [|by right].
      right. apply andb_false_iff in Hct as [Hct|Hct];
        [apply andb_false_iff in Hct as [Hct|Hct]|];
        apply negb_false_iff, Z.eqb_eq in Hct; auto.
    + destruct (get32be (head d) (offset + 0) =? 13).
      * injection Hentry as <-. cbn in Hd', Htype.
        split; [rewrite Hd' at 1; by destruct d|done].
      * injection Hentry as <-. done.
Qed.

End Head.

Lemma byte_at_app_l (p r : list byte) i :
  0 <= i < Z.of_nat (length p) -> byte_at (p ++ r) i = byte_at p i.
Proof.
  intros Hi. rewrite <- (Z2Nat.id i) by lia. rewrite !byte_at_nat.
  apply app_nth1. lia.
Qed.

Lemma slice_prefix (p r : list byte) off len :
  0 <= off -> off + len <= Z.of_nat (length p) ->
  slice (p ++ r) off len = slice p off len.
Proof.
  intros Hoff Hlen. apply slice_ext. intros i Hi.
  apply byte_at_app_l. lia.
Qed.

Lemma byte_at_drop (k : nat) (l : list byte) i :
  0 <= i -> byte_at (drop k l) i = byte_at l (Z.of_nat k + i).
Proof.
  intros Hi. rewrite <- (Z2Nat.id i) by lia.
  rewrite <- Nat2Z.inj_add, !byte_at_nat, !nth_lookup.
  by rewrite lookup_drop.
Qed.

Lemma slice_drop (k : nat) (l : list byte) off len :
  0 <= off -> slice (drop k l) off len = slice l (Z.of_nat k + off) len.
Proof.
  intros Hoff. unfold slice. apply map_ext_in. intros j Hj.
  rewrite byte_at_drop by lia. f_equal. lia.
Qed.

Lemma slice_nil (buf : list byte) off : slice buf off 0 = [].
Proof. done. Qed.

Section HeadAccepted.
Context `{Platform}.

(** A header [download_head] has accepted, [stream] being what it has
    read. *)
Record accepted (rif : option (list byte)) (d d' : Download)
    (stream : list byte) : Prop := {
  ac_served : http_served (http d') = http_served (http d) ++ stream;
  ac_file : fs d' !! head_bin_path (root d) = Some (File stream);
  ac_head : slice (head d') 0 (head_size d') = stream;
  ac_length : Z.of_nat (length stream) = head_size d';
  ac_sizes : 256 <= enc_offset d' <= head_size d' /\ head_size d' <= HEAD_CAP;
  ac_magic : get32be stream 0 = 0x7f504b47;
  ac_ext_magic : get32be stream 192 = 0x7f657874;
  ac_rif : forall r, rif = Some r ->
           pkgi_memequ (drop 16 r) (drop 48 stream) 48 = true;
  ac_meta_offset : meta_offset d' = get32be stream 8;
  ac_meta_count : meta_count d' = get32be stream 12;
  ac_index_count : index_count d' = get32be stream 20;
  ac_total_size : total_size d' = get64be stream 24;
  ac_enc_offset : enc_offset d' = get64be stream 32;
  ac_enc_size : enc_size d' = get64be stream 40;
  ac_iv : iv d' = slice stream 112 16;
  ac_content_type :
    content_type d' = content_type d
    \/ content_type d' = 21 \/ content_type d' = 22 \/ content_type d' = 6;
  ac_closed : item_file d' = None;
}.

(** A member [download_head] sets once, through the three calls of
    [grow_head] and the walk over the metadata. *)
Ltac chain sp Hsame4 Hsame3 Hsame1 E3 :=
  let A4 := fresh in
  let A3 := fresh in
  let A1 := fresh in
  pose proof (sp _ _ Hsame4) as A4; pose proof (sp _ _ Hsame3) as A3;
  pose proof (sp _ _ Hsame1) as A1;
  cbn in A4, A3, A1; rewrite A4, A3, E3, A1.

Lemma download_head_accepted rif d d' :
  HEAD_CAP < 2^32 ->
  download_head rif d = (Ret 1, d') ->
  exists stream, accepted rif d d' stream.
Proof.
  intros Hcap Hrun. unfold download_head in Hrun.
  exec Hrun. apply scope_exit_run in Hrun as (dx & Hrun & ->).
  exec Hrun.
  repeat match goal with
         | H : negb ?b = false |- _ => apply negb_false_iff in H; subst b
         end.
  injection Hrun as <-.
  rewrite with_fuel_run in Hstep0, Hstep1, Hstep3, Hstep4.
  (* head.bin is created *)
  apply create_file_ret in Hstep as (-> & folder & _ & ->).
  set (path := head_bin_path (root d)) in *.
  (* the fixed part of the header *)
  change (u32 (PKG_HEADER_SIZE + PKG_HEADER_EXT_SIZE)) with 256 in Hstep0.
  apply (read_header_saved _ _ _ _ path []) in Hstep0
    as (header & Hs0 & Hl0 & Hh0 & Hf0 & Hcap0 & Hsame0);
    [|by cbn|by cbn|by cbn|cbn; apply lookup_insert_eq].
  cbn in Hs0, Hl0, Hh0, Hf0, Hcap0.
  rewrite slice_nil, app_nil_l in Hh0.
  pose proof (sp_head_size _ _ Hsame0) as Hhs1.
  pose proof (sp_item_file _ _ Hsame0) as Hif1.
  pose proof (sp_root _ _ Hsame0) as Hroot1.
  pose proof (sp_content_type _ _ Hsame0) as Hct1.
  cbn in Hhs1, Hif1, Hroot1, Hct1.
  specialize (Hcap0 ltac:(lia)).
  (* up to enc_offset *)
  cbn in Hc3. apply Z.ltb_ge in Hc3.
  pose proof (be_value_nonneg (slice (head d1) 32 8)) as Henc.
  fold (get64be (head d1) 32) in Henc.
  apply (grow_head_saved _ _ _ _ path header) in Hstep1
    as (Hle1 & s1 & Hs1 & Hl1 & Hh1 & Hf1 & Hhs2 & Hsame1);
    [|cbn; lia|apply u32_range|done|by cbn
     |cbn; rewrite Hf0; apply lookup_insert_eq].
  cbn in Hle1, Hs1, Hl1, Hh1, Hf1, Hhs2.
  rewrite (u32_small (get64be (head d1) 32)) in Hle1, Hl1, Hh1, Hhs2 by lia.
  rewrite Hhs1 in Hle1, Hl1, Hh1. rewrite Hh0 in Hh1.
  (* the metadata *)
  destruct a2. apply walk_meta_ret in Hstep2 as [Hd3 Hct3].
  cbn in Hct3.
  pose proof (sp_content_type _ _ Hsame1) as Hct2. cbn in Hct2.
  pose proof (sp_item_file _ _ Hsame1) as Hif2. cbn in Hif2.
  pose proof (sp_enc_offset _ _ Hsame1) as Heo2. cbn in Heo2.
  assert (head_size d3 = head_size d2 /\ item_file d3 = item_file d2
          /\ fs d3 = fs d2 /\ head d3 = head d2 /\ http d3 = http d2
          /\ enc_offset d3 = enc_offset d2)
    as (Hhs3 & Hif3 & Hf3 & Hh3 & Hp3 & Heo3) by (by rewrite Hd3).
  (* up to the end of the index *)
  apply Z.ltb_ge in Hc5.
  apply (grow_head_saved _ _ _ _ path (header ++ s1)) in Hstep3
    as (Hle3 & s2 & Hs2 & Hl2 & Hh2 & Hf2 & Hhs4 & Hsame3);
    [|lia|apply u32_range|done|by rewrite Hif3, Hif2, Hif1
     |rewrite Hf3, Hf1; apply lookup_insert_eq].
  rewrite Hhs3, Hhs2 in Hle3, Hl2, Hh2. rewrite Hh3, Hh1 in Hh2.
  rewrite Hp3 in Hs2. rewrite Hf3, Hf1, insert_insert_eq in Hf2.
  (* up to the first item *)
  apply Z.ltb_ge in Hc8.
  pose proof (sp_item_file _ _ Hsame3) as Hif4. cbn in Hif4.
  apply (grow_head_saved _ _ _ _ path ((header ++ s1) ++ s2)) in Hstep4
    as (Hle4 & s3 & Hs3 & Hl3 & Hh4 & Hf4 & Hhs5 & Hsame4);
    [|lia|apply u32_range|done|by rewrite Hif4, Hif3, Hif2, Hif1
     |rewrite Hf2; apply lookup_insert_eq].
  rewrite Hhs4 in Hle4, Hl3, Hh4. rewrite Hh2 in Hh4.
  rewrite Hf2, insert_insert_eq in Hf4.
  (* what the members hold *)
  exists (((header ++ s1) ++ s2) ++ s3).
  assert (forall off len, 0 <= off -> off + len <= 256 ->
            slice (((header ++ s1) ++ s2) ++ s3) off len
            = slice (head d1) off len) as Hfixed.
  { intros off len Hoff Hlen. rewrite <- !app_assoc.
    rewrite slice_prefix by lia. rewrite <- Hh0. by apply slice_slice. }
  assert (root d3 = root d2 /\ total_size d3 = total_size d2
          /\ enc_size d3 = enc_size d2 /\ meta_offset d3 = meta_offset d2
          /\ meta_count d3 = meta_count d2
          /\ index_count d3 = index_count d2 /\ iv d3 = iv d2)
    as (Eroot & Etotal & Eencs & Emo & Emc & Eic & Eiv) by (by rewrite Hd3).
  assert (enc_offset d5 = get64be (head d1) 32) as Eenc.
  { by chain sp_enc_offset Hsame4 Hsame3 Hsame1 Heo3. }
  split; cbn.
  - rewrite Hs3, Hs2, Hs1, Hs0. by rewrite !app_assoc.
  - rewrite Hf4. apply lookup_insert_eq.
  - by rewrite Hhs5.
  - rewrite Hhs5, !length_app, !Nat2Z.inj_add. lia.
  - rewrite Hhs5, Eenc. lia.
  - unfold get32be. rewrite Hfixed by lia.
    apply orb_false_iff in Hc1 as [Hm _].
    by apply negb_false_iff, Z.eqb_eq in Hm.
  - unfold get32be. rewrite Hfixed by lia.
    apply orb_false_iff in Hc1 as [_ Hm].
    by apply negb_false_iff, Z.eqb_eq in Hm.
  - intros r ->. apply negb_false_iff in Hc2.
    unfold pkgi_memequ in *.
    rewrite (slice_drop 48) in * by lia. by rewrite Hfixed by lia.
  - chain sp_meta_offset Hsame4 Hsame3 Hsame1 Emo. unfold get32be. by rewrite Hfixed by lia.
  - chain sp_meta_count Hsame4 Hsame3 Hsame1 Emc. unfold get32be. by rewrite Hfixed by lia.
  - chain sp_index_count Hsame4 Hsame3 Hsame1 Eic. unfold get32be. by rewrite Hfixed by lia.
  - chain sp_total_size Hsame4 Hsame3 Hsame1 Etotal. unfold get64be. by rewrite Hfixed by lia.
  - rewrite Eenc. unfold get64be. by rewrite Hfixed by lia.
  - chain sp_enc_size Hsame4 Hsame3 Hsame1 Eencs. unfold get64be. by rewrite Hfixed by lia.
  - chain sp_iv Hsame4 Hsame3 Hsame1 Eiv. by rewrite Hfixed by (cbn; lia).
  - pose proof (sp_content_type _ _ Hsame3) as Hct4.
    pose proof (sp_content_type _ _ Hsame4) as Hct5.
    cbn in Hct4, Hct5. rewrite Hct5, Hct4.
    rewrite Hct2, Hct1 in Hct3. done.
  - done.
Qed.

End HeadAccepted.

Section HeadFacts.
Context `{Platform}.

(** X5.  download_head (lines 143-344), when it returns 1 and [sizeof(head)]
    is a 32-bit size: head.bin holds, byte for byte, what the stream has
    served during the call, the array [head] holds the same bytes in its
    first head_size places, and the file is closed.  The sizes are in
    order: the 256 bytes of the fixed header come first, then
    enc_offset, then head_size, which does not exceed [sizeof(head)]: what
    has been written into [head] lies inside the array.  (What is read
    from [head] need not: the first index record is read at
    [head + enc_offset], 32 bytes that the code does not bound.) *)
Theorem head_bin_is_the_stream_prefix rif d d' :
  HEAD_CAP < 2^32 ->
  download_head rif d = (Ret 1, d') ->
  exists stream,
    http_served (http d') = http_served (http d) ++ stream
    /\ fs d' !! head_bin_path (root d) = Some (File stream)
    /\ slice (head d') 0 (head_size d') = stream
    /\ Z.of_nat (length stream) = head_size d'
    /\ 256 <= enc_offset d' <= head_size d'
    /\ head_size d' <= HEAD_CAP
    /\ item_file d' = None.
Proof.
  intros Hcap Hrun.
  destruct (download_head_accepted _ _ _ Hcap Hrun) as [stream Hacc].
  exists stream. destruct Hacc. by repeat split; try tauto.
Qed.


End HeadFacts.

Lemma head_bin_is_the_stream_prefix_witness :
  let d := @session_start test_platform test_content_id test_url
             (fresh_download (fresh_http s1_pkg 64) ∅) in
  let run := @download_head test_platform None d in
  fs (snd run) !! (root d +:+ "/sce_sys/package/head.bin")
  = Some (File (take 325 s1_pkg)).
Proof.
  intros d run.
  destruct (@head_bin_is_the_stream_prefix test_platform None d (snd run))
    as (stream & Hserved & Hfile & _).
  - vm_compute. reflexivity.
  - vm_compute. reflexivity.
  - replace (root d +:+ "/sce_sys/package/head.bin")
      with (@head_bin_path test_platform (root d))
      by (vm_compute; reflexivity).
    rewrite Hfile. f_equal. f_equal.
    assert (stream = drop (length (http_served (http d)))
              (http_served (http (snd run)))) as ->.
    { rewrite Hserved. by rewrite drop_app_length. }
    vm_compute. reflexivity.
Defined.


(* ===================================================================== *)
(** * The size of an item on the wire *)
(* ===================================================================== *)

(** X7.  [encrypted_size] (lines 382-383): the item size rounded up to whole AES
    blocks of 16 bytes, as long as the sum stays below 2^64; an item size
    that is itself a multiple of 16 is kept.  An item size within 15 of
    2^64 wraps around: its encrypted size is 0. *)
Theorem encrypted_size_rounds_up item_size :
  0 <= item_size < 2^64 ->
  (item_size + 15 < 2^64 ->
     encrypted_size_of item_size mod 16 = 0
     /\ item_size <= encrypted_size_of item_size < item_size + 16
     /\ (item_size mod 16 = 0 -> encrypted_size_of item_size = item_size))
  /\ (2^64 <= item_size + 15 -> encrypted_size_of item_size = 0).
Proof.
  intros Hsize. split.
  - intros Hfit.
    destruct (encrypted_size_blocks item_size) as [Heq Hbound]; [lia..|].
    split; [|split; [done|]].
    + rewrite Heq, Z.mul_comm. apply Z_mod_mult.
    + intros Hmult.
      pose proof (Z.div_mod item_size 16 ltac:(lia)) as Hdiv.
      assert (encrypted_size_of item_size mod 16 = 0) as Hmod
        by (rewrite Heq, Z.mul_comm; apply Z_mod_mult).
      pose proof (Z.div_mod (encrypted_size_of item_size) 16 ltac:(lia)).
      lia.
  - intros Hwrap. unfold encrypted_size_of, AES_BLOCK_SIZE.
    change (16 - 1) with 15.
    pose proof (u64_range (item_size + 16 - 1)) as Hx.
    rewrite land_clear_low4 by done.
    assert (u64 (item_size + 16 - 1) = item_size + 15 - 2^64) as ->.
    { unfold u64. symmetry. apply (Z.mod_unique _ _ 1); lia. }
    rewrite Z.mod_small by lia. lia.
Qed.

Lemma encrypted_size_rounds_up_witness :
  encrypted_size_of 17 = 32 /\ encrypted_size_of 32 = 32
  /\ encrypted_size_of (2^64 - 1) = 0.
Proof.
  split; [|split].
  - pose proof (proj1 (encrypted_size_rounds_up 17 ltac:(lia)) ltac:(lia))
      as (Hmod & Hbound & _).
    assert (encrypted_size_of 17 = 16 * (encrypted_size_of 17 / 16)) as Hdiv
      by (pose proof (Z.div_mod (encrypted_size_of 17) 16); lia).
    lia.
  - apply (proj1 (encrypted_size_rounds_up 32 ltac:(lia)) ltac:(lia)).
    reflexivity.
  - apply (proj2 (encrypted_size_rounds_up (2^64 - 1) ltac:(lia))). lia.
Defined.

(* ===================================================================== *)
(** * stat.bin and work.bin *)
(* ===================================================================== *)

Section StatAndWork.
Context `{Platform}.

Definition stat_bin_path (root : string) : string :=
  pkgi_snprintf 256 (root +:+ "/sce_sys/package/stat.bin").

Definition work_bin_path (root : string) : string :=
  pkgi_snprintf 256 (root +:+ "/sce_sys/package/work.bin").

Lemma create_stat_run d r d' :
  create_stat d = (Ret r, d') ->
  d' = set_fs (<[stat_bin_path (root d) := File (replicate 768 x00)]> (fs d)) d.
Proof.
  unfold create_stat, stat_bin_path, bind, get, pkgi_save, ret, throw.
  intros Hrun.
  by repeat (cbv beta zeta in *; case_match; simplify_eq/=; try done).
Qed.

Lemma create_rif_run rif d r d' :
  create_rif rif d = (Ret r, d') ->
  d' = set_fs (<[work_bin_path (root d)
                 := File (slice rif 0 PKGI_RIF_SIZE)]> (fs d)) d.
Proof.
  unfold create_rif, work_bin_path, bind, get, pkgi_save, ret, throw.
  intros Hrun.
  by repeat (cbv beta zeta in *; case_match; simplify_eq/=; try done).
Qed.

Lemma check_integrity_passed digest d r d' :
  check_integrity digest d = (Ret r, d') ->
  fs d' = fs d /\ root d' = root d /\ content_type d' = content_type d.
Proof.
  unfold check_integrity, bind, get, modify, pkgi_rm, ret, throw.
  intros Hrun.
  by repeat (cbv beta zeta in *; case_match; simplify_eq/=; try done).
Qed.

(** X8.  The last phases of pkgi_download (lines 622-632): when it returns 1,
    the package not being of content type 6, stat.bin holds 768 zero
    bytes; and with a RIF, work.bin holds its first PKGI_RIF_SIZE bytes.
    (The two paths are cut to 255 characters; stat.bin is as said when no
    RIF is given or the cut leaves the paths apart.) *)
Theorem pkgi_download_leaves_stat_and_work content url rif digest d d' :
  pkgi_download content url rif digest d = (Ret 1, d') ->
  (forall r, rif = Some r ->
     fs d' !! work_bin_path (root d')
     = Some (File (slice r 0 PKGI_RIF_SIZE)))
  /\ (content_type d' <> 6 ->
      rif = None \/ stat_bin_path (root d') <> work_bin_path (root d') ->
      fs d' !! stat_bin_path (root d') = Some (File (replicate 768 x00))).
Proof.
  intros Hrun. rewrite pkgi_download_phases in Hrun. unfold phases in Hrun.
  apply bind_ret in Hrun as (r1 & d1 & Hhead & Hrun).
  destruct (r1 =? 0); [discriminate|].
  apply bind_ret in Hrun as (r2 & d2 & Hfiles & Hrun).
  destruct (r2 =? 0); [discriminate|].
  apply bind_ret in Hrun as (r3 & d3 & Htail & Hrun).
  destruct (r3 =? 0); [discriminate|].
  apply bind_ret in Hrun as (d3' & d3'' & [= <- <-] & Hrun).
  apply bind_ret in Hrun as (r4 & d4 & Hstat & Hrun).
  destruct (r4 =? 0); [discriminate|].
  apply bind_ret in Hrun as (r5 & d5 & Hcheck & Hrun).
  apply check_integrity_passed in Hcheck as (Hfs5 & Hroot5 & Hct5).
  destruct (r5 =? 0); [discriminate|].
  apply bind_ret in Hrun as (r6 & d6 & Hrif & Hrun).
  destruct (r6 =? 0); [discriminate|].
  injection Hrun as <-.
  assert (content_type d3 <> 6 ->
          fs d4 !! stat_bin_path (root d3) = Some (File (replicate 768 x00))
          /\ root d4 = root d3 /\ content_type d4 = content_type d3)
    as Hstat4.
  { intros Hct. apply Z.eqb_neq in Hct. rewrite Hct in Hstat.
    apply create_stat_run in Hstat as ->. cbn.
    by rewrite lookup_insert_eq. }
  assert (content_type d4 = content_type d3 /\ root d4 = root d3)
    as [Hct4 Hroot4].
  { destruct (negb _); [|by injection Hstat as _ <-].
    by apply create_stat_run in Hstat as ->. }
  destruct rif as [r|].
  - apply create_rif_run in Hrif as ->. cbn. split.
    + intros r' [= <-]. rewrite Hroot5. apply lookup_insert_eq.
    + intros Hct [?|Hapart]; [done|].
      cbn in Hapart. rewrite lookup_insert_ne by congruence.
      rewrite Hroot5, Hfs5, Hroot4. apply Hstat4. congruence.
  - injection Hrif as _ <-. split; [done|]. intros Hct _.
    rewrite Hroot5, Hfs5, Hroot4. apply Hstat4. congruence.
Qed.

End StatAndWork.

Lemma pkgi_download_leaves_stat_and_work_witness :
  let rif := replicate 16 x00 ++ slice s1_pkg 48 48 ++ replicate 16 x07 in
  let d := fresh_download (fresh_http s1_pkg 64) ∅ in
  let run := @pkgi_download test_platform test_content_id test_url
               (Some rif) None d in
  fs (snd run) !! (root (snd run) +:+ "/sce_sys/package/work.bin")
  = Some (File (take 64 rif))
  /\ fs (snd run) !! (root (snd run) +:+ "/sce_sys/package/stat.bin")
     = Some (File (replicate 768 x00)).
Proof.
  intros rif d run.
  destruct (@pkgi_download_leaves_stat_and_work test_platform
              test_content_id test_url (Some rif) None d (snd run))
    as [Hwork Hstat].
  - vm_compute. reflexivity.
  - split.
    + replace (root (snd run) +:+ "/sce_sys/package/work.bin")
        with (work_bin_path (root (snd run))) by (vm_compute; reflexivity).
      rewrite (Hwork rif eq_refl). vm_compute. reflexivity.
    + replace (root (snd run) +:+ "/sce_sys/package/stat.bin")
        with (stat_bin_path (root (snd run))) by (vm_compute; reflexivity).
      apply Hstat.
      * vm_compute. discriminate.
      * right. vm_compute. discriminate.
Defined.

(* ===================================================================== *)
(** * Entries that are not files *)
(* ===================================================================== *)

Lemma dir_prefixes_last (pre rest : string) :
  pre +:+ rest ∈ dir_prefixes pre rest.
Proof.
  revert pre. induction rest as [|c rest IH]; intros pre; simpl.
  - rewrite append_nil_r. set_solver.
  - destruct (bool_decide _) eqn:Hc.
    + apply bool_decide_eq_true_1 in Hc as ->. apply elem_of_cons. right.
      specialize (IH (pre +:+ "/")). by rewrite append_assoc in IH.
    + specialize (IH (pre +:+ String c "")). by rewrite append_assoc in IH.
Qed.

Section NotFiles.
Context `{Platform}.

(** X9.  Index entries of type 4 (directories) and 18 in a package that is
    not of content type 6 (lines 424-432): download_files goes on to the
    next entry without reading a byte: the stream, the offset and the
    hash are as before, and no file is created or changed.  For a
    directory, [pkgi_mkdirs] is called on its path and its result is
    dropped: the entry is passed even when the directory cannot be made;
    when it can, the directory exists afterwards.  An entry of type 18
    leaves the file system as it is. *)
Theorem entries_that_are_not_files index d r d' :
  let e := read_index_entry d index in
  let path := content_path (root d) (read_item_name d e) in
  content_type d <> 6 -> name_fits d e = true ->
  item_type e = 4 \/ item_type e = 18 ->
  download_file index d = (r, d') ->
  r = Ret true
  /\ http d' = http d /\ download_offset d' = download_offset d
  /\ sha d' = sha d
  /\ (forall p data,
        fs d' !! p = Some (File data) <-> fs d !! p = Some (File data))
  /\ (item_type e = 4 -> mkdirs_ok path (fs d) = true ->
      is_Some (fs d' !! path))
  /\ (item_type e = 18 -> fs d' = fs d).
Proof.
  intros e path Hct Hfit Htype Hrun.
  rewrite download_file_content in Hrun by done. subst e path.
  unfold materialise in Hrun. rewrite run_bind_get in Hrun.
  destruct Htype as [Htype|Htype]; rewrite Htype in Hrun;
    cbn [Z.eqb Pos.eqb] in Hrun.
  - assert (item_type (read_index_entry d index) = 18 -> False) as Hno18
      by congruence.
    unfold bind, pkgi_mkdirs, ret in Hrun. cbn in Hrun.
    destruct (mkdirs_ok _ (fs d)) eqn:Hok; injection Hrun as <- <-; cbn.
    + repeat split; try done.
      all: try (by intros ?%fs_mkdirs_file).
      all: try (intros ?; by apply fs_mkdirs_file).
      all: try (intros _ _; apply fs_mkdirs_makes;
                apply (dir_prefixes_last "")).
    + repeat split; try done.
      all: try (by intros ?%fs_mkdirs_upto_file).
      all: try (intros ?; by apply fs_mkdirs_upto_file).
  - assert (item_type (read_index_entry d index) = 4 -> False) as Hno4
      by congruence.
    injection Hrun as <- <-. cbn. by repeat split.
Qed.

End NotFiles.

(** A package with a directory, an entry of type 18 and a file in the
    directory. *)
Definition s4_files : list test_file :=
  [ {| tf_name := "sub"; tf_type := 4; tf_data := []; tf_skew := 0 |};
    {| tf_name := "skip"; tf_type := 18; tf_data := []; tf_skew := 0 |};
    {| tf_name := "sub/x.bin"; tf_type := 0; tf_data := x_bin;
       tf_skew := 0 |} ].
Definition s4_pkg : list byte := test_pkg 21 2 s4_files s1_tail.

Lemma entries_that_are_not_files_witness :
  let d := snd (@download_head test_platform None
                  (@session_start test_platform test_content_id test_url
                     (fresh_download (fresh_http s4_pkg 64) ∅))) in
  let run := @download_file test_platform 0 d in
  fst run = Ret true
  /\ http (snd run) = http d
  /\ fs (snd run) !! (root d +:+ "/sub") = Some Dir
  /\ fst (run_pipeline s4_pkg 64 None None) = Ret 1.
Proof.
  intros d run.
  destruct (@entries_that_are_not_files test_platform 0 d (fst run) (snd run))
    as (Hr & Hhttp & _).
  - vm_compute. discriminate.
  - vm_compute. reflexivity.
  - left. vm_compute. reflexivity.
  - apply surjective_pairing.
  - split; [exact Hr|]. split; [exact Hhttp|].
    split; vm_compute; reflexivity.
Defined.

(* ===================================================================== *)
(** * Where download_files writes, and the open file *)
(* ===================================================================== *)

Lemma substring_0_append (a b : string) (n : nat) :
  (String.length a <= n)%nat ->
  String.substring 0 n (a +:+ b)
  = a +:+ String.substring 0 (n - String.length a) b.
Proof.
  revert n. induction a as [|c a IH]; intros n Hn.
  - rewrite !append_nil_l. simpl. by rewrite Nat.sub_0_r.
  - simpl in Hn. destruct n as [|n]; [lia|].
    rewrite !append_cons. simpl. by rewrite IH by lia.
Qed.

Section WrittenPaths.
Context `{Platform}.

(** [root/name], cut to the size of [item_path]. *)
Definition content_file (rt : string) (p : string) : Prop :=
  exists name, p = content_path rt name.

Lemma download_file_under_root index d r d' :
  content_type d <> 6 -> download_file index d = (r, d') ->
  confined (content_file (root d)) d d'.
Proof.
  intros Hct Hrun.
  destruct (name_fits d (read_index_entry d index)) eqn:Hfit.
  2: { rewrite download_file_unfit in Hrun by done.
       injection Hrun as <- <-. apply confined_refl. }
  rewrite download_file_content in Hrun by done.
  apply materialise_confined in Hrun as (Hr & Hc & Hfs).
  split; [exact Hr|]. split; [exact Hc|]. intros p data Hp.
  destruct (Hfs _ _ Hp) as [Hp'| ->]; [by left|].
  right. by eexists.
Qed.

Lemma download_entries_under_root n index d r d' :
  content_type d <> 6 -> download_entries n index d = (r, d') ->
  confined (content_file (root d)) d d'.
Proof.
  revert index d. induction n as [|n IH]; intros index d Hct Hrun;
    simpl in Hrun.
  { injection Hrun as <- <-. apply confined_refl. }
  apply bind_run in Hrun as [(ok & d1 & Hfile & Hrun)|(r1 & Hfile & _)];
    [|by eapply download_file_under_root].
  pose proof (download_file_under_root _ _ _ _ Hct Hfile) as Hc1.
  eapply confined_trans; [exact Hc1|].
  destruct (negb ok); [injection Hrun as <- <-; apply confined_refl|].
  destruct Hc1 as (Hroot & Hct1 & _). rewrite <- Hroot.
  apply (IH (index + 1) d1); [congruence|exact Hrun].
Qed.

(** X10.  download_files, for a package that is not of content type 6: however
    it ends, every regular file of the device is as it was before, or is
    at a path [root/name], cut to the size of [item_path]; and, [root]
    leaving room for the slash, such a path starts with [root/]. *)
Theorem download_files_writes_under_root d r d' :
  content_type d <> 6 -> download_files d = (r, d') ->
  (forall p data,
     fs d' !! p = Some (File data) ->
     fs d !! p = Some (File data) \/ content_file (root d) p)
  /\ ((String.length (root d) + 1 <= PATH_CAP - 1)%nat ->
      forall p, content_file (root d) p ->
                starts_with (root d +:+ "/") p = true).
Proof.
  intros Hct Hrun. split.
  - unfold download_files in Hrun.
    apply scope_exit_run in Hrun as (d1 & Hrun & ->).
    rewrite run_bind_get in Hrun. cbn.
    apply bind_run in Hrun as [(ok & d2 & Hen & Hrun)|(r1 & Hen & _)].
    + pose proof (download_entries_under_root _ _ _ _ _ Hct Hen)
        as (_ & _ & Hc).
      destruct (negb ok); [by injection Hrun as <- <-|].
      rewrite run_bind_modify in Hrun. by injection Hrun as <- <-.
    + by destruct (download_entries_under_root _ _ _ _ _ Hct Hen)
        as (_ & _ & Hc).
  - intros Hroom p [name ->]. unfold content_path, pkgi_snprintf.
    rewrite <- append_assoc.
    rewrite substring_0_append
      by (rewrite string_length_append; simpl; lia).
    apply starts_with_append.
Qed.

(** The three phases that open files close them, however they end. *)
Lemma download_head_closed rif d r d' :
  download_head rif d = (r, d') -> item_file d' = None.
Proof.
  unfold download_head. rewrite !run_bind_modify.
  by intros (dx & _ & ->)%scope_exit_run.
Qed.

Lemma download_files_closed d r d' :
  download_files d = (r, d') -> item_file d' = None.
Proof. unfold download_files. by intros (dx & _ & ->)%scope_exit_run. Qed.

Lemma download_tail_closed d r d' :
  download_tail d = (r, d') -> item_file d' = None.
Proof. unfold download_tail. by intros (dx & _ & ->)%scope_exit_run. Qed.

Lemma create_stat_file d r d' :
  create_stat d = (r, d') -> item_file d' = item_file d.
Proof.
  unfold create_stat, bind, get, pkgi_save, ret, throw. intros Hrun.
  by repeat (cbv beta zeta in *; case_match; simplify_eq/=; try done).
Qed.

Lemma create_rif_file rif d r d' :
  create_rif rif d = (r, d') -> item_file d' = item_file d.
Proof.
  unfold create_rif, bind, get, pkgi_save, ret, throw. intros Hrun.
  by repeat (cbv beta zeta in *; case_match; simplify_eq/=; try done).
Qed.

Lemma check_integrity_file digest d r d' :
  check_integrity digest d = (r, d') -> item_file d' = item_file d.
Proof.
  unfold check_integrity, bind, get, modify, pkgi_rm, ret, throw.
  intros Hrun.
  by repeat (cbv beta zeta in *; case_match; simplify_eq/=; try done).
Qed.

(** X11.  pkgi_download leaves no file open: however it ends, with 1, with 0
    after a cancellation or with an exception, [item_file] is NULL. *)
Theorem pkgi_download_closes_the_file content url rif digest d r d' :
  pkgi_download content url rif digest d = (r, d') -> item_file d' = None.
Proof.
  intros Hrun. rewrite pkgi_download_phases in Hrun. unfold phases in Hrun.
  apply bind_run in Hrun as [(r1 & d1 & Hhead & Hrun)|(r1 & Hhead & _)];
    [|by eapply download_head_closed].
  apply download_head_closed in Hhead.
  destruct (r1 =? 0); [by injection Hrun as <- <-|].
  apply bind_run in Hrun as [(r2 & d2 & Hfiles & Hrun)|(r2 & Hfiles & _)];
    [|by eapply download_files_closed].
  apply download_files_closed in Hfiles.
  destruct (r2 =? 0); [by injection Hrun as <- <-|].
  apply bind_run in Hrun as [(r3 & d3 & Htail & Hrun)|(r3 & Htail & _)];
    [|by eapply download_tail_closed].
  apply download_tail_closed in Htail.
  destruct (r3 =? 0); [by injection Hrun as <- <-|].
  rewrite run_bind_get in Hrun.
  assert (forall r4 d4,
            (if negb (content_type d3 =? 6) then create_stat else ret 1) d3
            = (r4, d4) -> item_file d4 = None) as Hstat.
  { intros r4 d4 Hs. destruct (negb _).
    - apply create_stat_file in Hs. congruence.
    - by injection Hs as _ <-. }
  apply bind_run in Hrun as [(r4 & d4 & Hs & Hrun)|(r4 & Hs & _)];
    [|by eapply Hstat].
  apply Hstat in Hs.
  destruct (r4 =? 0); [by injection Hrun as <- <-|].
  apply bind_run in Hrun as [(r5 & d5 & Hcheck & Hrun)|(r5 & Hcheck & _)];
    [|apply check_integrity_file in Hcheck; congruence].
  apply check_integrity_file in Hcheck.
  destruct (r5 =? 0); [injection Hrun as <- <-; congruence|].
  assert (forall r6 d6,
            match rif with Some rif => create_rif rif | None => ret 1 end d5
            = (r6, d6) -> item_file d6 = None) as Hrif.
  { intros r6 d6 Hr. destruct rif.
    - apply create_rif_file in Hr. congruence.
    - injection Hr as _ <-. congruence. }
  apply bind_run in Hrun as [(r6 & d6 & Hr & Hrun)|(r6 & Hr & _)];
    [|by eapply Hrif].
  apply Hrif in Hr.
  destruct (r6 =? 0); by injection Hrun as <- <-.
Qed.

End WrittenPaths.

Lemma download_files_writes_under_root_witness :
  let d := snd (@download_head test_platform None
                  (@session_start test_platform test_content_id test_url
                     (fresh_download (fresh_http s1_pkg 64) ∅))) in
  let run := @download_files test_platform d in
  let p := "ux0:pkgj/EP0000-PCSB00000_00-0000000000000000/x.bin" in
  fs (snd run) !! p = Some (File x_bin)
  /\ fs d !! p = None
  /\ starts_with "ux0:pkgj/EP0000-PCSB00000_00-0000000000000000/" p = true.
Proof.
  intros d run p.
  assert (fs (snd run) !! p = Some (File x_bin)) as Hp
    by (vm_compute; reflexivity).
  assert (fs d !! p = None) as Hnone by (vm_compute; reflexivity).
  split; [exact Hp|]. split; [exact Hnone|].
  destruct (@download_files_writes_under_root test_platform d (fst run)
              (snd run)) as [Hfs Hstarts].
  - vm_compute. discriminate.
  - apply surjective_pairing.
  - destruct (Hfs p x_bin Hp) as [Hold|Hnew].
    + rewrite Hnone in Hold. discriminate.
    + apply (Hstarts ltac:(vm_compute; lia) p Hnew).
Defined.

Lemma pkgi_download_closes_the_file_witness :
  let d := fresh_download (fresh_http (take 350 s1_pkg) 64) ∅ in
  let run := @pkgi_download test_platform test_content_id test_url None None d in
  fst run = Throw HttpConnectionClosed /\ item_file (snd run) = None.
Proof.
  intros d run. split; [vm_compute; reflexivity|].
  apply (@pkgi_download_closes_the_file test_platform test_content_id
           test_url None None d (fst run)).
  apply surjective_pairing.
Defined.

(* ===================================================================== *)
(** * install.cpp: the other destinations *)
(* ===================================================================== *)

Section Destinations.
Context `{Platform} `{Host}.

(** [pkgi_mkdirs(path)] where its result is dropped. *)
Definition mkdirs_on (path : string) (fs : filesystem) : filesystem :=
  if mkdirs_ok path fs then fs_mkdirs path fs
  else fs_mkdirs_upto (mkdirs_made path fs) path fs.

(** Modelled from the spec: [pkgi_rename] of [file.cpp], the "rename" of
    the I/O facade, with the failure "cannot rename" as an exception. *)
Definition pkgi_rename (from to : string) (fs : filesystem)
  : InstallError + filesystem :=
  let res := sceIoRename_res from to fs in
  if res <? 0 then inl (CannotRename (u32 res))
  else inr (fs_rename from to fs).

Definition pkgi_dlc_is_installed (content : string) (fs : filesystem)
  : result bool :=
  if (String.length content <? 20)%nat then Undefined
  else Done (pkgi_file_exists
               ("ux0:addcont/" +:+ String.substring 7 9 content +:+ "/"
                +:+ String.substring 20 16 content) fs).

Definition pkgi_psm_is_installed (titleid : string) (fs : filesystem) : bool :=
  pkgi_file_exists ("ux0:psm/" +:+ titleid) fs.

Definition pkgi_psp_is_installed (psppartition content : string)
    (fs : filesystem) : result bool :=
  if (String.length content <? 7)%nat then Undefined
  else Done
    (pkgi_file_exists
       (psppartition +:+ "pspemu/ISO/" +:+ titleid_of content +:+ ".iso") fs
     || pkgi_file_exists
          (psppartition +:+ "pspemu/PSP/GAME/" +:+ titleid_of content) fs).

Definition pkgi_psx_is_installed (psppartition content : string)
    (fs : filesystem) : result bool :=
  if (String.length content <? 7)%nat then Undefined
  else Done
    (pkgi_file_exists
       (psppartition +:+ "pspemu/PSP/GAME/" +:+ titleid_of content) fs).

Definition pkgi_install_psmgame (contentid : string) (fs : filesystem)
  : result unit * filesystem :=
  if (String.length contentid <? 7)%nat then (Undefined, fs)
  else
  let fs1 := mkdirs_on "ux0:psm" fs in
  let titleid := titleid_of contentid in
  let src := "ux0:pkgj/" +:+ contentid in
  let dest := "ux0:psm/" +:+ titleid in
  let res := sceIoRename_res src dest fs1 in
  if res <? 0 then (Raise (CannotRename (u32 res)), fs1)
  else (Done tt, fs_rename src dest fs1).

Definition pkgi_install_pspgame (partition contentid : string)
    (fs : filesystem) : result unit * filesystem :=
  if (String.length contentid <? 7)%nat then (Undefined, fs)
  else
  let path := partition +:+ "pkgj/" +:+ contentid in
  let dest := partition +:+ "pspemu/PSP/GAME/" +:+ titleid_of contentid in
  let fs1 := mkdirs_on (partition +:+ "pspemu/PSP/GAME") fs in
  let res := sceIoRename_res path dest fs1 in
  if res <? 0 then (Raise (CannotRename (u32 res)), fs1)
  else (Done tt, fs_rename path dest fs1).

Definition pkgi_install_pspgame_as_iso (partition contentid : string)
    (fs : filesystem) : result unit * filesystem :=
  if (String.length contentid <? 7)%nat then (Undefined, fs)
  else
  let path := partition +:+ "pkgj/" +:+ contentid in
  let dest := partition +:+ "pspemu/PSP/GAME/" +:+ titleid_of contentid in
  let eboot := path +:+ "/EBOOT.PBP" in
  let content := path +:+ "/CONTENT.DAT" in
  let pspkey := path +:+ "/PSP-KEY.EDAT" in
  let isodest :=
    partition +:+ "pspemu/ISO/" +:+ titleid_of contentid +:+ ".iso" in
  let fs1 := mkdirs_on (partition +:+ "pspemu/ISO") fs in
  match pkgi_rename eboot isodest fs1 with
  | inl e => (Raise e, fs1)
  | inr fs2 =>
      let content_exists := pkgi_file_exists content fs2 in
      let pspkey_exists := pkgi_file_exists pspkey fs2 in
      let fs3 := if content_exists || pspkey_exists
                 then mkdirs_on dest fs2 else fs2 in
      match (if content_exists
             then pkgi_rename content (dest +:+ "/CONTENT.DAT") fs3
             else inr fs3) with
      | inl e => (Raise e, fs3)
      | inr fs4 =>
          match (if pspkey_exists
                 then pkgi_rename pspkey (dest +:+ "/PSP-KEY.EDAT") fs4
                 else inr fs4) with
          | inl e => (Raise e, fs4)
          | inr fs5 => (Done tt, pkgi_delete_dir path fs5)
          end
      end
  end.




(** [pkgi_extract_zip(src, dest)] of [extractzip.cpp]: the file system
    with the archive unpacked, or nothing when it throws. *)
Variable pkgi_extract_zip : string -> string -> filesystem -> option filesystem.


End Destinations.

(* ===================================================================== *)
(** * More on paths and renaming *)
(* ===================================================================== *)

Lemma under_below (dir p : string) :
  under dir p = true -> exists rest, p = dir +:+ rest /\ below rest.
Proof.
  unfold under. intros [Heq|Hpre]%orb_prop.
  - apply bool_decide_eq_true_1 in Heq as ->. exists "".
    split; [by rewrite append_nil_r|by left].
  - apply starts_with_inv in Hpre as [r ->]. exists ("/" +:+ r).
    split; [by rewrite append_assoc|by right].
Qed.

(** A path neither below [src] nor below [dest] is not concerned. *)
Lemma fs_rename_outside src dest p (fs : filesystem) :
  under src p = false -> under dest p = false ->
  fs_rename src dest fs !! p = fs !! p.
Proof.
  intros Hsrc Hdest. unfold fs_rename. rewrite lookup_union_r.
  - destruct (fs !! p) as [n|] eqn:Hn.
    + by apply map_lookup_filter_Some.
    + apply map_lookup_filter_None. by left.
  - apply not_elem_of_list_to_map_1.
    intros ([k n] & Hk & ([q m] & [= -> ->] & Hin)%list_elem_of_fmap)
      %list_elem_of_fmap.
    simpl in Hk. subst p.
    apply elem_of_map_to_list, map_lookup_filter_Some in Hin as [_ Hq].
    simpl in Hq. apply under_below in Hq as (r & -> & Hr).
    rewrite rebase_append, under_append in Hdest; done.
Qed.

(** Nothing stays below [src]. *)
Lemma fs_rename_source_gone src dest p (fs : filesystem) :
  under src p = true -> under dest p = false ->
  fs_rename src dest fs !! p = None.
Proof.
  intros Hsrc Hdest. unfold fs_rename. rewrite lookup_union_r.
  - apply map_lookup_filter_None. right. intros n _. simpl. by rewrite Hsrc.
  - apply not_elem_of_list_to_map_1.
    intros ([k n] & Hk & ([q m] & [= -> ->] & Hin)%list_elem_of_fmap)
      %list_elem_of_fmap.
    simpl in Hk. subst p.
    apply elem_of_map_to_list, map_lookup_filter_Some in Hin as [_ Hq].
    simpl in Hq. apply under_below in Hq as (r & -> & Hr).
    rewrite rebase_append, under_append in Hdest; done.
Qed.

(** What was at [src +:+ rest] is at [dest +:+ rest]. *)
Lemma fs_rename_moved src dest rest n (fs : filesystem) :
  below rest -> fs !! (src +:+ rest) = Some n ->
  fs_rename src dest fs !! (dest +:+ rest) = Some n.
Proof.
  intros Hrest Hn. unfold fs_rename.
  apply lookup_union_Some_l. apply elem_of_list_to_map_1'.
  - intros y ([q m] & [= Hq ->] & Hin)%list_elem_of_fmap.
    apply elem_of_map_to_list, map_lookup_filter_Some in Hin as [Hm Hq'].
    simpl in Hq'. apply under_below in Hq' as (r & -> & Hr).
    rewrite rebase_append in Hq. apply append_inj_l in Hq as ->. congruence.
  - apply list_elem_of_fmap. exists (src +:+ rest, n). split.
    + simpl. by rewrite rebase_append.
    + apply elem_of_map_to_list, map_lookup_filter_Some.
      split; [done|]. simpl. by apply under_append.
Qed.

Lemma fs_rename_moved_root src dest n (fs : filesystem) :
  fs !! src = Some n -> fs_rename src dest fs !! dest = Some n.
Proof.
  intros Hn. pose proof (fs_rename_moved src dest "" n fs) as Hmoved.
  rewrite !append_nil_r in Hmoved. apply Hmoved; [by left|done].
Qed.

Lemma starts_with_common (pre a b : string) :
  starts_with (pre +:+ a) (pre +:+ b) = starts_with a b.
Proof.
  induction pre as [|c pre IH]; [done|]. rewrite !append_cons. simpl.
  by rewrite Ascii.eqb_refl.
Qed.

Lemma under_common (pre a b : string) :
  under (pre +:+ a) (pre +:+ b) = under a b.
Proof.
  unfold under. rewrite append_assoc, starts_with_common. f_equal.
  apply bool_decide_ext. split; [apply String.app_inj|congruence].
Qed.

Lemma mkdirs_on_kept `{Platform} path (fs : filesystem) p n :
  fs !! p = Some n -> mkdirs_on path fs !! p = Some n.
Proof.
  intros Hn. unfold mkdirs_on. destruct (mkdirs_ok path fs).
  - destruct (fs_mkdirs_lookup path fs p) as [->|[Hnone _]]; congruence.
  - destruct (fs_mkdirs_upto_lookup (mkdirs_made path fs) path fs p)
      as [->|[Hnone _]]; congruence.
Qed.


Lemma pkgi_file_exists_true p n (fs : filesystem) :
  fs !! p = Some n -> pkgi_file_exists p fs = true.
Proof.
  intros Hn. unfold pkgi_file_exists. apply bool_decide_eq_true_2. by eexists.
Qed.

(** Two paths that part ways at a character that is written out. *)
Ltac apart :=
  rewrite ?append_assoc; rewrite ?under_common;
  unfold under; rewrite ?append_cons, ?append_nil_l;
  apply orb_false_intro;
  [apply bool_decide_eq_false_2; congruence|simpl; reflexivity].

Section DestinationFacts.
Context `{Platform} `{Host}.

(** X12.  Installing a PSM game: when [pkgi_install_psmgame] returns, whatever
    was staged under ux0:pkgj/<contentid> is found at the same place under
    ux0:psm/<titleid>, nothing is left of the staging directory, and
    [pkgi_psm_is_installed] answers true for the title.  When it throws,
    the exception is the one of the failed rename and nothing that was on
    the device has been lost. *)
Theorem psm_game_installed contentid (fs : filesystem) r fs' :
  pkgi_install_psmgame contentid fs = (r, fs') ->
  (7 <= String.length contentid)%nat ->
  (r = Done tt ->
     (forall rest n, below rest ->
        fs !! (("ux0:pkgj/" +:+ contentid) +:+ rest) = Some n ->
        fs' !! (("ux0:psm/" +:+ titleid_of contentid) +:+ rest) = Some n)
     /\ (forall rest, below rest ->
           fs' !! (("ux0:pkgj/" +:+ contentid) +:+ rest) = None)
     /\ (is_Some (fs !! ("ux0:pkgj/" +:+ contentid)) ->
         pkgi_psm_is_installed (titleid_of contentid) fs' = true))
  /\ (forall e, r = Raise e ->
        (exists res, e = CannotRename res)
        /\ forall p n, fs !! p = Some n -> fs' !! p = Some n).
Proof.
  intros Hrun Hlen. unfold pkgi_install_psmgame in Hrun.
  assert ((String.length contentid <? 7)%nat = false) as Hlong
    by (apply Nat.ltb_ge; lia).
  rewrite Hlong in Hrun. cbv zeta in Hrun.
  destruct (sceIoRename_res _ _ _ <? 0); injection Hrun as <- <-.
  { split; [done|]. intros e [= <-]. split; [by eexists|].
    intros p n. apply mkdirs_on_kept. }
  split; [|done]. intros _.
  assert (forall rest n, below rest ->
    fs !! (("ux0:pkgj/" +:+ contentid) +:+ rest) = Some n ->
    fs_rename ("ux0:pkgj/" +:+ contentid)
      ("ux0:psm/" +:+ titleid_of contentid) (mkdirs_on "ux0:psm" fs)
      !! (("ux0:psm/" +:+ titleid_of contentid) +:+ rest) = Some n)
    as Hmoved.
  { intros rest n Hrest Hn. apply fs_rename_moved; [done|].
    by apply mkdirs_on_kept. }
  split; [exact Hmoved|]. split.
  - intros rest Hrest. apply fs_rename_source_gone.
    + by apply under_append.
    + apart.
  - intros [n Hn]. unfold pkgi_psm_is_installed.
    apply (pkgi_file_exists_true _ n).
    apply fs_rename_moved_root. by apply mkdirs_on_kept.
Qed.

(** X13.  Installing a PSP or PSX game: when [pkgi_install_pspgame] returns,
    what was staged under <partition>pkgj/<contentid> is found under
    <partition>pspemu/PSP/GAME/<titleid>, nothing is left of the staging
    directory, and [pkgi_psp_is_installed] and [pkgi_psx_is_installed]
    both answer true. *)
Theorem psp_game_installed partition contentid (fs : filesystem) fs' :
  pkgi_install_pspgame partition contentid fs = (Done tt, fs') ->
  let path := partition +:+ "pkgj/" +:+ contentid in
  let dest := partition +:+ "pspemu/PSP/GAME/" +:+ titleid_of contentid in
  (forall rest n, below rest ->
     fs !! (path +:+ rest) = Some n -> fs' !! (dest +:+ rest) = Some n)
  /\ (forall rest, below rest -> fs' !! (path +:+ rest) = None)
  /\ (is_Some (fs !! path) ->
      pkgi_psp_is_installed partition contentid fs' = Done true
      /\ pkgi_psx_is_installed partition contentid fs' = Done true).
Proof.
  intros Hrun path dest. unfold pkgi_install_pspgame in Hrun.
  destruct (String.length contentid <? 7)%nat eqn:Hlong; [done|].
  cbv zeta in Hrun. fold path dest in Hrun.
  destruct (sceIoRename_res _ _ _ <? 0); [done|]. injection Hrun as <-.
  assert (forall rest n, below rest ->
    fs !! (path +:+ rest) = Some n ->
    fs_rename path dest (mkdirs_on (partition +:+ "pspemu/PSP/GAME") fs)
      !! (dest +:+ rest) = Some n) as Hmoved.
  { intros rest n Hrest Hn. apply fs_rename_moved; [done|].
    by apply mkdirs_on_kept. }
  split; [exact Hmoved|]. split.
  - intros rest Hrest. apply fs_rename_source_gone.
    + by apply under_append.
    + unfold dest, path. apart.
  - intros [n Hn].
    assert (pkgi_file_exists dest
              (fs_rename path dest
                 (mkdirs_on (partition +:+ "pspemu/PSP/GAME") fs)) = true)
      as Hdest.
    { apply (pkgi_file_exists_true _ n).
      apply fs_rename_moved_root. by apply mkdirs_on_kept. }
    unfold pkgi_psp_is_installed, pkgi_psx_is_installed.
    rewrite Hlong. fold dest. rewrite Hdest. by rewrite orb_true_r.
Qed.

(** X14.  Installing a PSP game as an ISO: when [pkgi_install_pspgame_as_iso]
    returns, the staged EBOOT.PBP is the file
    <partition>pspemu/ISO/<titleid>.iso, a staged CONTENT.DAT or
    PSP-KEY.EDAT is found under <partition>pspemu/PSP/GAME/<titleid>,
    nothing is left of the staging directory, and [pkgi_psp_is_installed]
    answers true. *)
Theorem psp_iso_installed partition contentid (fs : filesystem) fs' :
  pkgi_install_pspgame_as_iso partition contentid fs = (Done tt, fs') ->
  let path := partition +:+ "pkgj/" +:+ contentid in
  let dest := partition +:+ "pspemu/PSP/GAME/" +:+ titleid_of contentid in
  let isodest :=
    partition +:+ "pspemu/ISO/" +:+ titleid_of contentid +:+ ".iso" in
  (forall n, fs !! (path +:+ "/EBOOT.PBP") = Some n ->
     fs' !! isodest = Some n
     /\ pkgi_psp_is_installed partition contentid fs' = Done true)
  /\ (forall n, fs !! (path +:+ "/CONTENT.DAT") = Some n ->
        fs' !! (dest +:+ "/CONTENT.DAT") = Some n)
  /\ (forall rest, below rest -> fs' !! (path +:+ rest) = None).
Proof.
  intros Hrun path dest isodest. unfold pkgi_install_pspgame_as_iso in Hrun.
  destruct (String.length contentid <? 7)%nat eqn:Hlong; [done|].
  cbv zeta in Hrun. fold path dest isodest in Hrun.
  set (fs1 := mkdirs_on (partition +:+ "pspemu/ISO") fs) in *.
  unfold pkgi_rename in Hrun at 1.
  destruct (sceIoRename_res _ _ fs1 <? 0); [done|].
  set (fs2 := fs_rename (path +:+ "/EBOOT.PBP") isodest fs1) in *.
  set (fs3 := if pkgi_file_exists (path +:+ "/CONTENT.DAT") fs2
                 || pkgi_file_exists (path +:+ "/PSP-KEY.EDAT") fs2
              then mkdirs_on dest fs2 else fs2) in *.
  assert (forall p n, fs2 !! p = Some n -> fs3 !! p = Some n) as H23.
  { intros p n Hn. unfold fs3. destruct (_ || _); [|done].
    by apply mkdirs_on_kept. }
  destruct (if pkgi_file_exists (path +:+ "/CONTENT.DAT") fs2 then _ else _)
    as [e|fs4] eqn:Hfs4; [done|].
  destruct (if pkgi_file_exists (path +:+ "/PSP-KEY.EDAT") fs2 then _ else _)
    as [e|fs5] eqn:Hfs5; [done|].
  injection Hrun as <-.
  assert (forall p n,
    under (path +:+ "/CONTENT.DAT") p = false ->
    under (dest +:+ "/CONTENT.DAT") p = false ->
    fs3 !! p = Some n -> fs4 !! p = Some n) as H34.
  { intros p n Hp1 Hp2 Hn.
    destruct (pkgi_file_exists (path +:+ "/CONTENT.DAT") fs2).
    - unfold pkgi_rename in Hfs4.
      destruct (sceIoRename_res _ _ fs3 <? 0); [done|].
      injection Hfs4 as <-. by rewrite fs_rename_outside.
    - by injection Hfs4 as <-. }
  assert (forall p n,
    under (path +:+ "/PSP-KEY.EDAT") p = false ->
    under (dest +:+ "/PSP-KEY.EDAT") p = false ->
    fs4 !! p = Some n -> fs5 !! p = Some n) as H45.
  { intros p n Hp1 Hp2 Hn.
    destruct (pkgi_file_exists (path +:+ "/PSP-KEY.EDAT") fs2).
    - unfold pkgi_rename in Hfs5.
      destruct (sceIoRename_res _ _ fs4 <? 0); [done|].
      injection Hfs5 as <-. by rewrite fs_rename_outside.
    - by injection Hfs5 as <-. }
  split; [|split].
  - intros n Hn.
    assert (pkgi_delete_dir path fs5 !! isodest = Some n) as Hiso.
    { rewrite pkgi_delete_dir_other by (unfold path, dest, isodest; apart).
      apply H45; [unfold path, dest, isodest; apart..|].
      apply H34; [unfold path, dest, isodest; apart..|].
      apply H23. unfold fs2.
      apply fs_rename_moved_root. by apply mkdirs_on_kept. }
    split; [exact Hiso|].
    unfold pkgi_psp_is_installed. rewrite Hlong. fold isodest.
    by rewrite (pkgi_file_exists_true _ _ _ Hiso).
  - intros n Hn.
    assert (fs2 !! (path +:+ "/CONTENT.DAT") = Some n) as Hn2.
    { unfold fs2.
      rewrite fs_rename_outside by (unfold path, dest, isodest; apart).
      by apply mkdirs_on_kept. }
    rewrite (pkgi_file_exists_true _ _ _ Hn2) in Hfs4.
    unfold pkgi_rename in Hfs4.
    destruct (sceIoRename_res _ _ fs3 <? 0); [done|].
    injection Hfs4 as <-.
    rewrite pkgi_delete_dir_other by (unfold path, dest, isodest; apart).
    apply H45; [unfold path, dest, isodest; apart..|].
    apply fs_rename_moved_root. by apply H23.
  - intros rest Hrest. by apply pkgi_delete_dir_gone.
Qed.

End DestinationFacts.

Section CompPack.
Context `{Platform}.
Variable pkgi_extract_zip : string -> string -> filesystem -> option filesystem.




End CompPack.

Section UpdateFacts.
Context `{Platform} `{Host}.

(** X16.  A failed rename in [pkgi_install_update]: the previous patch has been
    deleted all the same, what was staged is still in the staging
    directory, and the table of the shell is untouched. *)
Theorem failed_update_has_removed_patch contentid (s : Device) res s' :
  (7 <= String.length contentid)%nat ->
  pkgi_install_update contentid s = (Raise (CannotRename res), s') ->
  (forall rest, below rest ->
     dev_fs s' !! (("ux0:patch/" +:+ titleid_of contentid) +:+ rest) = None)
  /\ (forall rest,
        dev_fs s' !! (("ux0:pkgj/" +:+ contentid) +:+ rest)
        = dev_fs s !! (("ux0:pkgj/" +:+ contentid) +:+ rest))
  /\ app_db s' = app_db s.
Proof.
  intros Hlen Hrun. rewrite pkgi_install_update_run in Hrun by done.
  cbv zeta in Hrun.
  destruct (sceIoRename_res _ _ _ <? 0).
  - injection Hrun as _ <-. cbn [dev_fs app_db]. split; [|split; [|done]].
    + intros rest Hrest. unfold patch_cleared.
      by apply pkgi_delete_dir_gone.
    + intros rest. apply patch_cleared_staged.
  - repeat case_match; done.
Qed.

(** X17.  After an update has been installed, [pkgi_get_game_version] answers
    with the version [pkgi_install_update] has written to the table of the
    shell: the APP_VER of the staged param.sfo, 5 characters long. *)
Theorem installed_update_is_the_game_version contentid (s : Device) s' :
  pkgi_install_update contentid s = (Done tt, s') ->
  is_Some (dev_fs s !! ("ux0:pkgj/" +:+ contentid)) ->
  exists version,
    pkgi_get_game_version (titleid_of contentid) s' = Done version
    /\ String.length version = 5%nat
    /\ forall row,
         row ∈ app_db s' -> titleId row = titleid_of contentid ->
         key row = 3168212510 -> val row = version.
Proof.
  intros Hrun [n Hstaged].
  assert (7 <= String.length contentid)%nat as Hlen.
  { unfold pkgi_install_update in Hrun.
    destruct (String.length contentid <? 7)%nat eqn:Hshort; [done|].
    apply Nat.ltb_ge in Hshort. lia. }
  rewrite pkgi_install_update_run in Hrun by done. cbv zeta in Hrun.
  destruct (sceIoRename_res _ _ _ <? 0); [done|].
  destruct (dev_fs s !! param_sfo _) as [[sfo|]|] eqn:Hsfo; [|done..].
  destruct (bool_decide (pkgi_sfo_get_string sfo "APP_VER" = ""));
    [done|].
  destruct (String.length (pkgi_sfo_get_string sfo "APP_VER") =? 5)%nat
    eqn:Hsize; [|done].
  apply Nat.eqb_eq in Hsize.
  repeat (match type of Hrun with
          | (if ?c then _ else _) = _ => destruct c; [done|]
          end; cbn [negb] in Hrun).
  injection Hrun as <-. exists (pkgi_sfo_get_string sfo "APP_VER").
  split; [|split; [done|]].
  - unfold pkgi_get_game_version. cbn [dev_fs].
    rewrite (pkgi_file_exists_true _ n).
    2: { pose proof (renamed_lookup contentid s "" ltac:(by left)) as Hdir.
         rewrite !append_nil_r in Hdir. by rewrite Hdir. }
    unfold pkgi_extract_package_version, pkgi_load, param_sfo.
    rewrite renamed_lookup by (by right).
    unfold param_sfo in Hsfo. by rewrite Hsfo.
  - cbn [app_db]. unfold update_version.
    intros row ([old ? ?] & -> & _)%list_elem_of_fmap. simpl.
    intros Htitle Hkey.
    destruct (bool_decide _ && _) eqn:Hmatch; [done|].
    simpl in Htitle, Hkey. subst.
    by rewrite bool_decide_eq_true_2, Z.eqb_refl in Hmatch.
Qed.

End UpdateFacts.

Section VersionErrors.
Context `{Host}.

(** X18.  pkgi_get_game_version does not fall back: when ux0:patch/<titleid>
    exists and its sce_sys/param.sfo cannot be loaded, the exception of
    [pkgi_load] leaves the function, whatever ux0:app/<titleid> holds;
    and likewise for ux0:app/<titleid> when there is no patch.  The
    empty string is the answer only when neither directory exists, or
    when the param.sfo that is read has an empty APP_VER. *)
Theorem pkgi_get_game_version_errors (titleid : string) (s : Device) :
  let patch_dir := "ux0:patch/" +:+ titleid in
  let game_dir := "ux0:app/" +:+ titleid in
  (pkgi_file_exists patch_dir (dev_fs s) = true ->
   pkgi_load (param_sfo patch_dir) (dev_fs s) = None ->
   pkgi_get_game_version titleid s = Raise (CannotLoad (param_sfo patch_dir)))
  /\ (pkgi_file_exists patch_dir (dev_fs s) = false ->
      pkgi_file_exists game_dir (dev_fs s) = true ->
      pkgi_load (param_sfo game_dir) (dev_fs s) = None ->
      pkgi_get_game_version titleid s
      = Raise (CannotLoad (param_sfo game_dir)))
  /\ (pkgi_get_game_version titleid s = Done "" ->
      (pkgi_file_exists patch_dir (dev_fs s) = false
       /\ pkgi_file_exists game_dir (dev_fs s) = false)
      \/ exists sfo,
           pkgi_sfo_get_string sfo "APP_VER" = ""
           /\ (dev_fs s !! param_sfo patch_dir = Some (File sfo)
               \/ dev_fs s !! param_sfo game_dir = Some (File sfo))).
Proof.
  intros patch_dir game_dir. unfold pkgi_get_game_version.
  fold patch_dir game_dir. unfold pkgi_extract_package_version.
  split; [|split].
  - by intros -> ->.
  - by intros -> -> ->.
  - unfold pkgi_load.
    destruct (pkgi_file_exists patch_dir (dev_fs s)).
    + destruct (dev_fs s !! param_sfo patch_dir) as [[sfo|]|] eqn:Hsfo;
        [|done..].
      intros [= Hempty]. right. exists sfo. eauto.
    + destruct (pkgi_file_exists game_dir (dev_fs s)); [|by left].
      destruct (dev_fs s !! param_sfo game_dir) as [[sfo|]|] eqn:Hsfo;
        [|done..].
      intros [= Hempty]. right. exists sfo. eauto.
Qed.

End VersionErrors.

(** A device where the patch directory of the title is there, empty. *)
Definition empty_patch : Device :=
  {| dev_fs := <["ux0:patch/PCSB00000" := Dir]>
                 (<["ux0:patch/PCSB00000/sce_sys/param.sfo" := Dir]>
                    (dev_fs staged_update));
     app_db := [] |}.

Lemma pkgi_get_game_version_errors_witness :
  @pkgi_get_game_version test_host "PCSB00000" empty_patch
  = Raise (CannotLoad "ux0:patch/PCSB00000/sce_sys/param.sfo")
  /\ dev_fs empty_patch !! "ux0:app/PCSB00000/sce_sys/param.sfo"
     = Some (File (str_bytes "01.00")).
Proof.
  split; [|vm_compute; reflexivity].
  refine (proj1 (@pkgi_get_game_version_errors test_host "PCSB00000"
                   empty_patch) _ _).
  - vm_compute. reflexivity.
  - vm_compute. reflexivity.
Defined.

(** A device with a PSP game staged. *)
Definition staged_psp : filesystem :=
  list_to_map
    [ ("ux0:pkgj", Dir);
      ("ux0:pkgj/EP0000-PCSB00000_00-0000000000000000", Dir);
      ("ux0:pkgj/EP0000-PCSB00000_00-0000000000000000/EBOOT.PBP",
       File eboot_pbp);
      ("ux0:pkgj/EP0000-PCSB00000_00-0000000000000000/CONTENT.DAT",
       File [x01; x02; x03]);
      ("ux0:pkgj/PCSB00000-comp.ppk", File [x50; x4b]) ].


Lemma psm_game_installed_witness :
  let run := @pkgi_install_psmgame test_platform test_host test_content_id
               (dev_fs staged_update) in
  fst run = Done tt /\ pkgi_psm_is_installed "PCSB00000" (snd run) = true.
Proof.
  intros run. split; [vm_compute; reflexivity|].
  refine (proj2 (proj2 (proj1 (@psm_game_installed test_platform test_host
            test_content_id (dev_fs staged_update) (fst run) (snd run)
            _ _) _)) _).
  - apply surjective_pairing.
  - vm_compute. lia.
  - vm_compute. reflexivity.
  - vm_compute. by eexists.
Defined.

Lemma psp_game_installed_witness :
  let run := @pkgi_install_pspgame test_platform test_host "ux0:"
               test_content_id staged_psp in
  pkgi_psp_is_installed "ux0:" test_content_id (snd run) = Done true
  /\ pkgi_psx_is_installed "ux0:" test_content_id (snd run) = Done true.
Proof.
  intros run.
  refine (proj2 (proj2 (@psp_game_installed test_platform test_host "ux0:"
            test_content_id staged_psp (snd run) _)) _).
  - apply injective_projections; [vm_compute; reflexivity|reflexivity].
  - vm_compute. by eexists.
Defined.

Lemma psp_iso_installed_witness :
  let run := @pkgi_install_pspgame_as_iso test_platform test_host "ux0:"
               test_content_id staged_psp in
  snd run !! "ux0:pspemu/ISO/PCSB00000.iso" = Some (File eboot_pbp)
  /\ pkgi_psp_is_installed "ux0:" test_content_id (snd run) = Done true.
Proof.
  intros run.
  refine (proj1 (@psp_iso_installed test_platform test_host "ux0:"
            test_content_id staged_psp (snd run) _) (File eboot_pbp) _).
  - apply injective_projections; [vm_compute; reflexivity|reflexivity].
  - vm_compute. reflexivity.
Defined.


Lemma failed_update_has_removed_patch_witness :
  let run := @pkgi_install_update test_platform test_host
               "EP0000-PCSB00000_00-9999999999999999" staged_update in
  fst run = Raise (CannotRename 2147549186)
  /\ dev_fs (snd run) !! "ux0:patch/PCSB00000/old.bin" = None
  /\ app_db (snd run) = app_db staged_update.
Proof.
  intros run. split; [vm_compute; reflexivity|].
  destruct (@failed_update_has_removed_patch test_platform test_host
              "EP0000-PCSB00000_00-9999999999999999" staged_update
              2147549186 (snd run))
    as (Hgone & _ & Hdb).
  - vm_compute. lia.
  - vm_compute. reflexivity.
  - split; [|exact Hdb]. apply (Hgone "/old.bin"). by right.
Defined.

Lemma installed_update_is_the_game_version_witness :
  let run := @pkgi_install_update test_platform test_host
               test_content_id staged_update in
  exists version,
    @pkgi_get_game_version test_host "PCSB00000" (snd run) = Done version
    /\ String.length version = 5%nat.
Proof.
  intros run.
  destruct (@installed_update_is_the_game_version test_platform test_host
              test_content_id staged_update (snd run))
    as (version & Hversion & Hsize & _).
  - vm_compute. reflexivity.
  - vm_compute. by eexists.
  - exists version. split; [exact Hversion|exact Hsize].
Defined.
